(** * Call relay engine of the voice agent: model and verification

    A shallow embedding of [app.py], [services/openai_service.py] and
    [services/database_service.py]:

    - values exchanged with telephony and with the model are the Python
      values [json.loads] produces ([json]);
    - Python exceptions are values of [exn], and effectful code lives in a
      state-and-exception monad [M] over the record [state], which holds the
      module globals ([active_sessions], the database caches, the model
      connections), the closure variables of [media_stream_handler]
      ([call_sid], [stream_sid], [call_logger]) and the observable traces
      (what was sent on each websocket, what was logged);
    - the two pumps [twilio_to_openai] and [openai_to_twilio] are step
      functions over their input streams, and [gather] interleaves them
      under an arbitrary schedule. *)

From Stdlib Require Import ZArith String Ascii List Bool Lia.
From stdpp Require Import base option list strings pretty countable gmap fin_maps.

Import ListNotations.
Set Warnings "-register-all".
Local Open Scope Z_scope.
Local Open Scope string_scope.
Local Open Scope list_scope.

(** ** Python values *)

(** The values [json.loads] yields.  Numbers are the integers: the relay
    never computes with a number it receives. *)
Inductive json : Type :=
| JNull
| JBool (b : bool)
| JNum (n : Z)
| JStr (s : string)
| JArr (items : list json)
| JObj (fields : list (string * json)).

(** Python truthiness ([if v:]). *)
Definition truthy (v : json) : bool :=
  match v with
  | JNull => false
  | JBool b => b
  | JNum n => negb (n =? 0)%Z
  | JStr s => negb (String.eqb s "")
  | JArr items => match items with [] => false | _ :: _ => true end
  | JObj fields => match fields with [] => false | _ :: _ => true end
  end.

(** [v == "literal"]: only a string equals a string literal. *)
Definition is_str (v : json) (lit : string) : bool :=
  match v with
  | JStr s => String.eqb s lit
  | _ => false
  end.

Definition py_type_name (v : json) : string :=
  match v with
  | JNull => "NoneType"
  | JBool _ => "bool"
  | JNum _ => "int"
  | JStr _ => "str"
  | JArr _ => "list"
  | JObj _ => "dict"
  end.

(** ** Exceptions *)

Inductive exn_class : Type :=
| JSONDecodeError
| AttributeError
| TypeError
| KeyError
| IndexError
| ValueError
| WebSocketDisconnect
| TransportError
| CancelledError.

Record exn : Type := Exn { exn_kind : exn_class; exn_msg : string }.

Definition exn_class_eqb (a b : exn_class) : bool :=
  match a, b with
  | JSONDecodeError, JSONDecodeError
  | AttributeError, AttributeError
  | TypeError, TypeError
  | KeyError, KeyError
  | IndexError, IndexError
  | ValueError, ValueError
  | WebSocketDisconnect, WebSocketDisconnect
  | TransportError, TransportError
  | CancelledError, CancelledError => true
  | _, _ => false
  end.

(** [except Exception] catches everything but [asyncio.CancelledError],
    which derives from [BaseException]. *)
Definition is_Exception (e : exn) : bool :=
  negb (exn_class_eqb (exn_kind e) CancelledError).

Definition is_class (c : exn_class) (e : exn) : bool :=
  exn_class_eqb (exn_kind e) c.

Inductive outcome (A : Type) : Type :=
| Ok (a : A)
| Raise (e : exn).
Arguments Ok {A} a.
Arguments Raise {A} e.

Definition attribute_error (v : json) (attr : string) : exn :=
  Exn AttributeError
      ("'" +:+ py_type_name v +:+ "' object has no attribute '" +:+ attr +:+ "'").

Definition not_subscriptable (v : json) : exn :=
  Exn TypeError ("'" +:+ py_type_name v +:+ "' object is not subscriptable").

Definition unhashable (v : json) : exn :=
  Exn TypeError ("unhashable type: '" +:+ py_type_name v +:+ "'").

(** ** Dictionaries *)

(** A Python dict read from JSON: an association list, looked up from the
    front. *)
Fixpoint dict_get (fields : list (string * json)) (k : string) : option json :=
  match fields with
  | [] => None
  | (k', v) :: rest => if String.eqb k' k then Some v else dict_get rest k
  end.

(** [d.get(k, dflt)]; only a dict has [.get]. *)
Definition py_get (d : json) (k : string) (dflt : json) : outcome json :=
  match d with
  | JObj fields => Ok (default dflt (dict_get fields k))
  | _ => Raise (attribute_error d "get")
  end.

(** [content[0]]. *)
Definition py_first (v : json) : outcome json :=
  match v with
  | JArr (x :: _) => Ok x
  | JArr [] => Raise (Exn IndexError "list index out of range")
  | JStr (String c _) => Ok (JStr (String c EmptyString))
  | JStr EmptyString => Raise (Exn IndexError "string index out of range")
  | JObj _ => Raise (Exn KeyError "0")
  | _ => Raise (not_subscriptable v)
  end.

(** [text[:100]]. *)
Definition py_slice100 (v : json) : outcome json :=
  match v with
  | JStr s => Ok (JStr (String.substring 0 100 s))
  | JArr items => Ok (JArr (firstn 100 items))
  | JObj _ => Raise (Exn TypeError "unhashable type: 'slice'")
  | _ => Raise (not_subscriptable v)
  end.

(** Keys of the process-wide dictionaries.  Python hashes [True] and [1]
    (and [False] and [0]) to the same key; lists and dicts are unhashable. *)
Inductive key : Type :=
| KNone
| KInt (n : Z)
| KStr (s : string).

#[global] Instance key_eq_dec : EqDecision key.
Proof. solve_decision. Defined.

#[global] Instance key_countable : Countable key.
Proof.
  refine (inj_countable'
            (fun k => match k with
                      | KNone => inl tt
                      | KInt n => inr (inl n)
                      | KStr s => inr (inr s)
                      end)
            (fun x => match x with
                      | inl _ => KNone
                      | inr (inl n) => KInt n
                      | inr (inr s) => KStr s
                      end) _).
  intros []; reflexivity.
Defined.

Definition hash_key (v : json) : outcome key :=
  match v with
  | JNull => Ok KNone
  | JBool b => Ok (KInt (if b then 1 else 0))
  | JNum n => Ok (KInt n)
  | JStr s => Ok (KStr s)
  | JArr _ | JObj _ => Raise (unhashable v)
  end.

(** ** Observable traces *)

Inductive level : Type := DEBUG | INFO | WARNING | ERROR.

(** [logger] of [app.py] is [Named "voice_agent"]; each service has its own
    module logger; [get_call_logger sid] wraps the application logger with
    the call identifier. *)
Inductive logger_id : Type :=
| Named (name : string)
| CallLogger (sid : json).

(** One call of a logger method: the f-string with [{}] at each
    interpolation, and the interpolated values in order. *)
Record log_record : Type := Log {
  log_from : logger_id;
  log_level : level;
  log_text : string;
  log_args : list json
}.

(** One call of [send] on a websocket: what was passed, and the exception
    the transport raised, if any. *)
Record sent : Type := Sent { sent_msg : json; sent_fault : option exn }.

(** A websocket seen from the sender: the transport's answer to each
    coming [send] ([None]: accepted; past the end of the list every send is
    accepted), and the sends made so far, oldest first. *)
Record channel : Type := Channel {
  ch_faults : list (option exn);
  ch_out : list sent
}.

(** ** Process state *)

(** The value [twilio_to_openai] stores in [active_sessions]; its
    ["openai_ws"] entry is the connection registered under
    [openai_session_id]. *)
Record session_data : Type := SessionData {
  sd_call_sid : json;
  sd_stream_sid : json;
  sd_openai_session_id : string;
  sd_start_time : Z;
  sd_from_number : json
}.

(** [DatabaseService]: its three in-memory caches. *)
Record database : Type := Database {
  calls_cache : gmap key (list (string * json));
  conversations_cache : gmap key (list json);
  tickets_cache : gmap string (list (string * json))
}.

Record state : Type := State {
  (* module globals *)
  active_sessions : gmap key session_data;
  db_service : database;
  active_connections : gset string;
  (* environment: the clock in microseconds, the connection to the model,
     the telephony websocket *)
  now : Z;
  model_conn : channel;
  websocket : channel;
  (* what was logged, oldest first *)
  logged : list log_record;
  (* closure variables of media_stream_handler; [openai_ws] is the model
     connection once bound ([true]) and [None] before ([false]) *)
  call_sid : json;
  stream_sid : json;
  openai_ws : bool;
  call_logger : option json
}.

Definition set_active_sessions (v : gmap key session_data) (s : state) : state :=
  State v (db_service s) (active_connections s) (now s) (model_conn s)
        (websocket s) (logged s) (call_sid s) (stream_sid s) (openai_ws s)
        (call_logger s).

Definition set_db_service (v : database) (s : state) : state :=
  State (active_sessions s) v (active_connections s) (now s) (model_conn s)
        (websocket s) (logged s) (call_sid s) (stream_sid s) (openai_ws s)
        (call_logger s).

Definition set_active_connections (v : gset string) (s : state) : state :=
  State (active_sessions s) (db_service s) v (now s) (model_conn s)
        (websocket s) (logged s) (call_sid s) (stream_sid s) (openai_ws s)
        (call_logger s).

Definition set_now (v : Z) (s : state) : state :=
  State (active_sessions s) (db_service s) (active_connections s) v
        (model_conn s) (websocket s) (logged s) (call_sid s) (stream_sid s)
        (openai_ws s) (call_logger s).

Definition set_model_conn (v : channel) (s : state) : state :=
  State (active_sessions s) (db_service s) (active_connections s) (now s) v
        (websocket s) (logged s) (call_sid s) (stream_sid s) (openai_ws s)
        (call_logger s).

Definition set_websocket (v : channel) (s : state) : state :=
  State (active_sessions s) (db_service s) (active_connections s) (now s)
        (model_conn s) v (logged s) (call_sid s) (stream_sid s)
        (openai_ws s) (call_logger s).

Definition set_logged (v : list log_record) (s : state) : state :=
  State (active_sessions s) (db_service s) (active_connections s) (now s)
        (model_conn s) (websocket s) v (call_sid s) (stream_sid s)
        (openai_ws s) (call_logger s).

Definition set_call_sid (v : json) (s : state) : state :=
  State (active_sessions s) (db_service s) (active_connections s) (now s)
        (model_conn s) (websocket s) (logged s) v (stream_sid s)
        (openai_ws s) (call_logger s).

Definition set_stream_sid (v : json) (s : state) : state :=
  State (active_sessions s) (db_service s) (active_connections s) (now s)
        (model_conn s) (websocket s) (logged s) (call_sid s) v (openai_ws s)
        (call_logger s).

Definition set_openai_ws (v : bool) (s : state) : state :=
  State (active_sessions s) (db_service s) (active_connections s) (now s)
        (model_conn s) (websocket s) (logged s) (call_sid s) (stream_sid s)
        v (call_logger s).

Definition set_call_logger (v : option json) (s : state) : state :=
  State (active_sessions s) (db_service s) (active_connections s) (now s)
        (model_conn s) (websocket s) (logged s) (call_sid s) (stream_sid s)
        (openai_ws s) v.

(** ** The monad of effectful code *)

Definition M (A : Type) : Type := state -> outcome A * state.

Definition ret {A} (a : A) : M A := fun s => (Ok a, s).

Definition raise {A} (e : exn) : M A := fun s => (Raise e, s).

Definition bind {A B} (m : M A) (k : A -> M B) : M B :=
  fun s =>
    match m s with
    | (Ok a, s') => k a s'
    | (Raise e, s') => (Raise e, s')
    end.

Declare Scope m_scope.
Delimit Scope m_scope with m.
Notation "'do' x <- c1 ; c2" := (bind c1 (fun x => c2))
  (at level 10, x name, c1 at level 100, c2 at level 200) : m_scope.
Notation "'run' c1 ; c2" := (bind c1 (fun _ => c2))
  (at level 10, c1 at level 100, c2 at level 200) : m_scope.
Local Open Scope m_scope.

(** A pure computation that may raise. *)
Definition lift {A} (r : outcome A) : M A := fun s => (r, s).

Definition get_state : M state := fun s => (Ok s, s).

Definition modify (f : state -> state) : M unit := fun s => (Ok tt, f s).

(** [if c: body] with no [else]. *)
Definition when (c : bool) (body : M unit) : M unit :=
  if c then body else ret tt.

(** The [except] clauses of a [try], in order: which exceptions a clause
    catches, and its body. *)
Definition clauses (A : Type) : Type := list ((exn -> bool) * (exn -> M A)).

Fixpoint dispatch {A} (cs : clauses A) (e : exn) : option (M A) :=
  match cs with
  | [] => None
  | (catches, handler) :: later =>
      if catches e then Some (handler e) else dispatch later e
  end.

(** [try: body / except ...: ...]: the first clause that catches the
    exception runs; an exception no clause catches goes on. *)
Definition try_except {A} (body : M A) (cs : clauses A) : M A :=
  fun s =>
    match body s with
    | (Ok a, s') => (Ok a, s')
    | (Raise e, s') =>
        match dispatch cs e with
        | Some h => h s'
        | None => (Raise e, s')
        end
    end.

(** [try: body / finally: fin]. *)
Definition try_finally {A} (body : M A) (fin : M unit) : M A :=
  fun s =>
    match body s with
    | (r, s') =>
        match fin s' with
        | (Ok _, s'') => (r, s'')
        | (Raise e, s'') => (Raise e, s'')
        end
    end.

(** A logger call. *)
Definition log (who : logger_id) (lvl : level) (text : string) (args : list json)
    : M unit :=
  modify (fun s => set_logged (logged s ++ [Log who lvl text args]) s).

Definition app_logger : logger_id := Named "voice_agent".

(** [datetime.utcnow()]: each read sees a later instant. *)
Definition utcnow : M Z :=
  fun s => (Ok (now s), set_now (now s + 1)%Z s).

(** [await connection.send(msg)] on a websocket. *)
Definition channel_send (msg : json) (c : channel) : outcome unit * channel :=
  match ch_faults c with
  | Some e :: rest => (Raise e, Channel rest (ch_out c ++ [Sent msg (Some e)]))
  | None :: rest => (Ok tt, Channel rest (ch_out c ++ [Sent msg None]))
  | [] => (Ok tt, Channel [] (ch_out c ++ [Sent msg None]))
  end.

Definition connection_send (msg : json) : M unit :=
  fun s => let (r, c) := channel_send msg (model_conn s) in (r, set_model_conn c s).

(** [await websocket.send_json(msg)]. *)
Definition websocket_send_json (msg : json) : M unit :=
  fun s => let (r, c) := channel_send msg (websocket s) in (r, set_websocket c s).

(** ** Library functions and configuration *)

(** The functions of the Python library the relay calls and does not
    define.  [json_loads] answers [inl msg] when [json.loads] raises
    [JSONDecodeError] with message [msg]; [strftime_compact] is
    [strftime('%Y%m%d%H%M%S')]. *)
Class PyLib : Type := {
  json_loads : string -> string + json;
  json_dumps : json -> string;
  py_repr : json -> string;
  str_upper : string -> string;
  isoformat : Z -> string;
  fromisoformat : string -> option Z;
  strftime_compact : Z -> string
}.

Definition dict_item (fields : list (string * json)) (k : string) : outcome json :=
  match dict_get fields k with
  | Some v => Ok v
  | None => Raise (Exn KeyError ("'" +:+ k +:+ "'"))
  end.

(** [d[k] = v]: an existing key keeps its place, a new one goes last. *)
Fixpoint dict_set (fields : list (string * json)) (k : string) (v : json)
    : list (string * json) :=
  match fields with
  | [] => [(k, v)]
  | (k', v') :: rest =>
      if String.eqb k' k then (k, v) :: rest else (k', v') :: dict_set rest k v
  end.

Definition set_calls_cache (v : gmap key (list (string * json))) (d : database)
    : database :=
  Database v (conversations_cache d) (tickets_cache d).

Definition set_conversations_cache (v : gmap key (list json)) (d : database)
    : database :=
  Database (calls_cache d) v (tickets_cache d).

Definition set_tickets_cache (v : gmap string (list (string * json))) (d : database)
    : database :=
  Database (calls_cache d) (conversations_cache d) v.

(** What an iteration of a pump's [async for] asks for next. *)
Inductive loop_ctl : Type := Continue | Break.

(** A pump inside [asyncio.gather]: still consuming its stream, or returned
    (or raised). *)
Inductive task (I : Type) : Type :=
| Pending (input : list I)
| Done (result : outcome unit).
Arguments Pending {I} input.
Arguments Done {I} result.

Inductive pump_id : Type := Telephony | Model.

(** Everything one run of [media_stream_handler] receives from outside:
    the identifier [generate_session_id] returns, the faults of connecting
    to and closing the model stream, the text messages [websocket.iter_text]
    yields and the events the model connection yields (each with the
    exception that ends the iteration, [None] when the stream just ends),
    and the order in which the event loop resumes the two pumps.

    Both streams end, each after finitely many messages.  A run in which
    a stream stays open has no [call_input]: there [asyncio.gather] does
    not return, and the handler does not reach its [finally] block. *)
Record call_input : Type := CallInput {
  in_session_id : string;
  in_connect_fault : option exn;
  in_close_fault : option exn;
  in_frames : list string;
  in_frames_end : option exn;
  in_events : list json;
  in_events_end : option exn;
  in_schedule : list pump_id
}.

Section Relay.

Context {lib : PyLib}.

(** [AGENT_CONFIG[k]] and [AUDIO_CONFIG[k]] of [config/agent_config.py]. *)
Variable AGENT_CONFIG : string -> json.
Variable AUDIO_CONFIG : string -> json.

(** The order-management query inside [get_order_details]: the source
    ships a mock in its place ([mock_order] below) and marks it as to be
    replaced by the real call. *)
Variable order_query : json -> outcome json.

(** [str(v)], as in an f-string. *)
Definition py_str (v : json) : string :=
  match v with
  | JStr s => s
  | _ => py_repr v
  end.

(** [json.loads(v)]. *)
Definition loads (v : json) : outcome json :=
  match v with
  | JStr text =>
      match json_loads text with
      | inr d => Ok d
      | inl msg => Raise (Exn JSONDecodeError msg)
      end
  | _ =>
      Raise (Exn TypeError
                 ("the JSON object must be str, bytes or bytearray, not "
                    +:+ py_type_name v))
  end.

(** [datetime.fromisoformat(v)]. *)
Definition parse_iso (v : json) : outcome Z :=
  match v with
  | JStr text =>
      match fromisoformat text with
      | Some t => Ok t
      | None => Raise (Exn ValueError ("Invalid isoformat string: " +:+ py_repr v))
      end
  | _ => Raise (Exn TypeError "fromisoformat: argument must be str")
  end.

(** [value.upper()]. *)
Definition py_upper (v : json) : outcome json :=
  match v with
  | JStr s => Ok (JStr (str_upper s))
  | _ => Raise (attribute_error v "upper")
  end.

(** [try: body / except Exception as e: logger.error(f"<text>"); raise],
    where the f-string interpolates [args] and then [e]. *)
Definition log_and_reraise {A} (who : logger_id) (text : string) (args : list json)
    (body : M A) : M A :=
  try_except body
    [(is_Exception,
      fun e =>
        run log who ERROR text (args ++ [JStr (exn_msg e)]); raise e)].

(** *** services/database_service.py *)

Definition db_logger : logger_id := Named "services.database_service".

Definition modify_db (f : database -> database) : M unit :=
  modify (fun s => set_db_service (f (db_service s)) s).

Definition create_call_record (sid : json) (call_data : json) : M json :=
  log_and_reraise db_logger "Failed to create call record: {}" []
    (do from_number <- lift (py_get call_data "from" (JStr ""));
     do to_number <- lift (py_get call_data "to" (JStr ""));
     do start_time <- utcnow;
     do stream <- lift (py_get call_data "streamSid" JNull);
     do custom <- lift (py_get call_data "customParameters" (JObj []));
     do created_at <- utcnow;
     let record :=
       [("call_sid", sid);
        ("from_number", from_number);
        ("to_number", to_number);
        ("start_time", JStr (isoformat start_time));
        ("end_time", JNull);
        ("duration", JNull);
        ("status", JStr "in-progress");
        ("stream_sid", stream);
        ("custom_parameters", custom);
        ("created_at", JStr (isoformat created_at))] in
     do k <- lift (hash_key sid);
     run modify_db (fun d => set_calls_cache (<[k := record]> (calls_cache d)) d);
     run log db_logger INFO "Call record created: {}" [sid];
     ret (JObj record)).

(** The duration is kept in microseconds (Python: float seconds). *)
Definition end_call_record (sid : json) : M json :=
  log_and_reraise db_logger "Failed to end call record: {}" []
    (do k <- lift (hash_key sid);
     do s <- get_state;
     match calls_cache (db_service s) !! k with
     | Some record =>
         do end_time <- utcnow;
         do start_iso <- lift (dict_item record "start_time");
         do start_time <- lift (parse_iso start_iso);
         let duration := (end_time - start_time)%Z in
         let record' :=
           dict_set
             (dict_set
                (dict_set record "end_time" (JStr (isoformat end_time)))
                "duration" (JNum duration))
             "status" (JStr "completed") in
         run modify_db (fun d => set_calls_cache (<[k := record']> (calls_cache d)) d);
         run log db_logger INFO "Call record ended: {}, duration: {}s"
             [sid; JNum duration];
         ret (JObj record')
     | None => ret (JObj [])
     end).

Definition log_conversation (sid : json) (conversation_item : json) : M json :=
  log_and_reraise db_logger "Failed to log conversation: {}" []
    (do item_id <- lift (py_get conversation_item "id" JNull);
     do item_type <- lift (py_get conversation_item "type" JNull);
     do role <- lift (py_get conversation_item "role" JNull);
     do content <- lift (py_get conversation_item "content" (JArr []));
     do timestamp <- utcnow;
     let log_entry :=
       JObj [("call_sid", sid);
             ("item_id", item_id);
             ("item_type", item_type);
             ("role", role);
             ("content", content);
             ("timestamp", JStr (isoformat timestamp))] in
     do k <- lift (hash_key sid);
     run modify_db (fun d =>
           set_conversations_cache
             (<[k := default [] (conversations_cache d !! k) ++ [log_entry]]>
                (conversations_cache d)) d);
     run log db_logger DEBUG "Conversation logged for {}: {}" [sid; item_type];
     ret log_entry).

Definition get_order_details (order_id : json) : M json :=
  try_except
    (run log db_logger INFO "Fetching order details: {}" [order_id];
     lift (order_query order_id))
    [(is_Exception,
      fun e =>
        run log db_logger ERROR "Failed to fetch order details: {}"
            [JStr (exn_msg e)];
        ret (JObj [("error", JStr "Order not found"); ("order_id", order_id)]))].

Definition check_inventory (product_name pincode : json) : M json :=
  try_except
    (run log db_logger INFO "Checking inventory: {}, pincode: {}"
         [product_name; pincode];
     ret (JObj [("product", product_name);
                ("available", JBool true);
                ("stock_count", JNum 45);
                ("delivery_estimate",
                 JStr (if truthy pincode then "2-3 business days"
                       else "3-5 business days"));
                ("price", JStr "₹1,299");
                ("pincode_serviceable",
                 if truthy pincode then JBool true else JNull)]))
    [(is_Exception,
      fun e =>
        run log db_logger ERROR "Failed to check inventory: {}" [JStr (exn_msg e)];
        ret (JObj [("product", product_name);
                   ("available", JBool false);
                   ("error", JStr "Could not check availability")]))].

Definition create_transfer_request (sid reason context priority : json) : M json :=
  log_and_reraise db_logger "Failed to create transfer request: {}" []
    (do stamp <- utcnow;
     let ticket_id := "TXF-" +:+ strftime_compact stamp in
     do created_at <- utcnow;
     let transfer_request :=
       [("ticket_id", JStr ticket_id);
        ("call_sid", sid);
        ("reason", reason);
        ("context", context);
        ("priority", priority);
        ("status", JStr "queued");
        ("created_at", JStr (isoformat created_at));
        ("assigned_agent", JNull)] in
     run modify_db (fun d =>
           set_tickets_cache (<[ticket_id := transfer_request]> (tickets_cache d)) d);
     run log db_logger INFO "Transfer request created: {}" [JStr ticket_id];
     ret (JObj transfer_request)).

Definition create_support_ticket
    (sid issue_type description customer_phone priority : json) : M json :=
  log_and_reraise db_logger "Failed to create support ticket: {}" []
    (do stamp <- utcnow;
     let ticket_id := "SUP-" +:+ strftime_compact stamp in
     do created_at <- utcnow;
     let ticket :=
       [("ticket_id", JStr ticket_id);
        ("call_sid", sid);
        ("issue_type", issue_type);
        ("description", description);
        ("customer_phone", customer_phone);
        ("priority", priority);
        ("status", JStr "open");
        ("created_at", JStr (isoformat created_at));
        ("assigned_agent", JNull);
        ("resolution", JNull)] in
     run modify_db (fun d =>
           set_tickets_cache (<[ticket_id := ticket]> (tickets_cache d)) d);
     run log db_logger INFO "Support ticket created: {}" [JStr ticket_id];
     ret (JObj ticket)).

(** *** services/openai_service.py *)

Definition openai_logger : logger_id := Named "services.openai_service".

Definition configure_session : M unit :=
  log_and_reraise openai_logger "Failed to configure session: {}" []
    (let config :=
       JObj [("type", JStr "session.update");
             ("session",
              JObj [("instructions", AGENT_CONFIG "instructions");
                    ("voice", AGENT_CONFIG "voice");
                    ("temperature", AGENT_CONFIG "temperature");
                    ("tools", AGENT_CONFIG "tools");
                    ("tool_choice", JStr "auto");
                    ("input_audio_format", AUDIO_CONFIG "input_format");
                    ("output_audio_format", AUDIO_CONFIG "output_format");
                    ("turn_detection", AGENT_CONFIG "turn_detection");
                    ("max_response_output_tokens",
                     AGENT_CONFIG "max_response_output_tokens")])] in
     run connection_send config;
     log openai_logger DEBUG "Session configuration sent" []).

(** [connect_fault] is the exception [client.beta.realtime.connect] raises,
    if it does. *)
Definition create_session (connect_fault : option exn) (session_id : string) : M unit :=
  log_and_reraise openai_logger "Failed to create OpenAI session {}: {}"
    [JStr session_id]
    (run log openai_logger INFO "Creating OpenAI session: {}" [JStr session_id];
     run match connect_fault with
         | Some e => raise e
         | None => ret tt
         end;
     run modify (fun s =>
           set_active_connections ({[session_id]} ∪ active_connections s) s);
     run configure_session;
     log openai_logger INFO "OpenAI session created successfully: {}"
         [JStr session_id]).

Definition send_initial_greeting : M unit :=
  log_and_reraise openai_logger "Failed to send greeting: {}" []
    (run connection_send
           (JObj [("type", JStr "response.create");
                  ("response",
                   JObj [("modalities", JArr [JStr "audio"]);
                         ("instructions",
                          JStr "Greet the customer warmly in Hinglish and ask how you can help them today.")])]);
     log openai_logger DEBUG "Initial greeting sent" []).

Definition audio_append (audio_data : json) : json :=
  JObj [("type", JStr "input_audio_buffer.append"); ("audio", audio_data)].

Definition send_audio (audio_data : json) : M unit :=
  log_and_reraise openai_logger "Failed to send audio: {}" []
    (connection_send (audio_append audio_data)).

Definition function_call_output (call_id result : json) : json :=
  JObj [("type", JStr "conversation.item.create");
        ("item",
         JObj [("type", JStr "function_call_output");
               ("call_id", call_id);
               ("output", JStr (json_dumps result))])].

Definition response_create : json := JObj [("type", JStr "response.create")].

Definition send_function_result (call_id result : json) : M unit :=
  log_and_reraise openai_logger "Failed to send function result: {}" []
    (run connection_send (function_call_output call_id result);
     run connection_send response_create;
     log openai_logger DEBUG "Function result sent for call_id: {}" [call_id]).

(** [close_fault] is the exception [connection.close()] raises, if it
    does; a connection has a [close] attribute. *)
Definition close_session (close_fault : option exn) (session_id : string) : M unit :=
  try_except
    (do s <- get_state;
     if decide (session_id ∈ active_connections s) then
       run match close_fault with
           | Some e => raise e
           | None => ret tt
           end;
       run modify (fun s =>
             set_active_connections (active_connections s ∖ {[session_id]}) s);
       log openai_logger INFO "OpenAI session closed: {}" [JStr session_id]
     else ret tt)
    [(is_Exception,
      fun e =>
        log openai_logger ERROR "Error closing session {}: {}"
            [JStr session_id; JStr (exn_msg e)])].

(** *** app.py *)

(** [logger.error(traceback.format_exc())], recorded with the exception
    being formatted. *)
Definition log_traceback (who : logger_id) (e : exn) : M unit :=
  log who ERROR "{traceback.format_exc()}" [JStr (exn_msg e)].

(** [if call_logger: call_logger.<lvl>(f"...")]. *)
Definition call_log (lvl : level) (text : string) (args : list json) : M unit :=
  do s <- get_state;
  match call_logger s with
  | Some sid => log (CallLogger sid) lvl text args
  | None => ret tt
  end.

Definition execute_tool (function_name arguments sid : json) : M json :=
  let tool_logger := CallLogger sid in
  run log tool_logger INFO "Executing tool: {} with args: {}"
      [function_name; arguments];
  try_except
    (if is_str function_name "lookup_order" then
       do order_id <- lift (py_get arguments "order_id" JNull);
       do result <- get_order_details order_id;
       do status <- lift (py_get result "status" (JStr "unknown"));
       run log tool_logger INFO "Order lookup result: {}" [status];
       ret result
     else if is_str function_name "transfer_to_human" then
       do reason <- lift (py_get arguments "reason" JNull);
       do context <- lift (py_get arguments "customer_context" JNull);
       do priority <- lift (py_get arguments "priority" (JStr "medium"));
       run log tool_logger INFO "Transfer request - Reason: {}, Priority: {}"
           [reason; priority];
       do transfer_result <- create_transfer_request sid reason context priority;
       do ticket_id <- lift (py_get transfer_result "ticket_id" JNull);
       ret (JObj [("status", JStr "transfer_initiated");
                  ("message",
                   JStr "Bilkul, main aapko ek moment mein humare team member se connect kar deta hoon.");
                  ("ticket_id", ticket_id);
                  ("estimated_wait_time", JStr "2-3 minutes")])
     else if is_str function_name "check_product_availability" then
       do product_name <- lift (py_get arguments "product_name" JNull);
       do pincode <- lift (py_get arguments "pincode" JNull);
       run log tool_logger INFO "Checking availability: {}, pincode: {}"
           [product_name; pincode];
       check_inventory product_name pincode
     else if is_str function_name "create_ticket" then
       do issue_type <- lift (py_get arguments "issue_type" JNull);
       do description <- lift (py_get arguments "description" JNull);
       do customer_phone <- lift (py_get arguments "customer_phone" JNull);
       do priority <- lift (py_get arguments "priority" (JStr "medium"));
       run log tool_logger INFO "Creating ticket: {}" [issue_type];
       do ticket <- create_support_ticket sid issue_type description
                      customer_phone priority;
       do ticket_id <- lift (py_get ticket "ticket_id" JNull);
       do ticket_id' <- lift (py_get ticket "ticket_id" JNull);
       ret (JObj [("status", JStr "ticket_created");
                  ("ticket_id", ticket_id);
                  ("message",
                   JStr ("Maine aapke liye ticket create kar diya hai. Aapka ticket number hai "
                           +:+ py_str ticket_id'
                           +:+ ". Humari team 24 hours mein aapse contact karegi."))])
     else
       run log tool_logger WARNING "Unknown function: {}" [function_name];
       ret (JObj [("error", JStr ("Unknown function: " +:+ py_str function_name));
                  ("message", JStr "I'm sorry, I couldn't process that request.")]))
    [(is_Exception,
      fun e =>
        run log tool_logger ERROR "Tool execution error: {}" [JStr (exn_msg e)];
        run log_traceback tool_logger e;
        ret (JObj [("error", JStr (exn_msg e));
                   ("message",
                    JStr "I encountered an error while processing your request. Let me try another way to help you.")]))].

(** The duration is kept in microseconds; the cost in the log line is
    [estimate_call_cost] of it, a float, and is left out of the record.  The
    [start_time] of a session is a [datetime], which is always truthy. *)
Definition cleanup_session (sid : json) : M unit :=
  try_except
    (do k <- lift (hash_key sid);
     do s <- get_state;
     match active_sessions s !! k with
     | Some session =>
         do finish <- utcnow;
         run log app_logger INFO
             "Call {} completed - Duration: {:.1f}s, Cost: ${:.4f}"
             [sid; JNum (finish - sd_start_time session)];
         run modify (fun s => set_active_sessions (delete k (active_sessions s)) s);
         log app_logger INFO "Session cleaned up: {}" [sid]
     | None => ret tt
     end)
    [(is_Exception,
      fun e =>
        log app_logger ERROR "Error cleaning up session {}: {}"
            [sid; JStr (exn_msg e)])].

(** **** The telephony-to-model pump *)

(** One iteration of [async for message in websocket.iter_text()]. *)
Definition twilio_frame (session_id : string) (message : string) : M loop_ctl :=
  do data <- lift (loads (JStr message));
  do event_type <- lift (py_get data "event" JNull);
  if is_str event_type "start" then
    do start_data <- lift (py_get data "start" (JObj []));
    do sid <- lift (py_get start_data "callSid" JNull);
    run modify (set_call_sid sid);
    do stream <- lift (py_get start_data "streamSid" JNull);
    run modify (set_stream_sid stream);
    run modify (set_call_logger (Some sid));
    run log (CallLogger sid) INFO "Call started" [];
    do custom_params <- lift (py_get start_data "customParameters" (JObj []));
    do from_number <- lift (py_get custom_params "from" (JStr ""));
    do start_time <- utcnow;
    do k <- lift (hash_key sid);
    run modify (fun s =>
          set_active_sessions
            (<[k := SessionData sid stream session_id start_time from_number]>
               (active_sessions s)) s);
    do _ <- create_call_record sid start_data;
    run log (CallLogger sid) INFO "Session initialized - Stream: {}" [stream];
    ret Continue
  else if is_str event_type "media" then
    do media_data <- lift (py_get data "media" (JObj []));
    do audio_payload <- lift (py_get media_data "payload" JNull);
    do s <- get_state;
    run when (truthy audio_payload && openai_ws s) (send_audio audio_payload);
    ret Continue
  else if is_str event_type "mark" then
    do s <- get_state;
    run match call_logger s with
        | Some sid =>
            do mark <- lift (py_get data "mark" (JObj []));
            do name <- lift (py_get mark "name" JNull);
            log (CallLogger sid) DEBUG "Mark event: {}" [name]
        | None => ret tt
        end;
    ret Continue
  else if is_str event_type "stop" then
    run call_log INFO "Call ended by Twilio" [];
    do s <- get_state;
    run when (truthy (call_sid s))
          (do _ <- end_call_record (call_sid s); ret tt);
    ret Break
  else ret Continue.

(** The [except] clauses of [twilio_to_openai]. *)
Definition twilio_except : clauses unit :=
  [(is_class WebSocketDisconnect,
    fun e =>
      do s <- get_state;
      match call_logger s with
      | Some sid => log (CallLogger sid) WARNING "Twilio WebSocket disconnected" []
      | None => log app_logger WARNING "Twilio WebSocket disconnected: {}" [call_sid s]
      end);
   (is_Exception,
    fun e =>
      do s <- get_state;
      match call_logger s with
      | Some sid =>
          run log (CallLogger sid) ERROR "Error in twilio_to_openai: {}"
              [JStr (exn_msg e)];
          log_traceback (CallLogger sid) e
      | None =>
          log app_logger ERROR "Error in twilio_to_openai: {}" [JStr (exn_msg e)]
      end)].

(** The end of an [async for]: the stream is over, or the iterator raises. *)
Definition stream_end (ending : option exn) : M unit :=
  match ending with
  | Some e => raise e
  | None => ret tt
  end.

Fixpoint twilio_loop (session_id : string) (frames : list string)
    (frames_end : option exn) : M unit :=
  match frames with
  | [] => stream_end frames_end
  | message :: rest =>
      do ctl <- twilio_frame session_id message;
      match ctl with
      | Continue => twilio_loop session_id rest frames_end
      | Break => ret tt
      end
  end.

Definition twilio_to_openai (session_id : string) (frames : list string)
    (frames_end : option exn) : M unit :=
  try_except (twilio_loop session_id frames frames_end) twilio_except.

(** **** The model-to-telephony pump *)

Definition media_frame (stream audio_delta : json) : json :=
  JObj [("event", JStr "media");
        ("streamSid", stream);
        ("media", JObj [("payload", audio_delta)])].

(** One iteration of [async for event in openai_ws]. *)
Definition openai_event (event : json) : M unit :=
  do event_type <- lift (py_get event "type" JNull);
  if is_str event_type "response.audio.delta" then
    do audio_delta <- lift (py_get event "delta" (JStr ""));
    do s <- get_state;
    when (truthy (stream_sid s) && truthy audio_delta)
      (websocket_send_json (media_frame (stream_sid s) audio_delta))
  else if is_str event_type "response.audio.done" then
    call_log DEBUG "Audio response completed" []
  else if is_str event_type "conversation.item.created" then
    do item <- lift (py_get event "item" (JObj []));
    do s <- get_state;
    run when (truthy (call_sid s))
          (do _ <- log_conversation (call_sid s) item; ret tt);
    do s <- get_state;
    match call_logger s with
    | Some sid =>
        do item_type <- lift (py_get item "type" JNull);
        if is_str item_type "message" then
          do role <- lift (py_get item "role" (JStr ""));
          do content <- lift (py_get item "content" (JArr []));
          if truthy content then
            do first <- lift (py_first content);
            do first_type <- lift (py_get first "type" JNull);
            do text <-
              (if is_str first_type "audio"
               then do first' <- lift (py_first content);
                    lift (py_get first' "transcript" (JStr ""))
               else do first' <- lift (py_first content);
                    lift (py_get first' "text" (JStr "")));
            if truthy text then
              do role_upper <- lift (py_upper role);
              do head <- lift (py_slice100 text);
              log (CallLogger sid) INFO "{}: {}" [role_upper; head]
            else ret tt
          else ret tt
        else ret tt
    | None => ret tt
    end
  else if is_str event_type "response.function_call_arguments.done" then
    do function_name <- lift (py_get event "name" JNull);
    do call_id <- lift (py_get event "call_id" JNull);
    do arguments_str <- lift (py_get event "arguments" (JStr "{}"));
    run call_log INFO "Function call: {}" [function_name];
    try_except
      (do arguments <- lift (loads arguments_str);
       do s <- get_state;
       do result <- execute_tool function_name arguments (call_sid s);
       run call_log INFO "Function result: {}" [result];
       send_function_result call_id result)
      [(is_class JSONDecodeError,
        fun e =>
          run call_log ERROR "Failed to parse function arguments: {}"
              [JStr (exn_msg e)];
          send_function_result call_id (JObj [("error", JStr "Invalid arguments")]));
       (is_Exception,
        fun e =>
          run call_log ERROR "Function execution error: {}" [JStr (exn_msg e)];
          send_function_result call_id (JObj [("error", JStr (exn_msg e))]))]
  else if is_str event_type "response.done" then
    call_log DEBUG "Response generation completed" []
  else if is_str event_type "error" then
    do error_info <- lift (py_get event "error" (JObj []));
    do s <- get_state;
    match call_logger s with
    | Some sid => log (CallLogger sid) ERROR "OpenAI error: {}" [error_info]
    | None => log app_logger ERROR "OpenAI error: {}" [error_info]
    end
  else if is_str event_type "session.updated" then
    call_log DEBUG "Session configuration updated" []
  else ret tt.

(** The [except] clauses of [openai_to_twilio]. *)
Definition openai_except : clauses unit :=
  [(is_class CancelledError,
    fun e => run call_log INFO "OpenAI stream cancelled" []; raise e);
   (is_Exception,
    fun e =>
      do s <- get_state;
      match call_logger s with
      | Some sid =>
          run log (CallLogger sid) ERROR "Error in openai_to_twilio: {}"
              [JStr (exn_msg e)];
          log_traceback (CallLogger sid) e
      | None =>
          log app_logger ERROR "Error in openai_to_twilio: {}" [JStr (exn_msg e)]
      end)].

Fixpoint openai_loop (events : list json) (events_end : option exn) : M unit :=
  match events with
  | [] => stream_end events_end
  | event :: rest => run openai_event event; openai_loop rest events_end
  end.

Definition openai_to_twilio (events : list json) (events_end : option exn) : M unit :=
  try_except (openai_loop events events_end) openai_except.

(** **** The two pumps under [asyncio.gather]

    A pump is resumed by the event loop once per item of its stream.  The
    only awaits that suspend a pump are its sends on the two websockets; an
    iteration writes the closure variables and [active_sessions] before it
    sends, and what it reads after a send is the logger of an error line at
    most.  One iteration is therefore one step of the interleaving; what
    the interleaving leaves open is the order on the wire of sends that two
    iterations make concurrently. *)

(** What a pump does with an exception that leaves its loop. *)
Definition settle {I} (cs : clauses unit) (e : exn) (s : state)
    : task I * state :=
  match dispatch cs e with
  | Some h => let (r, s') := h s in (Done r, s')
  | None => (Done (Raise e), s)
  end.

Definition twilio_step (session_id : string) (frames_end : option exn)
    (t : task string) (s : state) : task string * state :=
  match t with
  | Done r => (Done r, s)
  | Pending [] =>
      match stream_end frames_end s with
      | (Ok _, s') => (Done (Ok tt), s')
      | (Raise e, s') => settle twilio_except e s'
      end
  | Pending (message :: rest) =>
      match twilio_frame session_id message s with
      | (Ok Continue, s') => (Pending rest, s')
      | (Ok Break, s') => (Done (Ok tt), s')
      | (Raise e, s') => settle twilio_except e s'
      end
  end.

Definition openai_step (events_end : option exn) (t : task json) (s : state)
    : task json * state :=
  match t with
  | Done r => (Done r, s)
  | Pending [] =>
      match stream_end events_end s with
      | (Ok _, s') => (Done (Ok tt), s')
      | (Raise e, s') => settle openai_except e s'
      end
  | Pending (event :: rest) =>
      match openai_event event s with
      | (Ok _, s') => (Pending rest, s')
      | (Raise e, s') => settle openai_except e s'
      end
  end.

(** A pump left to run until it returns. *)
Definition twilio_finish (session_id : string) (frames_end : option exn)
    (t : task string) : M unit :=
  match t with
  | Done r => lift r
  | Pending frames => twilio_to_openai session_id frames frames_end
  end.

Definition openai_finish (events_end : option exn) (t : task json) : M unit :=
  match t with
  | Done r => lift r
  | Pending events => openai_to_twilio events events_end
  end.

(** The steps the schedule lists, in order. *)
Fixpoint gather_steps (session_id : string) (frames_end events_end : option exn)
    (schedule : list pump_id) (tel : task string) (mdl : task json) (s : state)
    : task string * task json * state :=
  match schedule with
  | [] => (tel, mdl, s)
  | Telephony :: later =>
      let (tel', s') := twilio_step session_id frames_end tel s in
      gather_steps session_id frames_end events_end later tel' mdl s'
  | Model :: later =>
      let (mdl', s') := openai_step events_end mdl s in
      gather_steps session_id frames_end events_end later tel mdl' s'
  end.

(** [await asyncio.gather(twilio_to_openai(), openai_to_twilio(),
    return_exceptions=True)]: both pumps run to their end, interleaved as
    the schedule says and, once it is used up, one after the other; what
    they raise is returned, not raised.  Nothing cancels a pump when the
    other one has ended: [gather] returns when both have, so this is what
    it does in the runs in which both streams end. *)
Definition gather (session_id : string) (frames : list string)
    (frames_end : option exn) (events : list json) (events_end : option exn)
    (schedule : list pump_id) : M (outcome unit * outcome unit) :=
  fun s =>
    match gather_steps session_id frames_end events_end schedule
            (Pending frames) (Pending events) s with
    | (tel, mdl, s1) =>
        let (r1, s2) := twilio_finish session_id frames_end tel s1 in
        let (r2, s3) := openai_finish events_end mdl s2 in
        (Ok (r1, r2), s3)
    end.

(** **** The websocket endpoint *)

(** The [finally] block of [media_stream_handler]. *)
Definition handler_cleanup (inp : call_input) : M unit :=
  do s <- get_state;
  run when (truthy (call_sid s)) (cleanup_session (call_sid s));
  do s <- get_state;
  run when (openai_ws s) (close_session (in_close_fault inp) (in_session_id inp));
  do s <- get_state;
  log app_logger INFO "WebSocket connection closed: {}" [call_sid s].

(** The [try] block of [media_stream_handler] with its [except] clause. *)
Definition handler_try (inp : call_input) : M unit :=
  try_except
    (run create_session (in_connect_fault inp) (in_session_id inp);
     run modify (set_openai_ws true);
     run log app_logger INFO "OpenAI session created: {}"
         [JStr (in_session_id inp)];
     run send_initial_greeting;
     do _ <- gather (in_session_id inp) (in_frames inp) (in_frames_end inp)
               (in_events inp) (in_events_end inp) (in_schedule inp);
     ret tt)
    [(is_Exception,
      fun e =>
        run log app_logger ERROR "WebSocket handler error: {}" [JStr (exn_msg e)];
        log_traceback app_logger e)].

(** [media_stream_handler], once the websocket is accepted. *)
Definition media_stream_handler (inp : call_input) : M unit :=
  run modify (fun s =>
        set_call_sid JNull
          (set_stream_sid JNull (set_openai_ws false (set_call_logger None s))));
  run log app_logger INFO "WebSocket connection established" [];
  try_finally (handler_try inp) (handler_cleanup inp).

End Relay.

(** ** The rest of the services, the endpoints and the helpers *)

(** [d[k]] for a string [k]. *)
Definition py_getitem (d : json) (k : string) : outcome json :=
  match d with
  | JObj fields => dict_item fields k
  | JArr _ => Raise (Exn TypeError "list indices must be integers or slices, not str")
  | JStr _ => Raise (Exn TypeError "string indices must be integers, not 'str'")
  | _ => Raise (not_subscriptable d)
  end.

Section Services.

Context {lib : PyLib}.

(** *** services/database_service.py: queries and updates *)

Definition get_call_record (sid : json) : M json :=
  try_except
    (do k <- lift (hash_key sid);
     do s <- get_state;
     ret (match calls_cache (db_service s) !! k with
          | Some record => JObj record
          | None => JNull
          end))
    [(is_Exception,
      fun e =>
        run log db_logger ERROR "Failed to get call record: {}" [JStr (exn_msg e)];
        ret JNull)].

Definition get_conversation_history (sid : json) : M json :=
  try_except
    (do k <- lift (hash_key sid);
     do s <- get_state;
     ret (JArr (default [] (conversations_cache (db_service s) !! k))))
    [(is_Exception,
      fun e =>
        run log db_logger ERROR "Failed to get conversation history: {}"
            [JStr (exn_msg e)];
        ret (JArr []))].

(** The entry of [tickets_cache] under a key: the keys of that dictionary
    are the strings the two [create_] functions build. *)
Definition ticket_of (d : database) (k : key)
    : option (string * list (string * json)) :=
  match k with
  | KStr id => pair id <$> tickets_cache d !! id
  | _ => None
  end.

Definition get_ticket (ticket_id : json) : M json :=
  try_except
    (do k <- lift (hash_key ticket_id);
     do s <- get_state;
     ret (match ticket_of (db_service s) k with
          | Some (_, ticket) => JObj ticket
          | None => JNull
          end))
    [(is_Exception,
      fun e =>
        run log db_logger ERROR "Failed to get ticket: {}" [JStr (exn_msg e)];
        ret JNull)].

(** The ticket is a dictionary updated in place: the cache sees every
    assignment. *)
Definition update_ticket_status (ticket_id status resolution : json) : M json :=
  log_and_reraise db_logger "Failed to update ticket: {}" []
    (do k <- lift (hash_key ticket_id);
     do s <- get_state;
     match ticket_of (db_service s) k with
     | Some (id, ticket) =>
         let ticket := dict_set ticket "status" status in
         do updated_at <- utcnow;
         let ticket := dict_set ticket "updated_at" (JStr (isoformat updated_at)) in
         do ticket <-
           (if truthy resolution then
              let ticket := dict_set ticket "resolution" resolution in
              do resolved_at <- utcnow;
              ret (dict_set ticket "resolved_at" (JStr (isoformat resolved_at)))
            else ret ticket);
         run modify_db (fun d =>
               set_tickets_cache (<[id := ticket]> (tickets_cache d)) d);
         run log db_logger INFO "Ticket updated: {}, status: {}" [ticket_id; status];
         ret (JObj ticket)
     | None => ret (JObj [])
     end).

(** [sum(1 for call in calls if call["status"] == "in-progress")]. *)
Fixpoint count_in_progress (calls : list (list (string * json))) : outcome Z :=
  match calls with
  | [] => Ok 0
  | call :: rest =>
      match dict_item call "status" with
      | Ok status =>
          match count_in_progress rest with
          | Ok n => Ok (if is_str status "in-progress" then 1 + n else n)
          | Raise e => Raise e
          end
      | Raise e => Raise e
      end
  end.

(** [calls_cache.values()] are the records of the cache in some order; the
    count is the same for every order ([count_in_progress_permutation]
    below). *)
Definition get_active_calls_count : M Z :=
  try_except
    (do s <- get_state;
     lift (count_in_progress (map snd (map_to_list (calls_cache (db_service s))))))
    [(is_Exception,
      fun e =>
        run log db_logger ERROR "Failed to get active calls count: {}"
            [JStr (exn_msg e)];
        ret 0)].

Definition close : M unit :=
  try_except
    (log db_logger INFO "Database connections closed" [])
    [(is_Exception,
      fun e => log db_logger ERROR "Error closing database: {}" [JStr (exn_msg e)])].

(** *** services/openai_service.py: the event stream *)

(** The property [active_session_count]. *)
Definition active_session_count (s : state) : Z :=
  Z.of_nat (size (active_connections s)).

(** The body of the loop of [handle_event_stream]. *)
Definition handle_event (event_handler : json -> M unit) (event : json) : M unit :=
  try_except (event_handler event)
    [(is_Exception,
      fun e =>
        log openai_logger ERROR "Error in event handler: {}" [JStr (exn_msg e)])].

Fixpoint event_stream_loop (events : list json) (events_end : option exn)
    (event_handler : json -> M unit) : M unit :=
  match events with
  | [] => stream_end events_end
  | event :: rest =>
      run handle_event event_handler event;
      event_stream_loop rest events_end event_handler
  end.

(** [connection] yields [events] and then ends as [events_end] says. *)
Definition handle_event_stream (events : list json) (events_end : option exn)
    (event_handler : json -> M unit) : M unit :=
  try_except (event_stream_loop events events_end event_handler)
    [(is_class CancelledError,
      fun e => run log openai_logger INFO "Event stream cancelled" []; raise e);
     (is_Exception,
      fun e =>
        run log openai_logger ERROR "Error in event stream: {}" [JStr (exn_msg e)];
        raise e)].

(** *** app.py: the HTTP endpoints and the shutdown *)

(** What an endpoint answers: the value it returns, or the [HTTPException]
    it raises. *)
Inductive http_result : Type :=
| Returned (body : json)
| HTTPException (status_code : Z) (detail : string).

(** [settings.ENVIRONMENT]. *)
Variable ENVIRONMENT : string.

Definition health_check : M json :=
  do active_calls <- get_active_calls_count;
  do s <- get_state;
  do timestamp <- utcnow;
  ret (JObj [("status", JStr "healthy");
             ("active_calls", JNum active_calls);
             ("active_sessions", JNum (Z.of_nat (size (active_sessions s))));
             ("openai_sessions", JNum (active_session_count s));
             ("timestamp", JStr (isoformat timestamp));
             ("environment", JStr ENVIRONMENT)]).

Definition get_metrics : M http_result :=
  try_except
    (do active_calls <- get_active_calls_count;
     do s <- get_state;
     do timestamp <- utcnow;
     ret (Returned
            (JObj [("active_calls", JNum active_calls);
                   ("active_sessions", JNum (Z.of_nat (size (active_sessions s))));
                   ("openai_sessions", JNum (active_session_count s));
                   ("timestamp", JStr (isoformat timestamp))])))
    [(is_Exception,
      fun e =>
        run log app_logger ERROR "Error getting metrics: {}" [JStr (exn_msg e)];
        ret (HTTPException 500 (exn_msg e)))].

(** [call_sid] is a path parameter: a string. *)
Definition get_call_details (sid : string) : M http_result :=
  try_except
    (do call_record <- get_call_record (JStr sid);
     if negb (truthy call_record) then ret (HTTPException 404 "Call not found")
     else
       do conversation <- get_conversation_history (JStr sid);
       do s <- get_state;
       ret (Returned
              (JObj [("call", call_record);
                     ("conversation", conversation);
                     ("is_active",
                      JBool (bool_decide (is_Some (active_sessions s !! KStr sid))))])))
    [(is_Exception,
      fun e =>
        run log app_logger ERROR "Error getting call details: {}" [JStr (exn_msg e)];
        ret (HTTPException 500 (exn_msg e)))].

(** The loop of [lifespan] after [yield], over [keys], which is
    [list(active_sessions.keys())]. *)
Fixpoint cleanup_sessions (keys : list json) : M unit :=
  match keys with
  | [] => ret tt
  | sid :: rest =>
      run try_except (cleanup_session sid)
            [(is_Exception,
              fun e =>
                log app_logger ERROR "Error cleaning up session {}: {}"
                    [sid; JStr (exn_msg e)])];
      cleanup_sessions rest
  end.

(** [lifespan] after [yield]; [db_service] is set since start-up. *)
Definition lifespan_shutdown (keys : list json) : M unit :=
  run log app_logger INFO "Shutting down application..." [];
  run cleanup_sessions keys;
  run close;
  log app_logger INFO "Application shut down complete" [].

End Services.

(** *** utils/helpers.py

    The strings of these functions are sequences of characters, one [ascii]
    each: the Python strings whose characters are below U+0100.  Among
    those, the decimal digits, which [\d] matches, are [0] to [9]. *)

Definition is_digit (c : ascii) : bool :=
  let n := nat_of_ascii c in ((48 <=? n) && (n <=? 57))%nat.

(** [re.sub(r'\D', '', text)]. *)
Fixpoint strip_non_digits (text : string) : string :=
  match text with
  | EmptyString => EmptyString
  | String c rest =>
      if is_digit c then String c (strip_non_digits rest) else strip_non_digits rest
  end.

Definition sanitize_phone_number (phone : string) : string :=
  let digits := strip_non_digits phone in
  let digits :=
    if negb (String.prefix "91" digits) && (String.length digits =? 10)%nat
    then "91" +:+ digits
    else digits in
  "+" +:+ digits.

(** [c in ['6', '7', '8', '9']], for the character at an index of the
    string. *)
Definition mobile_lead (c : option ascii) : bool :=
  match c with
  | Some c => existsb (Ascii.eqb c) ["6"; "7"; "8"; "9"]%char
  | None => false
  end.

Definition validate_indian_phone (phone : string) : bool :=
  let digits := strip_non_digits phone in
  if (String.length digits =? 10)%nat then mobile_lead (String.get 0 digits)
  else if (String.length digits =? 12)%nat then
    String.prefix "91" digits && mobile_lead (String.get 2 digits)
  else false.

(** ["*" * n]. *)
Fixpoint stars (n : nat) : string :=
  match n with
  | O => EmptyString
  | S n' => String "*" (stars n')
  end.

(** [text[-4:]]. *)
Definition last_four (text : string) : string :=
  String.substring (String.length text - 4) 4 text.

(** [text.split(sep, 1)], when [sep] occurs in [text]. *)
Fixpoint split_once (sep : ascii) (text : string) : option (string * string) :=
  match text with
  | EmptyString => None
  | String c rest =>
      if Ascii.eqb c sep then Some (EmptyString, rest)
      else
        match split_once sep rest with
        | Some (before, after) => Some (String c before, after)
        | None => None
        end
  end.

Definition mask_sensitive_data (data data_type : string) : outcome string :=
  if String.eqb data_type "phone" then
    if (4 <? String.length data)%nat
    then Ok (stars (String.length data - 4) +:+ last_four data)
    else Ok "****"
  else if String.eqb data_type "email" then
    match split_once "@" data with
    | Some (username, domain) =>
        match username with
        | String first _ =>
            Ok (String first (stars (String.length username - 1)) +:+ "@" +:+ domain)
        | EmptyString => Raise (Exn IndexError "string index out of range")
        end
    | None => Ok "***@***.com"
    end
  else if String.eqb data_type "card" then
    let digits := strip_non_digits data in
    if (4 <? String.length digits)%nat
    then Ok (stars (String.length digits - 4) +:+ last_four digits)
    else Ok "****"
  else Ok "****".

(** [text[:stop]]: a negative [stop] counts from the end. *)
Definition py_slice_to (stop : Z) (text : string) : string :=
  let n := Z.of_nat (String.length text) in
  String.substring 0 (Z.to_nat (if (stop <? 0)%Z then (n + stop)%Z else stop)) text.

Definition truncate_text (text : string) (max_length : Z) (suffix : string) : string :=
  if (Z.of_nat (String.length text) <=? max_length)%Z then text
  else py_slice_to (max_length - Z.of_nat (String.length suffix))%Z text +:+ suffix.

(** *** services/twilio_service.py *)

(** The keyword arguments of [client.calls.create]. *)
Record calls_create_args : Type := CallsCreate {
  cc_to : string;
  cc_from_ : string;
  cc_url : string;
  cc_status_callback : string;
  cc_status_callback_event : list string;
  cc_method : string
}.

Module TwilioService.

Section Service.

(** [self.phone_number], and the REST client: what [client.calls.create]
    answers, the [sid] and the [status] of the call it created. *)
Variable phone_number : string.
Variable calls_create : calls_create_args -> outcome (json * json).

Definition logger : logger_id := Named "services.twilio_service".

Definition initiate_outbound_call (to_number webhook_url : string) (context : json)
    : M json :=
  log_and_reraise logger "Failed to initiate outbound call: {}" []
    (run log logger INFO "Initiating outbound call to {}" [JStr to_number];
     let status_callback := webhook_url +:+ "/call-status" in
     do call <- lift (calls_create
                        {| cc_to := to_number;
                           cc_from_ := phone_number;
                           cc_url := webhook_url;
                           cc_status_callback := status_callback;
                           cc_status_callback_event :=
                             ["initiated"; "ringing"; "answered"; "completed"];
                           cc_method := "POST" |});
     run log logger INFO "Outbound call created: {}" [fst call];
     ret (JObj [("call_sid", fst call);
                ("status", snd call);
                ("to", JStr to_number);
                ("from", JStr phone_number)])).

End Service.

End TwilioService.

(** *** app.py: the outbound call *)

Section Outbound.

(** [settings.SERVER_URL], [settings.TWILIO_PHONE_NUMBER] and the REST
    client of [twilio_service]. *)
Variable SERVER_URL : string.
Variable TWILIO_PHONE_NUMBER : string.
Variable calls_create : calls_create_args -> outcome (json * json).

(** [request] is an [OutboundCallRequest], whose [to_number] is a string. *)
Definition initiate_outbound_call (request_to_number : string) (request_context : json)
    : M http_result :=
  try_except
    (run log app_logger INFO "Initiating outbound call to {}" [JStr request_to_number];
     let to_number := sanitize_phone_number request_to_number in
     let webhook_url := "https://" +:+ SERVER_URL +:+ "/incoming-call" in
     do result <- TwilioService.initiate_outbound_call TWILIO_PHONE_NUMBER calls_create
                    to_number webhook_url request_context;
     do sid <- lift (py_getitem result "call_sid");
     run log app_logger INFO "Outbound call initiated: {}" [sid];
     do sid' <- lift (py_getitem result "call_sid");
     ret (Returned
            (JObj [("status", JStr "success");
                   ("call_sid", sid');
                   ("to_number", JStr to_number);
                   ("message", JStr "Outbound call initiated successfully")])))
    [(is_Exception,
      fun e =>
        run log app_logger ERROR "Failed to initiate outbound call: {}"
            [JStr (exn_msg e)];
        run log_traceback app_logger e;
        ret (HTTPException 500 (exn_msg e)))].

End Outbound.


(** ** The mock of the source and a starting state *)

(** The mock order [get_order_details] returns. *)
Definition mock_order (order_id : json) : json :=
  JObj [("order_id", order_id);
        ("status", JStr "Delivered");
        ("order_date", JStr "2025-10-10");
        ("delivery_date", JStr "2025-10-15");
        ("items",
         JArr [JObj [("name", JStr "Product A"); ("quantity", JNum 1);
                     ("price", JStr "₹1,200")];
               JObj [("name", JStr "Product B"); ("quantity", JNum 2);
                     ("price", JStr "₹650")]]);
        ("subtotal", JStr "₹2,500");
        ("shipping", JStr "₹0");
        ("total", JStr "₹2,500");
        ("payment_method", JStr "Credit Card");
        ("shipping_address", JStr "123 Main St, Mumbai, 400001")].

Definition mock_order_query (order_id : json) : outcome json :=
  Ok (mock_order order_id).

(** An order system that is down. *)
Definition failing_order_query (order_id : json) : outcome json :=
  Raise (Exn TransportError "order system unreachable").

(** The process right after start-up: nothing registered, nothing sent,
    both websockets accepting every send. *)
Definition fresh_state : state :=
  {| active_sessions := ∅;
     db_service := Database ∅ ∅ ∅;
     active_connections := ∅;
     now := 0;
     model_conn := Channel [] [];
     websocket := Channel [] [];
     logged := [];
     call_sid := JNull;
     stream_sid := JNull;
     openai_ws := false;
     call_logger := None |}.

(** *** A small instance of the library, for concrete runs *)

Module Sample.

Definition quote : string := String (ascii_of_nat 34) EmptyString.

(** JSON text of a value, strings unescaped. *)
Fixpoint print (v : json) : string :=
  match v with
  | JNull => "null"
  | JBool true => "true"
  | JBool false => "false"
  | JNum n => pretty n
  | JStr s => quote +:+ s +:+ quote
  | JArr items =>
      "[" +:+ (fix go (l : list json) : string :=
                 match l with
                 | [] => ""
                 | [x] => print x
                 | x :: rest => print x +:+ ", " +:+ go rest
                 end) items +:+ "]"
  | JObj fields =>
      "{" +:+ (fix go (l : list (string * json)) : string :=
                 match l with
                 | [] => ""
                 | [(k, x)] => quote +:+ k +:+ quote +:+ ": " +:+ print x
                 | (k, x) :: rest =>
                     quote +:+ k +:+ quote +:+ ": " +:+ print x +:+ ", " +:+ go rest
                 end) fields +:+ "}"
  end.

(** The telephony frames and tool arguments of the runs below. *)
Definition start_frame (sid stream : string) : json :=
  JObj [("event", JStr "start");
        ("start",
         JObj [("callSid", JStr sid);
               ("streamSid", JStr stream);
               ("customParameters", JObj [("from", JStr "+919876543210")])])].

Definition media (payload : json) : json :=
  JObj [("event", JStr "media"); ("media", JObj [("payload", payload)])].

Definition stop : json := JObj [("event", JStr "stop")].

Definition known : list json :=
  [start_frame "CA1" "MZ1"; start_frame "CA1" "MZ2"; start_frame "" "MZ1";
   media (JStr "AAA="); media (JStr "BBB="); media (JStr ""); stop;
   JObj [("order_id", JStr "ORD1")]; JObj []].

(** A decoder for the texts of [known]; any other text is malformed. *)
Definition decode (text : string) : string + json :=
  match List.find (fun v => String.eqb (print v) text) known with
  | Some v => inr v
  | None => inl "Expecting value: line 1 column 1 (char 0)"
  end.

Definition upper_ascii (c : ascii) : ascii :=
  let n := nat_of_ascii c in
  if ((97 <=? n) && (n <=? 122))%nat then ascii_of_nat (n - 32) else c.

Fixpoint upper (s : string) : string :=
  match s with
  | EmptyString => EmptyString
  | String c rest => String (upper_ascii c) (upper rest)
  end.

Definition stamp (t : Z) : string := "T" +:+ pretty t.

Definition unstamp (text : string) : option Z :=
  List.find (fun t => String.eqb (stamp t) text) (seqZ 0 64).

#[local] Instance lib : PyLib :=
  {| json_loads := decode;
     json_dumps := print;
     py_repr := print;
     str_upper := upper;
     isoformat := stamp;
     fromisoformat := unstamp;
     strftime_compact := stamp |}.

(** An excerpt of [AGENT_CONFIG] and [AUDIO_CONFIG]. *)
Definition agent_config (k : string) : json :=
  if String.eqb k "voice" then JStr "alloy"
  else if String.eqb k "max_response_output_tokens" then JNum 4096
  else JNull.

Definition audio_config (k : string) : json :=
  if String.eqb k "input_format" then JStr "g711_ulaw"
  else if String.eqb k "output_format" then JStr "g711_ulaw"
  else JNull.

(** The inputs of the runs below. *)
Definition streaming : state := set_openai_ws true fresh_state.

Definition first_start : string := print (start_frame "CA1" "MZ1").
Definition second_start : string := print (start_frame "CA1" "MZ2").

(** The pumps are running and the first start frame has been handled. *)
Definition started : state := snd (twilio_frame "sess_1" first_start streaming).

Definition call (frames events : list json) : call_input :=
  {| in_session_id := "sess_1";
     in_connect_fault := None;
     in_close_fault := None;
     in_frames := map print frames;
     in_frames_end := None;
     in_events := events;
     in_events_end := None;
     in_schedule := [Telephony; Model; Telephony] |}.

Definition delta_event : list (string * json) :=
  [("type", JStr "response.audio.delta"); ("delta", JStr "xyz")].

Definition bad_arguments_event : list (string * json) :=
  [("type", JStr "response.function_call_arguments.done");
   ("name", JStr "lookup_order");
   ("call_id", JStr "fc2");
   ("arguments", JStr "{oops")].

Definition tool_call_event : list (string * json) :=
  [("type", JStr "response.function_call_arguments.done");
   ("name", JStr "lookup_order");
   ("call_id", JStr "fc1");
   ("arguments", JStr (print (JObj [("order_id", JStr "ORD1")])))].

Definition empty_item : list (string * json) :=
  [("id", JStr "item_1");
   ("type", JStr "message");
   ("role", JStr "assistant");
   ("content", JArr [])].

Definition item_created_event : list (string * json) :=
  [("type", JStr "conversation.item.created"); ("item", JObj empty_item)].

End Sample.

(** *** Inputs of the concrete runs of the services and of the endpoints *)

Module Inputs.

(** A call whose start frame has been handled, twenty ticks later. *)
Definition later : state := set_now 20 Sample.started.

Definition ticket_arguments : list (string * json) :=
  [("issue_type", JStr "delayed_delivery");
   ("description", JStr "Order not received")].

Definition transfer_arguments : list (string * json) :=
  [("reason", JStr "customer requested");
   ("customer_context", JStr "Order ORD1 is late");
   ("priority", JStr "high")].

(** The record of that call. *)
Definition started_record : list (string * json) :=
  default [] (calls_cache (db_service Sample.started) !! KStr "CA1").

(** The process after a support ticket has been created at start-up. *)
Definition with_ticket : state :=
  snd (create_support_ticket (lib := Sample.lib) (JStr "CA1")
         (JStr "delayed_delivery") (JStr "Order not received") JNull (JStr "medium")
         fresh_state).

(** A model session is registered. *)
Definition connected : state := set_active_connections {["sess_1"]} fresh_state.

(** The model connection refuses the first send of a call. *)
Definition refusing_configuration : state :=
  set_model_conn
    (Channel [Some (Exn TransportError "connection reset")] [])
    fresh_state.

(** A clock whose compact stamps have a resolution of four ticks. *)
Definition coarse : PyLib :=
  {| json_loads := Sample.decode;
     json_dumps := Sample.print;
     py_repr := Sample.print;
     str_upper := Sample.upper;
     isoformat := Sample.stamp;
     fromisoformat := Sample.unstamp;
     strftime_compact := fun t => Sample.stamp (t / 4) |}.

(** An event handler that fails on every event that has no [type]. *)
Definition picky_handler (event : json) : M unit :=
  do type <- lift (py_getitem event "type");
  log app_logger INFO "event {}" [type].

(** A Twilio client that creates the call, and one that refuses. *)
Definition twilio_accepts (args : calls_create_args) : outcome (json * json) :=
  Ok (JStr "CA900", JStr "queued").

Definition twilio_refuses (args : calls_create_args) : outcome (json * json) :=
  Raise (Exn TransportError "HTTP 401 error: Unable to create record").

(** A model connection that refuses the next send and accepts the ones
    after it. *)
Definition refusing_once : state :=
  set_model_conn
    (Channel [Some (Exn TransportError "connection reset")] [])
    Sample.started.

(** A model connection that accepts the next send, refuses the one after
    it and accepts the later ones. *)
Definition refusing_resume : state :=
  set_model_conn
    (Channel [None; Some (Exn TransportError "connection reset")] [])
    Sample.started.

(** A decoder that also knows the start frame of a second call. *)
Definition decode_calls (text : string) : string + json :=
  match List.find (fun v => String.eqb (Sample.print v) text)
          (Sample.start_frame "CA2" "MZ2" :: Sample.known) with
  | Some v => inr v
  | None => inl "Expecting value: line 1 column 1 (char 0)"
  end.

Definition two_calls : PyLib :=
  {| json_loads := decode_calls;
     json_dumps := Sample.print;
     py_repr := Sample.print;
     str_upper := Sample.upper;
     isoformat := Sample.stamp;
     fromisoformat := Sample.unstamp;
     strftime_compact := Sample.stamp |}.

End Inputs.


(** ** Vocabulary of the properties *)

(** [R s s'] observes the state before and after.  A computation is
    [stable] under [R] when every run of it, returning or raising, is in
    [R]. *)
Definition stable (R : state -> state -> Prop) {X} (f : state -> X * state) : Prop :=
  forall s, R s (snd (f s)).

(** The text of every logger call made while a call is being relayed,
    that is, everywhere but in [handler_cleanup] and [cleanup_session]. *)
Definition relay_texts : list string :=
  ["WebSocket connection established";
   "WebSocket handler error: {}";
   "{traceback.format_exc()}";
   "OpenAI session created: {}";
   "Creating OpenAI session: {}";
   "OpenAI session created successfully: {}";
   "Failed to create OpenAI session {}: {}";
   "Failed to configure session: {}";
   "Session configuration sent";
   "Failed to send greeting: {}";
   "Initial greeting sent";
   "Failed to send audio: {}";
   "Failed to send function result: {}";
   "Function result sent for call_id: {}";
   "Call started";
   "Session initialized - Stream: {}";
   "Mark event: {}";
   "Call ended by Twilio";
   "Twilio WebSocket disconnected";
   "Twilio WebSocket disconnected: {}";
   "Error in twilio_to_openai: {}";
   "Audio response completed";
   "{}: {}";
   "Function call: {}";
   "Function result: {}";
   "Failed to parse function arguments: {}";
   "Function execution error: {}";
   "Response generation completed";
   "OpenAI error: {}";
   "Session configuration updated";
   "OpenAI stream cancelled";
   "Error in openai_to_twilio: {}";
   "Executing tool: {} with args: {}";
   "Order lookup result: {}";
   "Transfer request - Reason: {}, Priority: {}";
   "Checking availability: {}, pincode: {}";
   "Creating ticket: {}";
   "Unknown function: {}";
   "Tool execution error: {}";
   "Failed to create call record: {}";
   "Call record created: {}";
   "Failed to end call record: {}";
   "Call record ended: {}, duration: {}s";
   "Failed to log conversation: {}";
   "Conversation logged for {}: {}";
   "Fetching order details: {}";
   "Failed to fetch order details: {}";
   "Checking inventory: {}, pincode: {}";
   "Failed to check inventory: {}";
   "Failed to create transfer request: {}";
   "Transfer request created: {}";
   "Failed to create support ticket: {}";
   "Support ticket created: {}"].

Definition relay_text (text : string) : bool :=
  existsb (String.eqb text) relay_texts.

(** The tools [AGENT_CONFIG] declares. *)
Definition declared_tools : list string :=
  ["lookup_order"; "transfer_to_human"; "check_product_availability";
   "create_ticket"].

Definition is_declared (name : string) : bool :=
  existsb (String.eqb name) declared_tools.

(** The transport accepts the next [n] sends. *)
Fixpoint accepts (n : nat) (faults : list (option exn)) : bool :=
  match n, faults with
  | O, _ => true
  | S _, [] => true
  | S n', None :: rest => accepts n' rest
  | S _, Some _ :: _ => false
  end.

(** How many logged lines have the given text. *)
Definition lines_with (text : string) (l : list log_record) : nat :=
  length (List.filter (fun r => String.eqb (log_text r) text) l).

Definition closed_text : string := "WebSocket connection closed: {}".
Definition cleaned_text : string := "Session cleaned up: {}".

(** Only lines of [relay_texts] were logged. *)
Definition relay_lines (s s' : state) : Prop :=
  exists new,
    logged s' = logged s ++ new /\
    Forall (fun r => relay_text (log_text r) = true) new.

(** The connection to the model is as it was. *)
Definition same_model_conn (s s' : state) : Prop := model_conn s' = model_conn s.

(** While no stream identifier is set, none gets set and nothing is sent to
    telephony. *)
Definition before_start (s s' : state) : Prop :=
  stream_sid s = JNull -> stream_sid s' = JNull /\ websocket s' = websocket s.

(** On a model connection that refuses nothing, every send is accepted. *)
Definition all_accepted (s s' : state) : Prop :=
  ch_faults (model_conn s) = [] ->
  ch_faults (model_conn s') = [] /\
  exists new,
    ch_out (model_conn s') = ch_out (model_conn s) ++ new /\
    Forall (fun x => sent_fault x = None) new.

(** What [twilio_to_openai] logs when a message does not decode. *)
Definition decode_failure_lines (msg : string) (logger : option json)
    : list log_record :=
  match logger with
  | Some sid =>
      [Log (CallLogger sid) ERROR "Error in twilio_to_openai: {}" [JStr msg];
       Log (CallLogger sid) ERROR "{traceback.format_exc()}" [JStr msg]]
  | None => [Log app_logger ERROR "Error in twilio_to_openai: {}" [JStr msg]]
  end.

(** How many steps of the telephony pump a schedule holds. *)
Definition telephony_steps (schedule : list pump_id) : nat :=
  length (List.filter (fun p => match p with Telephony => true | Model => false end)
            schedule).

Section Vocabulary.

Context {lib : PyLib}.

(** The message is a [media] frame carrying [payload] ([None] when the
    frame has no payload). *)
Definition media_frame_of (message : string) (payload : json) : Prop :=
  exists fields media,
    json_loads message = inr (JObj fields) /\
    dict_get fields "event" = Some (JStr "media") /\
    dict_get fields "media" = Some (JObj media) /\
    default JNull (dict_get media "payload") = payload.

Definition stop_frame (message : string) : Prop :=
  exists fields,
    json_loads message = inr (JObj fields) /\
    dict_get fields "event" = Some (JStr "stop").

Definition start_frame (message : string) : Prop :=
  exists fields,
    json_loads message = inr (JObj fields) /\
    dict_get fields "event" = Some (JStr "start").

(** The entry [log_conversation] appends for an item. *)
Definition conversation_entry (sid : json) (item : list (string * json))
    (timestamp : Z) : json :=
  JObj [("call_sid", sid);
        ("item_id", default JNull (dict_get item "id"));
        ("item_type", default JNull (dict_get item "type"));
        ("role", default JNull (dict_get item "role"));
        ("content", default (JArr []) (dict_get item "content"));
        ("timestamp", JStr (isoformat timestamp))].

(** The sends of tool-call cycles: a tool result the transport refused, or
    a tool result it accepted and, right after it, the resume directive.
    A tool result is the [conversation.item.create] command that carries
    the [function_call_output] item of a tool-call identifier, the resume
    directive is [response.create]. *)
Inductive paired : list sent -> Prop :=
| paired_nil : paired []
| paired_refused call_id output e rest :
    paired rest ->
    paired (Sent (JObj [("type", JStr "conversation.item.create");
                        ("item",
                         JObj [("type", JStr "function_call_output");
                               ("call_id", call_id);
                               ("output", JStr output)])])
                 (Some e) :: rest)
| paired_resumed call_id output fault rest :
    paired rest ->
    paired (Sent (JObj [("type", JStr "conversation.item.create");
                        ("item",
                         JObj [("type", JStr "function_call_output");
                               ("call_id", call_id);
                               ("output", JStr output)])])
                 None
              :: Sent (JObj [("type", JStr "response.create")]) fault :: rest).

(** The model connection received a run of tool-call cycles, and nothing
    else. *)
Definition tool_cycles (s s' : state) : Prop :=
  exists new,
    ch_out (model_conn s') = ch_out (model_conn s) ++ new /\ paired new.

End Vocabulary.

(** *** Vocabulary of the services, the endpoints and the helpers *)

(** Every call record has a [status] entry. *)
Definition every_record_has_status (s : state) : Prop :=
  forall k record,
    calls_cache (db_service s) !! k = Some record ->
    is_Some (dict_get record "status").

(** The exception, if there is one, is caught by [except Exception]. *)
Definition ordinary (fault : option exn) : Prop :=
  forall e, fault = Some e -> is_Exception e = true.

(** The model connection is bound and registered as it was. *)
Definition connections_kept (s s' : state) : Prop :=
  openai_ws s' = openai_ws s /\ active_connections s' = active_connections s.

(** The session registry and the closure variables that identify the call
    are as they were. *)
Definition call_identity_kept (s s' : state) : Prop :=
  active_sessions s' = active_sessions s /\
  call_sid s' = call_sid s /\
  stream_sid s' = stream_sid s /\
  call_logger s' = call_logger s.

(** The telephony websocket is as it was. *)
Definition telephony_untouched (s s' : state) : Prop := websocket s' = websocket s.

(** A send of a media frame that carries a stream identifier and a
    payload. *)
Definition is_media_frame (x : sent) : Prop :=
  exists stream payload,
    sent_msg x = media_frame stream payload /\
    truthy stream = true /\ truthy payload = true.

(** Telephony was sent media frames, and nothing else. *)
Definition media_frames_only (s s' : state) : Prop :=
  exists new,
    ch_out (websocket s') = ch_out (websocket s) ++ new /\ Forall is_media_frame new.

(** The message is a dictionary whose [type] is the given one. *)
Definition has_type (msg : json) (type : string) : Prop :=
  exists fields, msg = JObj fields /\ dict_get fields "type" = Some (JStr type).

(** Sends on the model connection were added, none was removed. *)
Definition model_out_grows (s s' : state) : Prop :=
  exists new, ch_out (model_conn s') = ch_out (model_conn s) ++ new.

(** The string consists of decimal digits. *)
Fixpoint all_digits (text : string) : bool :=
  match text with
  | EmptyString => true
  | String c rest => is_digit c && all_digits rest
  end.

(** A start frame with its [start] dictionary, which carries a non-empty
    call identifier and custom parameters that are a dictionary (or
    none). *)
Definition start_frame_for {lib : PyLib} (message sid : string)
    (start : list (string * json)) : Prop :=
  exists fields custom,
    json_loads message = inr (JObj fields) /\
    dict_get fields "event" = Some (JStr "start") /\
    dict_get fields "start" = Some (JObj start) /\
    dict_get start "callSid" = Some (JStr sid) /\
    sid <> "" /\
    default (JObj []) (dict_get start "customParameters") = JObj custom.


(** * Verification *)

(** ** Relations that every step of a computation respects *)

Section Stable.

Context {lib : PyLib}.
Variable order_query : json -> outcome json.

(** [R] is reflexive and transitive: it relates a state to the states
    reached from it. *)
Variable R : state -> state -> Prop.
Hypothesis R_refl : forall s, R s s.
Hypothesis R_trans : forall a b c, R a b -> R b c -> R a c.

Lemma stable_ret {A} (a : A) : stable R (ret a).
Proof. intros s. apply R_refl. Qed.

Lemma stable_raise {A} (e : exn) : stable R (@raise A e).
Proof. intros s. apply R_refl. Qed.

Lemma stable_lift {A} (r : outcome A) : stable R (lift r).
Proof. intros s. apply R_refl. Qed.

Lemma stable_get_state : stable R get_state.
Proof. intros s. apply R_refl. Qed.

Lemma stable_bind {A B} (m : M A) (k : A -> M B) :
  stable R m -> (forall a, stable R (k a)) -> stable R (bind m k).
Proof.
  intros Hm Hk s. unfold bind. specialize (Hm s).
  destruct (m s) as [[a | e] s1]; simpl in *.
  - eapply R_trans; [exact Hm | apply Hk].
  - exact Hm.
Qed.

Lemma stable_when (c : bool) (body : M unit) : stable R body -> stable R (when c body).
Proof. intros Hb. destruct c; simpl; [exact Hb | apply stable_ret]. Qed.

Lemma stable_dispatch {A} (cs : clauses A) (e : exn) (h : M A) :
  Forall (fun c => forall e, stable R (snd c e)) cs ->
  dispatch cs e = Some h -> stable R h.
Proof.
  induction 1 as [| [catches handler] later Hc _ IH]; simpl; [discriminate |].
  destruct (catches e); [| exact IH].
  intros [= <-]. apply Hc.
Qed.

Lemma stable_try_except {A} (body : M A) (cs : clauses A) :
  stable R body ->
  Forall (fun c => forall e, stable R (snd c e)) cs ->
  stable R (try_except body cs).
Proof.
  intros Hb Hcs s. unfold try_except. specialize (Hb s).
  destruct (body s) as [[a | e] s1]; simpl in *; [exact Hb |].
  destruct (dispatch cs e) as [h |] eqn:Hd; simpl; [| exact Hb].
  eapply R_trans; [exact Hb | eapply stable_dispatch; eauto].
Qed.

Lemma stable_try_finally {A} (body : M A) (fin : M unit) :
  stable R body -> stable R fin -> stable R (try_finally body fin).
Proof.
  intros Hb Hf s. unfold try_finally. specialize (Hb s).
  destruct (body s) as [r s1]. specialize (Hf s1).
  destruct (fin s1) as [[u | e] s2]; simpl in *; eapply R_trans; eauto.
Qed.

Lemma stable_stream_end (ending : option exn) : stable R (stream_end ending).
Proof. destruct ending; [apply stable_raise | apply stable_ret]. Qed.

Lemma stable_settle {I} (cs : clauses unit) (e : exn) :
  Forall (fun c => forall e, stable R (snd c e)) cs ->
  stable R (@settle I cs e).
Proof.
  intros Hcs s. unfold settle.
  destruct (dispatch cs e) as [h |] eqn:Hd; [| apply R_refl].
  pose proof (stable_dispatch _ _ _ Hcs Hd s) as Hh.
  destruct (h s); exact Hh.
Qed.

(** Takes a goal [stable R f] apart along the structure of [f]; [leaf] is
    tried first, on the calls that are not to be looked into. *)
Ltac stable_with leaf :=
  repeat first
    [ progress intros
    | leaf
    | apply stable_ret
    | apply stable_raise
    | apply stable_lift
    | apply stable_get_state
    | apply stable_stream_end
    | apply stable_bind
    | apply stable_when
    | apply stable_try_except
    | apply List.Forall_cons
    | apply List.Forall_nil
    | progress cbn beta iota zeta delta [snd fst]
    | match goal with
      | |- stable _ (match ?x with _ => _ end) => destruct x
      | |- stable _ (if ?c then _ else _) => destruct c
      end ].

Ltac stable_split := stable_with fail.

(** *** Code that logs, reads the clock and writes to the database *)

Section Persistence.

Hypothesis stable_log :
  forall who lvl text args, relay_text text = true -> stable R (log who lvl text args).
Hypothesis stable_utcnow : stable R utcnow.
Hypothesis stable_modify_db : forall f, stable R (modify_db f).

Ltac stable_auto :=
  stable_with
    ltac:(first
            [ apply stable_utcnow
            | apply stable_modify_db
            | apply stable_log; reflexivity ]).

Lemma stable_call_log lvl text args :
  relay_text text = true -> stable R (call_log lvl text args).
Proof. intros Ht. unfold call_log. stable_split. apply stable_log, Ht. Qed.

Lemma stable_log_traceback who e : stable R (log_traceback who e).
Proof. unfold log_traceback. apply stable_log. reflexivity. Qed.

Lemma stable_log_and_reraise {A} who text args (body : M A) :
  relay_text text = true -> stable R body ->
  stable R (log_and_reraise who text args body).
Proof.
  intros Ht Hb. unfold log_and_reraise. stable_split; trivial.
  apply stable_log, Ht.
Qed.

Lemma stable_create_call_record sid call_data :
  stable R (create_call_record sid call_data).
Proof.
  unfold create_call_record.
  apply stable_log_and_reraise; [reflexivity |]. stable_auto.
Qed.

Lemma stable_end_call_record sid : stable R (end_call_record sid).
Proof.
  unfold end_call_record.
  apply stable_log_and_reraise; [reflexivity |]. stable_auto.
Qed.

Lemma stable_log_conversation sid item : stable R (log_conversation sid item).
Proof.
  unfold log_conversation.
  apply stable_log_and_reraise; [reflexivity |]. stable_auto.
Qed.

Lemma stable_get_order_details order_id :
  stable R (get_order_details order_query order_id).
Proof. unfold get_order_details. stable_auto. Qed.

Lemma stable_check_inventory product_name pincode :
  stable R (check_inventory product_name pincode).
Proof. unfold check_inventory. stable_auto. Qed.

Lemma stable_create_transfer_request sid reason context priority :
  stable R (create_transfer_request sid reason context priority).
Proof.
  unfold create_transfer_request.
  apply stable_log_and_reraise; [reflexivity |]. stable_auto.
Qed.

Lemma stable_create_support_ticket sid issue_type description phone priority :
  stable R (create_support_ticket sid issue_type description phone priority).
Proof.
  unfold create_support_ticket.
  apply stable_log_and_reraise; [reflexivity |]. stable_auto.
Qed.

Lemma stable_execute_tool function_name arguments sid :
  stable R (execute_tool order_query function_name arguments sid).
Proof.
  unfold execute_tool. stable_auto.
Qed.

(** *** What the pumps send, when every send respects [R] *)

Section Sends.

Hypothesis stable_connection_send : forall msg, stable R (connection_send msg).
Hypothesis stable_websocket_send_json : forall msg, stable R (websocket_send_json msg).

Lemma sends_stable_audio payload : stable R (send_audio payload).
Proof.
  unfold send_audio. apply stable_log_and_reraise; [reflexivity |].
  apply stable_connection_send.
Qed.

Lemma sends_stable_function_result call_id result :
  stable R (send_function_result call_id result).
Proof.
  unfold send_function_result. apply stable_log_and_reraise; [reflexivity |].
  stable_with
    ltac:(first [apply stable_connection_send | apply stable_log; reflexivity]).
Qed.

Lemma sends_stable_forward audio_delta :
  stable R (do s <- get_state;
          when (truthy (stream_sid s) && truthy audio_delta)
            (websocket_send_json (media_frame (stream_sid s) audio_delta))).
Proof. stable_with ltac:(apply stable_websocket_send_json). Qed.

End Sends.

(** *** The model-to-telephony pump *)

Section ModelPump.

Hypothesis stable_send_function_result :
  forall call_id result, stable R (send_function_result call_id result).
Hypothesis stable_forward :
  forall audio_delta,
    stable R (do s <- get_state;
            when (truthy (stream_sid s) && truthy audio_delta)
              (websocket_send_json (media_frame (stream_sid s) audio_delta))).

Lemma stable_openai_event event : stable R (openai_event order_query event).
Proof.
  unfold openai_event.
  apply stable_bind; [apply stable_lift | intros event_type].
  destruct (is_str event_type "response.audio.delta").
  { apply stable_bind; [apply stable_lift | intros audio_delta].
    apply stable_forward. }
  stable_with
    ltac:(first
            [ apply stable_send_function_result
            | apply stable_call_log; reflexivity
            | apply stable_log_conversation
            | apply stable_execute_tool
            | apply stable_log; reflexivity ]).
Qed.

Lemma stable_openai_except :
  Forall (fun c : (exn -> bool) * (exn -> M unit) => forall e, stable R (snd c e))
         openai_except.
Proof. unfold openai_except. stable_auto. Qed.

Lemma stable_openai_loop events events_end :
  stable R (openai_loop order_query events events_end).
Proof.
  induction events as [| event rest IH]; simpl.
  - apply stable_stream_end.
  - apply stable_bind; [apply stable_openai_event | intros _; exact IH].
Qed.

Lemma stable_openai_to_twilio events events_end :
  stable R (openai_to_twilio order_query events events_end).
Proof.
  unfold openai_to_twilio.
  apply stable_try_except; [apply stable_openai_loop | apply stable_openai_except].
Qed.

Lemma stable_openai_step events_end t :
  stable R (openai_step order_query events_end t).
Proof.
  intros s. unfold openai_step.
  destruct t as [[| event rest] | r]; [| | apply R_refl].
  - pose proof (stable_stream_end events_end s) as H1.
    destruct (stream_end events_end s) as [[u | e] s1]; simpl in *; [exact H1 |].
    eapply R_trans; [exact H1 | apply stable_settle, stable_openai_except].
  - pose proof (stable_openai_event event s) as H1.
    destruct (openai_event order_query event s) as [[u | e] s1]; simpl in *;
      [exact H1 |].
    eapply R_trans; [exact H1 | apply stable_settle, stable_openai_except].
Qed.

Lemma stable_openai_finish events_end t :
  stable R (openai_finish order_query events_end t).
Proof.
  destruct t; simpl; [apply stable_openai_to_twilio | apply stable_lift].
Qed.

(** *** The telephony-to-model pump and the two pumps together *)

Section TelephonyPump.

Hypothesis stable_send_audio : forall payload, stable R (send_audio payload).
Hypothesis stable_set_call_sid : forall v, stable R (modify (set_call_sid v)).
Hypothesis stable_set_stream_sid : forall v, stable R (modify (set_stream_sid v)).
Hypothesis stable_set_call_logger : forall v, stable R (modify (set_call_logger v)).
Hypothesis stable_register :
  forall f, (forall s, exists m, f s = set_active_sessions m s) -> stable R (modify f).

Lemma stable_twilio_frame session_id message :
  stable R (twilio_frame session_id message).
Proof.
  unfold twilio_frame.
  stable_with
    ltac:(first
            [ apply stable_send_audio
            | apply stable_set_call_sid
            | apply stable_set_stream_sid
            | apply stable_set_call_logger
            | apply stable_call_log; reflexivity
            | apply stable_create_call_record
            | apply stable_end_call_record
            | apply stable_utcnow
            | apply stable_log; reflexivity
            | apply stable_register; intros; eexists; reflexivity ]).
Qed.

Lemma stable_twilio_except :
  Forall (fun c : (exn -> bool) * (exn -> M unit) => forall e, stable R (snd c e))
         twilio_except.
Proof. unfold twilio_except. stable_auto. Qed.

Lemma stable_twilio_loop session_id frames frames_end :
  stable R (twilio_loop session_id frames frames_end).
Proof.
  induction frames as [| message rest IH]; simpl.
  - apply stable_stream_end.
  - apply stable_bind; [apply stable_twilio_frame |].
    intros [|]; [exact IH | apply stable_ret].
Qed.

Lemma stable_twilio_to_openai session_id frames frames_end :
  stable R (twilio_to_openai session_id frames frames_end).
Proof.
  unfold twilio_to_openai.
  apply stable_try_except; [apply stable_twilio_loop | apply stable_twilio_except].
Qed.

Lemma stable_twilio_step session_id frames_end t :
  stable R (twilio_step session_id frames_end t).
Proof.
  intros s. unfold twilio_step.
  destruct t as [[| message rest] | r]; [| | apply R_refl].
  - pose proof (stable_stream_end frames_end s) as H1.
    destruct (stream_end frames_end s) as [[u | e] s1]; simpl in *; [exact H1 |].
    eapply R_trans; [exact H1 | apply stable_settle, stable_twilio_except].
  - pose proof (stable_twilio_frame session_id message s) as H1.
    destruct (twilio_frame session_id message s) as [[[|] | e] s1]; simpl in *;
      try exact H1.
    eapply R_trans; [exact H1 | apply stable_settle, stable_twilio_except].
Qed.

(** A message the [start] branch does not handle. *)
Lemma stable_twilio_frame_not_start session_id message :
  ~ start_frame message -> stable R (twilio_frame session_id message).
Proof.
  intros Hns s. unfold twilio_frame. unfold bind at 1, lift at 1. cbn [loads].
  destruct (json_loads message) as [msg | data] eqn:Hl; [apply R_refl |].
  unfold bind at 1, lift at 1.
  destruct data as [| b | n | str | items | fields]; try apply R_refl.
  cbn [py_get].
  destruct (is_str (default JNull (dict_get fields "event")) "start") eqn:Hst.
  { exfalso. apply Hns. exists fields. split; [exact Hl |].
    destruct (dict_get fields "event") as [[] |]; try discriminate Hst.
    cbn in Hst. apply String.eqb_eq in Hst. subst. reflexivity. }
  revert s.
  match goal with
  | |- forall s, R s (snd (?F s)) => change (stable R F)
  end.
  stable_with
    ltac:(first
            [ apply stable_send_audio
            | apply stable_call_log; reflexivity
            | apply stable_end_call_record
            | apply stable_log; reflexivity ]).
Qed.

Lemma stable_twilio_step_not_start session_id frames_end message rest :
  ~ start_frame message ->
  stable R (twilio_step session_id frames_end (Pending (message :: rest))).
Proof.
  intros Hns s. unfold twilio_step.
  pose proof (stable_twilio_frame_not_start session_id message Hns s) as H1.
  destruct (twilio_frame session_id message s) as [[[|] | e] s1]; simpl in *;
    try exact H1.
  eapply R_trans; [exact H1 | apply stable_settle, stable_twilio_except].
Qed.

Lemma stable_twilio_finish session_id frames_end t :
  stable R (twilio_finish session_id frames_end t).
Proof.
  destruct t; simpl; [apply stable_twilio_to_openai | apply stable_lift].
Qed.

Lemma stable_gather_steps session_id frames_end events_end schedule tel mdl :
  stable R (gather_steps order_query session_id frames_end events_end schedule tel mdl).
Proof.
  revert tel mdl.
  induction schedule as [| [|] later IH]; intros tel mdl s; simpl.
  - apply R_refl.
  - pose proof (stable_twilio_step session_id frames_end tel s) as H1.
    destruct (twilio_step session_id frames_end tel s) as [tel' s1]; simpl in *.
    eapply R_trans; [exact H1 | apply IH].
  - pose proof (stable_openai_step events_end mdl s) as H1.
    destruct (openai_step order_query events_end mdl s) as [mdl' s1]; simpl in *.
    eapply R_trans; [exact H1 | apply IH].
Qed.

Lemma stable_gather session_id frames frames_end events events_end schedule :
  stable R (gather order_query session_id frames frames_end events events_end schedule).
Proof.
  intros s. unfold gather.
  pose proof (stable_gather_steps session_id frames_end events_end schedule
                (Pending frames) (Pending events) s) as H1.
  destruct (gather_steps order_query session_id frames_end events_end schedule
              (Pending frames) (Pending events) s) as [[tel mdl] s1]; simpl in *.
  pose proof (stable_twilio_finish session_id frames_end tel s1) as H2.
  destruct (twilio_finish session_id frames_end tel s1) as [r1 s2]; simpl in *.
  pose proof (stable_openai_finish events_end mdl s2) as H3.
  destruct (openai_finish order_query events_end mdl s2) as [r2 s3]; simpl in *.
  eauto.
Qed.

(** *** The [try] block of the endpoint *)

Section Endpoint.

Variable AGENT_CONFIG AUDIO_CONFIG : string -> json.

Hypothesis stable_connection_send : forall msg, stable R (connection_send msg).
Hypothesis stable_set_openai_ws : forall v, stable R (modify (set_openai_ws v)).
Hypothesis stable_connect :
  forall f, (forall s, exists c, f s = set_active_connections c s) -> stable R (modify f).

Lemma stable_handler_try inp :
  stable R (handler_try AGENT_CONFIG AUDIO_CONFIG order_query inp).
Proof.
  unfold handler_try.
  stable_with
    ltac:(first
            [ apply stable_gather
            | apply stable_connection_send
            | apply stable_set_openai_ws
            | apply stable_log; reflexivity
            | apply stable_connect; intros; eexists; reflexivity ]).
Qed.

End Endpoint.

End TelephonyPump.

End ModelPump.

End Persistence.

End Stable.

(** ** The claims *)

Section Claims.

Context {lib : PyLib}.
Variable AGENT_CONFIG AUDIO_CONFIG : string -> json.
Variable order_query : json -> outcome json.

(** Runs the monad on the state at hand. *)
Ltac run_m :=
  repeat (progress
            (unfold bind, lift, ret, raise, when, try_except, log, call_log,
               log_traceback, modify, modify_db, get_state, utcnow; cbn)).

(** *** The relations are reflexive and transitive *)

Lemma same_model_conn_refl s : same_model_conn s s.
Proof. reflexivity. Qed.

Lemma same_model_conn_trans a b c :
  same_model_conn a b -> same_model_conn b c -> same_model_conn a c.
Proof. unfold same_model_conn. congruence. Qed.

Lemma before_start_refl s : before_start s s.
Proof. intros H. split; [exact H | reflexivity]. Qed.

Lemma before_start_trans a b c :
  before_start a b -> before_start b c -> before_start a c.
Proof.
  intros Hab Hbc Ha. destruct (Hab Ha) as [Hb Hw]. destruct (Hbc Hb) as [Hc Hw'].
  split; [exact Hc | congruence].
Qed.

Lemma before_start_same (s s' : state) :
  stream_sid s' = stream_sid s -> websocket s' = websocket s -> before_start s s'.
Proof. intros H1 H2 H. split; congruence. Qed.

Lemma relay_lines_refl s : relay_lines s s.
Proof. exists []. split; [symmetry; apply app_nil_r | constructor]. Qed.

Lemma relay_lines_trans a b c : relay_lines a b -> relay_lines b c -> relay_lines a c.
Proof.
  intros (n1 & H1 & P1) (n2 & H2 & P2). exists (n1 ++ n2). split.
  - rewrite H2, H1, app_assoc. reflexivity.
  - apply Forall_app. split; assumption.
Qed.

Lemma relay_lines_same (s s' : state) : logged s' = logged s -> relay_lines s s'.
Proof.
  intros H. exists []. rewrite H, app_nil_r. split; [reflexivity | constructor].
Qed.

Lemma paired_app a b : paired a -> paired b -> paired (a ++ b).
Proof. induction 1; intros Hb; simpl; try constructor; auto. Qed.

Lemma tool_cycles_refl s : tool_cycles s s.
Proof. exists []. split; [symmetry; apply app_nil_r | constructor]. Qed.

Lemma tool_cycles_trans a b c : tool_cycles a b -> tool_cycles b c -> tool_cycles a c.
Proof.
  intros (n1 & H1 & P1) (n2 & H2 & P2). exists (n1 ++ n2). split.
  - rewrite H2, H1, app_assoc. reflexivity.
  - apply paired_app; assumption.
Qed.

Lemma tool_cycles_same (s s' : state) :
  model_conn s' = model_conn s -> tool_cycles s s'.
Proof.
  intros H. exists []. rewrite H, app_nil_r. split; [reflexivity | constructor].
Qed.

(** *** A step of a pump, then the rest of it *)

Lemma twilio_to_openai_continue session_id message rest frames_end s s1 :
  twilio_frame session_id message s = (Ok Continue, s1) ->
  twilio_to_openai session_id (message :: rest) frames_end s
  = twilio_to_openai session_id rest frames_end s1.
Proof.
  intros H. unfold twilio_to_openai, try_except. cbn. unfold bind at 1.
  rewrite H. reflexivity.
Qed.

Lemma openai_to_twilio_continue event rest events_end s s1 :
  openai_event order_query event s = (Ok tt, s1) ->
  openai_to_twilio order_query (event :: rest) events_end s
  = openai_to_twilio order_query rest events_end s1.
Proof.
  intros H. unfold openai_to_twilio, try_except. cbn. unfold bind at 1.
  rewrite H. reflexivity.
Qed.

(** An event whose handling raises ends the pump: the events after it
    play no part. *)
Lemma openai_to_twilio_raise event rest events_end e s s1 :
  openai_event order_query event s = (Raise e, s1) ->
  openai_to_twilio order_query (event :: rest) events_end s
  = openai_to_twilio order_query [event] None s.
Proof.
  intros H. unfold openai_to_twilio, try_except. cbn. unfold bind.
  rewrite H. reflexivity.
Qed.

(** Resuming a pump once and then letting it run is letting it run: the
    interleaved pumps are the pumps of the source. *)
Lemma twilio_step_then_finish session_id frames_end t s :
  let (t', s') := twilio_step session_id frames_end t s in
  twilio_finish session_id frames_end t' s'
  = twilio_finish session_id frames_end t s.
Proof.
  destruct t as [[| message rest] | r]; [| | reflexivity];
    unfold twilio_step, twilio_finish, twilio_to_openai, try_except, settle, lift;
    cbn [twilio_loop].
  - destruct (stream_end frames_end s) as [[[] | e] s1]; [reflexivity |].
    destruct (dispatch twilio_except e) as [h |]; [| reflexivity].
    destruct (h s1) as [r s2]. reflexivity.
  - unfold bind at 1.
    destruct (twilio_frame session_id message s) as [[[|] | e] s1];
      [reflexivity | reflexivity |].
    destruct (dispatch twilio_except e) as [h |]; [| reflexivity].
    destruct (h s1) as [r s2]. reflexivity.
Qed.

Lemma openai_step_then_finish events_end t s :
  let (t', s') := openai_step order_query events_end t s in
  openai_finish order_query events_end t' s'
  = openai_finish order_query events_end t s.
Proof.
  destruct t as [[| event rest] | r]; [| | reflexivity];
    unfold openai_step, openai_finish, openai_to_twilio, try_except, settle, lift;
    cbn [openai_loop].
  - destruct (stream_end events_end s) as [[[] | e] s1]; [reflexivity |].
    destruct (dispatch openai_except e) as [h |]; [| reflexivity].
    destruct (h s1) as [r s2]. reflexivity.
  - unfold bind at 1.
    destruct (openai_event order_query event s) as [[[] | e] s1]; [reflexivity |].
    destruct (dispatch openai_except e) as [h |]; [| reflexivity].
    destruct (h s1) as [r s2]. reflexivity.
Qed.

(** *** C1: audio from telephony reaches the model in order *)

Lemma media_frame_forwarded session_id message payload s :
  media_frame_of message payload ->
  openai_ws s = true ->
  ch_faults (model_conn s) = [] ->
  exists s1,
    twilio_frame session_id message s = (Ok Continue, s1) /\
    openai_ws s1 = true /\
    ch_faults (model_conn s1) = [] /\
    ch_out (model_conn s1)
    = ch_out (model_conn s)
        ++ (if truthy payload then [Sent (audio_append payload) None] else []).
Proof.
  intros (fields & media & Hloads & Hevent & Hmedia & Hpayload) Hws Hfaults.
  destruct s as [reg db conns t [faults out] ws lg csid ssid ows clog].
  cbn in Hws, Hfaults. subst ows faults.
  unfold twilio_frame, send_audio, log_and_reraise, connection_send. run_m.
  rewrite Hloads. cbn. rewrite Hevent. cbn. rewrite Hmedia. cbn.
  rewrite Hpayload. destruct (truthy payload); cbn.
  - eexists. repeat split; reflexivity.
  - eexists. repeat split. cbn. symmetry. apply app_nil_r.
Qed.

Local Opaque end_call_record.

Lemma stop_frame_ends_loop session_id message rest frames_end :
  stop_frame message ->
  stable same_model_conn (twilio_loop session_id (message :: rest) frames_end).
Proof.
  intros (fields & Hloads & Hevent) s.
  pose proof (stable_end_call_record same_model_conn same_model_conn_refl
                same_model_conn_trans) as Hend.
  cbn. unfold twilio_frame. run_m. rewrite Hloads. cbn. rewrite Hevent. cbn.
  destruct (call_logger s) as [sid |]; cbn.
  all: destruct (truthy (call_sid s)); cbn; [| reflexivity].
  all: match goal with
       | |- context [end_call_record ?c ?s0] =>
           pose proof (Hend ltac:(intros; intros ?; reflexivity)
                         ltac:(intros ?; reflexivity)
                         ltac:(intros; intros ?; reflexivity) c s0) as Hkeep;
           destruct (end_call_record c s0) as [[record | e] s1]
       end; cbn in *; exact Hkeep.
Qed.

Local Transparent end_call_record.

(** C1, as amended.  Of the media frames that arrive before the stop frame,
    those with a non-empty payload are forwarded to the model, each exactly
    once and in arrival order, and each as the command whose [type] is
    [input_audio_buffer.append] and whose [audio] is the payload; a media
    frame whose payload is empty or missing is skipped: what the model
    connection is sent is exactly these commands.  The pump runs with the
    model connection bound, on a transport that accepts its sends. *)
Theorem media_payloads_forwarded_in_order (session_id : string)
    (frames : list string) (payloads : list json) (stop : string)
    (rest : list string) (frames_end : option exn) (s : state) :
  Forall2 media_frame_of frames payloads ->
  stop_frame stop ->
  openai_ws s = true ->
  ch_faults (model_conn s) = [] ->
  ch_out (model_conn (snd (twilio_to_openai session_id (frames ++ stop :: rest)
                             frames_end s)))
  = ch_out (model_conn s)
      ++ map (fun payload =>
                Sent (JObj [("type", JStr "input_audio_buffer.append");
                            ("audio", payload)])
                     None)
             (List.filter truthy payloads).
Proof.
  intros Hframes Hstop. revert s.
  induction Hframes as [| message payload frames payloads Hm _ IH];
    intros s Hws Hfaults.
  - cbn [app List.filter map]. rewrite app_nil_r. f_equal.
    unfold twilio_to_openai.
    apply (stable_try_except same_model_conn same_model_conn_trans).
    + apply stop_frame_ends_loop, Hstop.
    + apply stable_twilio_except;
        [exact same_model_conn_refl | exact same_model_conn_trans |].
      intros who lvl text args _ s0. reflexivity.
  - destruct (media_frame_forwarded session_id message payload s Hm Hws Hfaults)
      as (s1 & Hstep & Hws1 & Hfaults1 & Hout1).
    cbn [app]. rewrite (twilio_to_openai_continue _ _ _ _ _ _ Hstep).
    rewrite (IH s1 Hws1 Hfaults1), Hout1. cbn [List.filter].
    destruct (truthy payload); cbn [map app].
    + rewrite <- app_assoc. reflexivity.
    + rewrite app_nil_r. reflexivity.
Qed.

(** *** C2: cleanup at the end of a call *)

Lemma relay_lines_count text s s' :
  relay_text text = false -> relay_lines s s' ->
  lines_with text (logged s') = lines_with text (logged s).
Proof.
  intros Ht (new & -> & Hnew). unfold lines_with.
  rewrite List.filter_app, length_app.
  assert (length (List.filter (fun r => String.eqb (log_text r) text) new) = 0%nat)
    as ->; [| lia].
  induction Hnew as [| r new Hr _ IH]; [reflexivity |]. cbn.
  destruct (String.eqb (log_text r) text) eqn:E; [| exact IH].
  apply String.eqb_eq in E. congruence.
Qed.

(** Until the [finally] block, the endpoint logs lines of [relay_texts]
    only. *)
Lemma handler_try_relay_lines inp :
  stable relay_lines (handler_try AGENT_CONFIG AUDIO_CONFIG order_query inp).
Proof.
  assert (Hlog : forall who lvl text args,
             relay_text text = true -> stable relay_lines (log who lvl text args)).
  { intros who lvl text args Ht s. eexists. split; [reflexivity |].
    repeat constructor. exact Ht. }
  assert (Hnow : stable relay_lines utcnow).
  { intros s. apply relay_lines_same. reflexivity. }
  assert (Hdb : forall f, stable relay_lines (modify_db f)).
  { intros f s. apply relay_lines_same. reflexivity. }
  assert (Hconn : forall msg, stable relay_lines (connection_send msg)).
  { intros msg s. apply relay_lines_same. unfold connection_send.
    destruct (channel_send msg (model_conn s)). reflexivity. }
  assert (Hws : forall msg, stable relay_lines (websocket_send_json msg)).
  { intros msg s. apply relay_lines_same. unfold websocket_send_json.
    destruct (channel_send msg (websocket s)). reflexivity. }
  apply stable_handler_try;
    try solve [ exact relay_lines_refl | exact relay_lines_trans | assumption
              | intros v s; apply relay_lines_same; reflexivity ].
  - intros call_id result. apply sends_stable_function_result;
      solve [exact relay_lines_refl | exact relay_lines_trans | assumption].
  - intros audio_delta. apply sends_stable_forward;
      solve [exact relay_lines_refl | exact relay_lines_trans | assumption].
  - intros payload. apply sends_stable_audio;
      solve [exact relay_lines_refl | exact relay_lines_trans | assumption].
  - intros f Hf s. apply relay_lines_same. cbn. destruct (Hf s) as [m ->].
    reflexivity.
  - intros f Hf s. apply relay_lines_same. cbn. destruct (Hf s) as [m ->].
    reflexivity.
Qed.

(** What the [finally] block does to the log and to the registry. *)
Lemma handler_cleanup_effect inp s :
  let s' := snd (handler_cleanup inp s) in
  ((forall e, in_close_fault inp = Some e -> is_Exception e = true) ->
   lines_with closed_text (logged s') = S (lines_with closed_text (logged s)))
  /\ (lines_with cleaned_text (logged s') <= S (lines_with cleaned_text (logged s)))%nat
  /\ call_sid s' = call_sid s
  /\ (forall k, truthy (call_sid s) = true -> hash_key (call_sid s) = Ok k ->
               active_sessions s' !! k = None).
Proof.
  destruct s as [reg db conns t mc ws lg csid ssid ows clog].
  unfold handler_cleanup, cleanup_session, close_session. run_m.
  destruct (truthy csid) eqn:Htruthy; cbn;
    [destruct (hash_key csid) as [k | e0] eqn:Hk;
     [cbn; destruct (reg !! k) as [session |] eqn:Hreg; cbn
     | destruct csid; try discriminate Hk; injection Hk as <-; cbn] |].
  all: destruct ows; cbn.
  all: try destruct (decide (in_session_id inp ∈ conns)) as [Hin | Hin]; cbn.
  all: try (destruct (in_close_fault inp) as [ce |]; cbn;
            [destruct (is_Exception ce) eqn:Hce; cbn |]).
  all: unfold lines_with; rewrite ?List.filter_app, ?length_app; cbn.
  all: repeat split;
    first
      [ lia
      | reflexivity
      | intros Hclose; specialize (Hclose _ eq_refl); congruence
      | intros Hclose; lia
      | intros k' Ht Hk';
        first
          [ discriminate Ht
          | discriminate Hk'
          | injection Hk' as <-;
            first [apply lookup_delete_eq | assumption] ] ].
Qed.

Lemma snd_try_finally {A} (body : M A) (fin : M unit) (s : state) :
  snd (try_finally body fin s) = snd (fin (snd (body s))).
Proof.
  unfold try_finally. destruct (body s) as [r s1]. cbn.
  destruct (fin s1) as [[u | e] s2]; reflexivity.
Qed.

(** What the [finally] block removes from the registry: the entry of the
    call identifier, when that is non-empty, and no other. *)
Lemma handler_cleanup_registry inp s :
  active_sessions (snd (handler_cleanup inp s))
  = match hash_key (call_sid s) with
    | Ok k => if truthy (call_sid s) then delete k (active_sessions s)
              else active_sessions s
    | Raise _ => active_sessions s
    end.
Proof.
  destruct s as [reg db conns t mc ws lg csid ssid ows clog].
  unfold handler_cleanup, cleanup_session, close_session. run_m.
  destruct (truthy csid) eqn:Htruthy; cbn;
    [destruct (hash_key csid) as [k | e0] eqn:Hk;
     [cbn; destruct (reg !! k) as [session |] eqn:Hreg; cbn
     | destruct csid; try discriminate Hk; injection Hk as <-; cbn]
    | destruct (hash_key csid) as [k | e0] eqn:Hk].
  all: destruct ows; cbn.
  all: try destruct (decide (in_session_id inp ∈ conns)) as [Hin | Hin]; cbn.
  all: try (destruct (in_close_fault inp) as [ce |]; cbn;
            [destruct (is_Exception ce) eqn:Hce; cbn |]).
  all: first [reflexivity | symmetry; apply delete_id; exact Hreg].
Qed.

(** C2, as amended.  In a run in which both pumps end, whatever they
    receive, in whatever order they are resumed and however each of them
    ends, [media_stream_handler] runs its cleanup once.  With [ended] the
    state in which the [try] block is left: when the handler returns, the
    call identifier is the one of [ended], that is, of the last start frame
    handled; if it is non-empty it is absent from [active_sessions]; the
    registry is the one of [ended] without the entry of that identifier,
    and unchanged when the identifier is empty or missing, so that what
    earlier start frames registered under other identifiers stays
    registered; the removal of a session was logged at most once; and,
    when closing the model stream raises nothing but an ordinary exception,
    the closing line of the handler was logged exactly once. *)
Theorem cleanup_runs_once (inp : call_input) (s : state) :
  let began :=
    snd (log app_logger INFO "WebSocket connection established" []
           (set_call_sid JNull
              (set_stream_sid JNull (set_openai_ws false (set_call_logger None s))))) in
  let ended := snd (handler_try AGENT_CONFIG AUDIO_CONFIG order_query inp began) in
  let s' := snd (media_stream_handler AGENT_CONFIG AUDIO_CONFIG order_query inp s) in
  call_sid s' = call_sid ended
  /\ (forall k, truthy (call_sid s') = true -> hash_key (call_sid s') = Ok k ->
                active_sessions s' !! k = None)
  /\ active_sessions s'
     = match hash_key (call_sid s') with
       | Ok k => if truthy (call_sid s') then delete k (active_sessions ended)
                 else active_sessions ended
       | Raise _ => active_sessions ended
       end
  /\ (lines_with cleaned_text (logged s') <= S (lines_with cleaned_text (logged s)))%nat
  /\ ((forall e, in_close_fault inp = Some e -> is_Exception e = true) ->
      lines_with closed_text (logged s') = S (lines_with closed_text (logged s))).
Proof.
  unfold media_stream_handler. run_m. rewrite snd_try_finally.
  set (s0 := set_logged _ _).
  pose proof (handler_try_relay_lines inp s0) as Hrelay.
  set (s1 := snd (handler_try AGENT_CONFIG AUDIO_CONFIG order_query inp s0)) in *.
  destruct (handler_cleanup_effect inp s1) as (Hclosed & Hcleaned & Hsid & Hreg).
  pose proof (handler_cleanup_registry inp s1) as Hkept.
  assert (Hstart : relay_lines s s0).
  { eexists. split; [reflexivity |]. repeat constructor. }
  pose proof (relay_lines_trans _ _ _ Hstart Hrelay) as Hall.
  rewrite Hsid.
  rewrite <- (relay_lines_count closed_text s s1 eq_refl Hall).
  rewrite <- (relay_lines_count cleaned_text s s1 eq_refl Hall).
  auto.
Qed.

(** *** C3: a second start frame for the same call *)

(** C3, as amended.  A start frame registers its session under the call
    identifier whether or not the identifier is already registered: the
    frame is handled without any error, the entry of [active_sessions] for
    the identifier is the new session (an older one is replaced), and the
    entries of other identifiers are untouched.  The registry being a map,
    an identifier has at most one session at any instant. *)
Theorem start_frame_replaces_session (session_id message : string)
    (fields start custom : list (string * json)) (k : key) (s : state) :
  json_loads message = inr (JObj fields) ->
  dict_get fields "event" = Some (JStr "start") ->
  dict_get fields "start" = Some (JObj start) ->
  default (JObj []) (dict_get start "customParameters") = JObj custom ->
  hash_key (default JNull (dict_get start "callSid")) = Ok k ->
  exists s',
    twilio_frame session_id message s = (Ok Continue, s') /\
    active_sessions s' !! k
    = Some (SessionData (default JNull (dict_get start "callSid"))
              (default JNull (dict_get start "streamSid")) session_id (now s)
              (default (JStr "") (dict_get custom "from"))) /\
    (forall k', k' <> k -> active_sessions s' !! k' = active_sessions s !! k').
Proof.
  intros Hloads Hevent Hstart Hcustom Hk.
  destruct s as [reg db conns t mc ws lg csid ssid ows clog].
  unfold twilio_frame, create_call_record, log_and_reraise. run_m.
  repeat (progress (rewrite ?Hloads, ?Hevent, ?Hstart, ?Hcustom, ?Hk; cbn)).
  eexists. split; [reflexivity |]. cbn. split.
  - apply lookup_insert_eq.
  - intros k' Hne. apply lookup_insert_ne. congruence.
Qed.

(** *** C4: a tool result and the directive to resume *)

Lemma paired_resume_follows l :
  paired l ->
  forall i call_id output,
    l !! i
    = Some (Sent (JObj [("type", JStr "conversation.item.create");
                        ("item",
                         JObj [("type", JStr "function_call_output");
                               ("call_id", call_id);
                               ("output", JStr output)])])
                 None) ->
    exists fault,
      l !! S i = Some (Sent (JObj [("type", JStr "response.create")]) fault).
Proof.
  induction 1 as [| c r e rest _ IH | c r fault rest _ IH];
    intros i call_id output Hi.
  - rewrite lookup_nil in Hi. discriminate.
  - destruct i as [| i]; [discriminate Hi |]. exact (IH i call_id output Hi).
  - destruct i as [| [| i]].
    + exists fault. reflexivity.
    + discriminate Hi.
    + exact (IH i call_id output Hi).
Qed.

Lemma paired_resume_preceded l :
  paired l ->
  forall i fault,
    l !! i = Some (Sent (JObj [("type", JStr "response.create")]) fault) ->
    exists i' call_id output,
      i = S i' /\
      l !! i'
      = Some (Sent (JObj [("type", JStr "conversation.item.create");
                          ("item",
                           JObj [("type", JStr "function_call_output");
                                 ("call_id", call_id);
                                 ("output", JStr output)])])
                   None).
Proof.
  induction 1 as [| c r e rest _ IH | c r fault' rest _ IH]; intros i fault Hi.
  - rewrite lookup_nil in Hi. discriminate.
  - destruct i as [| i]; [discriminate Hi |].
    destruct (IH i fault Hi) as (i' & c' & r' & -> & Hi').
    exists (S i'), c', r'. split; [reflexivity | exact Hi'].
  - destruct i as [| [| i]].
    + discriminate Hi.
    + exists 0%nat, c, r. split; reflexivity.
    + destruct (IH i fault Hi) as (i' & c' & r' & -> & Hi').
      exists (S (S i')), c', r'. split; [reflexivity | exact Hi'].
Qed.

Lemma send_function_result_cycle call_id result :
  stable tool_cycles (send_function_result call_id result).
Proof.
  intros s. destruct s as [reg db conns t [faults out] ws lg csid ssid ows clog].
  unfold send_function_result, log_and_reraise, connection_send, channel_send.
  run_m.
  destruct faults as [| [e |] faults]; cbn.
  - eexists. split; [rewrite <- app_assoc; reflexivity | repeat constructor].
  - destruct (is_Exception e); cbn; eexists; (split; [reflexivity | repeat constructor]).
  - destruct faults as [| [e |] faults]; cbn.
    + eexists. split; [rewrite <- app_assoc; reflexivity | repeat constructor].
    + destruct (is_Exception e); cbn; eexists;
        (split; [rewrite <- app_assoc; reflexivity | repeat constructor]).
    + eexists. split; [rewrite <- app_assoc; reflexivity | repeat constructor].
Qed.

Lemma all_accepted_refl s : all_accepted s s.
Proof.
  intros H. split; [exact H |]. exists []. split; [symmetry; apply app_nil_r | constructor].
Qed.

Lemma all_accepted_trans a b c :
  all_accepted a b -> all_accepted b c -> all_accepted a c.
Proof.
  intros Hab Hbc Ha. destruct (Hab Ha) as (Hb & n1 & H1 & P1).
  destruct (Hbc Hb) as (Hc & n2 & H2 & P2). split; [exact Hc |].
  exists (n1 ++ n2). split.
  - rewrite H2, H1, app_assoc. reflexivity.
  - apply Forall_app. split; assumption.
Qed.

Lemma all_accepted_same (s s' : state) :
  model_conn s' = model_conn s -> all_accepted s s'.
Proof. intros H. unfold all_accepted. rewrite H. exact (all_accepted_refl s). Qed.

Lemma all_accepted_connection_send msg : stable all_accepted (connection_send msg).
Proof.
  intros s Hnone. unfold connection_send, channel_send. rewrite Hnone. cbn.
  split; [reflexivity |]. eexists. split; [reflexivity | repeat constructor].
Qed.

(** C4, as amended.  Among the sends the model-to-telephony pump makes on
    the model connection, whatever events it handles: on a connection that
    refuses nothing every send is accepted, every tool result (the
    [conversation.item.create] command whose [item] is the
    [function_call_output] of a tool-call identifier) is immediately
    followed by [response.create], and every [response.create] immediately
    follows such a tool result, so that result and directive go out as a
    pair, in that order, with nothing in between.  Whichever sends the
    transport refuses, a tool result it accepted is immediately followed by
    the send of [response.create] and every [response.create] immediately
    follows an accepted tool result; but that send of [response.create] can
    be the one refused, and then, as after a refused tool result, the pump
    sends a second tool result for the same identifier. *)
Theorem tool_result_then_resume (events : list json) (events_end : option exn)
    (s : state) :
  exists new,
    ch_out (model_conn (snd (openai_to_twilio order_query events events_end s)))
    = ch_out (model_conn s) ++ new
    /\ (forall i call_id output,
          new !! i
          = Some (Sent (JObj [("type", JStr "conversation.item.create");
                              ("item",
                               JObj [("type", JStr "function_call_output");
                                     ("call_id", call_id);
                                     ("output", JStr output)])])
                       None) ->
          exists fault,
            new !! S i = Some (Sent (JObj [("type", JStr "response.create")]) fault))
    /\ (forall i fault,
          new !! i = Some (Sent (JObj [("type", JStr "response.create")]) fault) ->
          exists i' call_id output,
            i = S i' /\
            new !! i'
            = Some (Sent (JObj [("type", JStr "conversation.item.create");
                                ("item",
                                 JObj [("type", JStr "function_call_output");
                                       ("call_id", call_id);
                                       ("output", JStr output)])])
                         None))
    /\ (ch_faults (model_conn s) = [] -> Forall (fun x => sent_fault x = None) new).
Proof.
  assert (H : stable tool_cycles (openai_to_twilio order_query events events_end)).
  { apply stable_openai_to_twilio.
    - exact tool_cycles_refl.
    - exact tool_cycles_trans.
    - intros who lvl text args _ s0. apply tool_cycles_same. reflexivity.
    - intros s0. apply tool_cycles_same. reflexivity.
    - intros f s0. apply tool_cycles_same. reflexivity.
    - exact send_function_result_cycle.
    - intros audio_delta s0. apply tool_cycles_same.
      run_m. destruct (truthy (stream_sid s0) && truthy audio_delta); cbn;
        [| reflexivity].
      unfold websocket_send_json. destruct (channel_send _ _). reflexivity. }
  assert (H' : stable all_accepted (openai_to_twilio order_query events events_end)).
  { apply stable_openai_to_twilio.
    - exact all_accepted_refl.
    - exact all_accepted_trans.
    - intros who lvl text args _ s0. apply all_accepted_same. reflexivity.
    - intros s0. apply all_accepted_same. reflexivity.
    - intros f s0. apply all_accepted_same. reflexivity.
    - intros call_id result. apply sends_stable_function_result.
      + exact all_accepted_refl.
      + exact all_accepted_trans.
      + intros who lvl text args _ s0. apply all_accepted_same. reflexivity.
      + exact all_accepted_connection_send.
    - intros audio_delta s0. apply all_accepted_same.
      run_m. destruct (truthy (stream_sid s0) && truthy audio_delta); cbn;
        [| reflexivity].
      unfold websocket_send_json. destruct (channel_send _ _). reflexivity. }
  destruct (H s) as (new & Hout & Hp). exists new. split; [exact Hout |].
  split; [exact (paired_resume_follows new Hp) |].
  split; [exact (paired_resume_preceded new Hp) |].
  intros Hnone. destruct (H' s Hnone) as (_ & new' & Hout' & Hall).
  rewrite Hout in Hout'. apply app_inv_head in Hout'. subst new'. exact Hall.
Qed.

(** *** C5: a function name that is not a declared tool *)

(** C5.  For a function name that is none of the four declared tools, and
    for any arguments, call identifier and state, [execute_tool] raises
    nothing and returns the payload whose [error] is ["Unknown function: "]
    followed by the name. *)
Theorem unknown_function_error_payload (name : string) (arguments sid : json)
    (s : state) :
  is_declared name = false ->
  fst (execute_tool order_query (JStr name) arguments sid s)
  = Ok (JObj [("error", JStr ("Unknown function: " +:+ name));
              ("message", JStr "I'm sorry, I couldn't process that request.")]).
Proof.
  unfold is_declared. cbn. rewrite !orb_false_iff.
  intros (H1 & H2 & H3 & H4 & _).
  unfold execute_tool. cbn. rewrite H1, H2, H3, H4. reflexivity.
Qed.

(** *** C6: tool arguments that do not parse *)

(** C6, as amended.  When the arguments string of a
    [response.function_call_arguments.done] event does not parse, the model
    is sent the result [{error: "Invalid arguments"}] for the tool-call
    identifier: the [conversation.item.create] command whose [item] is the
    [function_call_output] with that identifier and the payload as its
    [output].  When the transport accepts this send and the
    [response.create] after it, the event is handled without an exception
    and the pump goes on with the events that come after.  When the
    transport refuses one of the two with an ordinary exception, the
    exception leaves the handling of the event and ends the pump, which
    returns without having handled any of the events that come after. *)
Theorem malformed_arguments_reported (fields : list (string * json))
    (text msg : string) (rest : list json) (events_end : option exn) (s : state) :
  dict_get fields "type" = Some (JStr "response.function_call_arguments.done") ->
  dict_get fields "arguments" = Some (JStr text) ->
  json_loads text = inl msg ->
  let report :=
    JObj [("type", JStr "conversation.item.create");
          ("item",
           JObj [("type", JStr "function_call_output");
                 ("call_id", default JNull (dict_get fields "call_id"));
                 ("output",
                  JStr (json_dumps (JObj [("error", JStr "Invalid arguments")])))])] in
  let resume := JObj [("type", JStr "response.create")] in
  (accepts 2 (ch_faults (model_conn s)) = true ->
   exists s1,
     openai_event order_query (JObj fields) s = (Ok tt, s1) /\
     ch_out (model_conn s1)
     = ch_out (model_conn s) ++ [Sent report None; Sent resume None] /\
     openai_to_twilio order_query (JObj fields :: rest) events_end s
     = openai_to_twilio order_query rest events_end s1)
  /\ (forall e faults sends,
        (ch_faults (model_conn s) = Some e :: faults /\
         sends = [Sent report (Some e)]
         \/ ch_faults (model_conn s) = None :: Some e :: faults /\
            sends = [Sent report None; Sent resume (Some e)]) ->
        is_Exception e = true ->
        exists s1,
          openai_event order_query (JObj fields) s = (Raise e, s1) /\
          ch_out (model_conn s1) = ch_out (model_conn s) ++ sends /\
          websocket s1 = websocket s /\
          fst (openai_to_twilio order_query (JObj fields :: rest) events_end s)
          = Ok tt /\
          openai_to_twilio order_query (JObj fields :: rest) events_end s
          = openai_to_twilio order_query [JObj fields] None s).
Proof.
  intros Htype Hargs Hloads report resume. split.
  - intros Hacc.
    assert (Hev : exists s1,
               openai_event order_query (JObj fields) s = (Ok tt, s1) /\
               ch_out (model_conn s1)
               = ch_out (model_conn s) ++ [Sent report None; Sent resume None]).
    { destruct s as [reg db conns t [faults out] ws lg csid ssid ows clog].
      cbn in Hacc |- *.
      unfold openai_event, send_function_result, log_and_reraise, connection_send.
      run_m. rewrite Htype. cbn. rewrite Hargs. cbn. rewrite Hloads. cbn.
      destruct clog; cbn;
        destruct faults as [| [e |] [| [e' |] faults]];
        try discriminate Hacc; cbn;
        (eexists; split; [reflexivity |]); cbn; rewrite <- app_assoc; reflexivity. }
    destruct Hev as (s1 & Hev & Hout). exists s1. repeat split; trivial.
    apply openai_to_twilio_continue, Hev.
  - intros e faults sends Hfaults He.
    assert (Hnot : is_class CancelledError e = false).
    { unfold is_Exception, is_class in *. destruct (exn_class_eqb _ _);
        [discriminate He | reflexivity]. }
    assert (Hev : exists s1,
               openai_event order_query (JObj fields) s = (Raise e, s1) /\
               ch_out (model_conn s1) = ch_out (model_conn s) ++ sends /\
               websocket s1 = websocket s).
    { destruct s as [reg db conns t [fl out] ws lg csid ssid ows clog].
      cbn in Hfaults |- *.
      unfold openai_event, send_function_result, log_and_reraise, connection_send.
      run_m. rewrite Htype. cbn. rewrite Hargs. cbn. rewrite Hloads. cbn.
      destruct Hfaults as [[-> ->] | [-> ->]]; destruct clog; cbn; rewrite He; cbn;
        (eexists; split; [reflexivity |]); cbn; rewrite <- ?app_assoc;
        split; reflexivity. }
    destruct Hev as (s1 & Hev & Hout & Hws). exists s1.
    split; [exact Hev |]. split; [exact Hout |]. split; [exact Hws |].
    rewrite (openai_to_twilio_raise _ rest events_end _ _ _ Hev). split; [| reflexivity].
    unfold openai_to_twilio, try_except. cbn. unfold bind at 1. rewrite Hev. cbn.
    rewrite Hnot, He. cbn. run_m.
    destruct (call_logger s1); reflexivity.
Qed.

(** *** C7: a telephony message that does not decode *)

(** C7, as amended.  A telephony message that does not decode ends the
    telephony-to-model pump: the [JSONDecodeError] is caught by the pump's
    own [except] clause and logged, the pump returns without raising, no
    later message is handled, and nothing but the log has changed.  The
    failure stays inside the pump. *)
Theorem undecodable_frame_ends_the_pump (session_id message msg : string)
    (rest : list string) (frames_end : option exn) (s : state) :
  json_loads message = inl msg ->
  twilio_to_openai session_id (message :: rest) frames_end s
  = (Ok tt, set_logged (logged s ++ decode_failure_lines msg (call_logger s)) s).
Proof.
  intros Hloads.
  destruct s as [reg db conns t mc ws lg csid ssid ows clog].
  unfold twilio_to_openai, twilio_frame. cbn. run_m.
  rewrite Hloads. cbn. destruct clog; run_m; [| reflexivity].
  unfold set_logged. cbn. rewrite <- app_assoc. reflexivity.
Qed.

(** *** C8: looking up an order *)

(** C8.  Dispatching [lookup_order] with the [order_id] of its arguments
    returns, when the order query answers with a record, that record, and,
    when the query fails, the payload
    [{error: "Order not found", order_id}] with the identifier that was
    asked for. *)
Theorem lookup_order_result (fields : list (string * json)) (sid : json) (s : state) :
  let order_id := default JNull (dict_get fields "order_id") in
  let result := fst (execute_tool order_query (JStr "lookup_order") (JObj fields) sid s) in
  (forall record, order_query order_id = Ok (JObj record) -> result = Ok (JObj record))
  /\ (forall e, order_query order_id = Raise e -> is_Exception e = true ->
        result = Ok (JObj [("error", JStr "Order not found"); ("order_id", order_id)])).
Proof.
  intros order_id result. subst result. unfold execute_tool, get_order_details.
  split.
  - intros record Hq. cbn. run_m. fold order_id. rewrite Hq. reflexivity.
  - intros e Hq He. cbn. run_m. fold order_id. rewrite Hq. cbn. rewrite He.
    reflexivity.
Qed.

(** *** C9: a conversation item with no content *)

Local Opaque log_conversation.

Lemma item_created_with_empty_content (fields item : list (string * json)) (s : state) :
  dict_get fields "type" = Some (JStr "conversation.item.created") ->
  dict_get fields "item" = Some (JObj item) ->
  default (JArr []) (dict_get item "content") = JArr [] ->
  openai_event order_query (JObj fields) s
  = when (truthy (call_sid s))
      (bind (log_conversation (call_sid s) (JObj item)) (fun _ => ret tt)) s.
Proof.
  intros Htype Hitem Hcontent.
  unfold openai_event. run_m. rewrite Htype. cbn. rewrite Hitem. cbn.
  destruct (truthy (call_sid s)); cbn.
  - destruct (log_conversation (call_sid s) (JObj item) s) as [[entry | e] s1];
      [| reflexivity].
    destruct (call_logger s1); [| reflexivity].
    destruct (is_str _ "message"); [| reflexivity].
    rewrite Hcontent. reflexivity.
  - destruct (call_logger s); [| reflexivity].
    destruct (is_str _ "message"); [| reflexivity].
    rewrite Hcontent. reflexivity.
Qed.

Local Transparent log_conversation.

(** C9, as amended.  For a [conversation.item.created] event whose item has
    an empty content list, handling the event is handing the item to
    [log_conversation] when the call identifier is set, and nothing at all
    when it is not (no start frame yet): no transcript line is logged, the
    first content fragment is never read and the transcript code raises
    nothing.  With the identifier set, the item is appended to the
    conversation log of the call and the only line logged is the one of the
    database service. *)
Theorem empty_content_skips_transcript (fields item : list (string * json))
    (s : state) :
  dict_get fields "type" = Some (JStr "conversation.item.created") ->
  dict_get fields "item" = Some (JObj item) ->
  default (JArr []) (dict_get item "content") = JArr [] ->
  openai_event order_query (JObj fields) s
  = when (truthy (call_sid s))
      (bind (log_conversation (call_sid s) (JObj item)) (fun _ => ret tt)) s
  /\ (truthy (call_sid s) = false ->
      openai_event order_query (JObj fields) s = (Ok tt, s))
  /\ (forall k,
        truthy (call_sid s) = true -> hash_key (call_sid s) = Ok k ->
        exists s',
          openai_event order_query (JObj fields) s = (Ok tt, s') /\
          conversations_cache (db_service s') !! k
          = Some (default [] (conversations_cache (db_service s) !! k)
                    ++ [conversation_entry (call_sid s) item (now s)]) /\
          logged s'
          = logged s
              ++ [Log db_logger DEBUG "Conversation logged for {}: {}"
                    [call_sid s; default JNull (dict_get item "type")]]).
Proof.
  intros Htype Hitem Hcontent.
  pose proof (item_created_with_empty_content fields item s Htype Hitem Hcontent)
    as Heq.
  split; [exact Heq |]. rewrite Heq. clear Heq. split.
  - intros ->. reflexivity.
  - intros k -> Hk. unfold log_conversation, log_and_reraise. run_m.
    rewrite Hk. cbn. eexists. split; [reflexivity |]. cbn. split; [| reflexivity].
    apply lookup_insert_eq.
Qed.

(** *** C10: audio from the model reaches telephony *)

Lemma twilio_step_task session_id frames_end message rest s :
  fst (twilio_step session_id frames_end (Pending (message :: rest)) s) = Pending rest
  \/ exists r, fst (twilio_step session_id frames_end (Pending (message :: rest)) s)
               = Done r.
Proof.
  unfold twilio_step, settle.
  destruct (twilio_frame session_id message s) as [[[|] | e] s1]; cbn [fst];
    [left; reflexivity | right; eexists; reflexivity |].
  destruct (dispatch twilio_except e) as [h |]; cbn [fst];
    [| right; eexists; reflexivity].
  destruct (h s1). right. eexists. reflexivity.
Qed.

Lemma before_start_log who lvl text args : stable before_start (log who lvl text args).
Proof. intros s. apply before_start_same; reflexivity. Qed.

Lemma before_start_connection_send msg : stable before_start (connection_send msg).
Proof.
  intros s. unfold connection_send.
  destruct (channel_send msg (model_conn s)). apply before_start_same; reflexivity.
Qed.

Lemma before_start_forward audio_delta :
  stable before_start
    (do s <- get_state;
     when (truthy (stream_sid s) && truthy audio_delta)
       (websocket_send_json (media_frame (stream_sid s) audio_delta))).
Proof. intros s Hnone. run_m. rewrite Hnone. cbn. split; [exact Hnone | reflexivity]. Qed.

(** The side conditions of the stability lemmas, for [before_start]. *)
Ltac before_start_side :=
  first
    [ assumption
    | exact before_start_refl
    | exact before_start_trans
    | exact before_start_connection_send
    | exact before_start_forward
    | intros; apply before_start_log
    | intros; intros ?; apply before_start_same; reflexivity ].

(** While the telephony pump has handled no start frame, no stream
    identifier is set and nothing has been sent to telephony. *)
Lemma steps_before_start session_id frames_end events_end schedule :
  forall tel mdl s,
    match tel with
    | Done _ => True
    | Pending frames =>
        exists pre post,
          frames = pre ++ post /\
          Forall (fun message => ~ start_frame message) pre /\
          (telephony_steps schedule <= length pre)%nat
    end ->
    before_start s
      (snd (gather_steps order_query session_id frames_end events_end schedule
              tel mdl s)).
Proof.
  induction schedule as [| [|] later IH]; intros tel mdl s Htel; cbn [gather_steps].
  - apply before_start_refl.
  - destruct tel as [frames | r].
    + destruct Htel as (pre & post & -> & Hpre & Hlen).
      destruct pre as [| message pre];
        [unfold telephony_steps in Hlen; cbn in Hlen; lia |].
      apply Forall_cons in Hpre as [Hmessage Hpre].
      assert (H1 : stable before_start
                     (twilio_step session_id frames_end
                        (Pending (message :: pre ++ post)))).
      { apply stable_twilio_step_not_start; try before_start_side.
        intros payload. apply sends_stable_audio; before_start_side. }
      specialize (H1 s).
      pose proof (twilio_step_task session_id frames_end message (pre ++ post) s)
        as Htask.
      cbn [app].
      destruct (twilio_step session_id frames_end (Pending (message :: pre ++ post)) s)
        as [tel' s1]. cbn [fst snd] in *.
      eapply before_start_trans; [exact H1 |]. apply IH.
      destruct Htask as [-> | [r ->]]; [| exact I].
      exists pre, post. repeat split; trivial.
      unfold telephony_steps in *. cbn in Hlen. lia.
    + cbn. apply IH. exact I.
  - assert (H1 : stable before_start (openai_step order_query events_end mdl)).
    { apply stable_openai_step; try before_start_side.
      intros call_id result. apply sends_stable_function_result; before_start_side. }
    specialize (H1 s).
    destruct (openai_step order_query events_end mdl s) as [mdl' s1].
    cbn [snd] in H1. eapply before_start_trans; [exact H1 |]. apply IH.
    destruct tel as [frames | r]; [| exact I].
    destruct Htel as (pre & post & -> & Hpre & Hlen). exists pre, post.
    repeat split; trivial.
Qed.

(** C10.  A [response.audio.delta] event makes the pump send telephony one
    media frame, exactly when the stream identifier is set and the delta is
    non-empty: the frame whose [event] is [media], whose [streamSid] is the
    stream identifier and whose [media] holds the delta as its [payload].
    Otherwise the event changes nothing and raises nothing.  The stream identifier is set
    by a start frame only: in a run of the two pumps that begins with none,
    as long as the telephony pump has handled no start frame, nothing has
    been sent to telephony and a delta that arrives is dropped. *)
Theorem audio_delta_forwarded_iff (fields : list (string * json)) (s : state) :
  dict_get fields "type" = Some (JStr "response.audio.delta") ->
  let audio_delta := default (JStr "") (dict_get fields "delta") in
  (truthy (stream_sid s) && truthy audio_delta = true ->
   exists fault,
     ch_out (websocket (snd (openai_event order_query (JObj fields) s)))
     = ch_out (websocket s)
         ++ [Sent (JObj [("event", JStr "media");
                         ("streamSid", stream_sid s);
                         ("media", JObj [("payload", audio_delta)])])
                  fault])
  /\ (truthy (stream_sid s) && truthy audio_delta = false ->
      openai_event order_query (JObj fields) s = (Ok tt, s))
  /\ (forall session_id frames_end events_end schedule pre post events s0,
        stream_sid s0 = JNull ->
        Forall (fun message => ~ start_frame message) pre ->
        (telephony_steps schedule <= length pre)%nat ->
        let s1 :=
          snd (gather_steps order_query session_id frames_end events_end schedule
                 (Pending (pre ++ post)) (Pending events) s0) in
        websocket s1 = websocket s0 /\
        openai_event order_query (JObj fields) s1 = (Ok tt, s1)).
Proof.
  intros Htype audio_delta.
  assert (Hdrop : forall s', truthy (stream_sid s') && truthy audio_delta = false ->
                             openai_event order_query (JObj fields) s' = (Ok tt, s')).
  { intros s' Hc. unfold openai_event. run_m. rewrite Htype. cbn.
    fold audio_delta. rewrite Hc. reflexivity. }
  split; [| split].
  - intros Hc. unfold openai_event. run_m. rewrite Htype. cbn. fold audio_delta.
    rewrite Hc. cbn. unfold websocket_send_json, channel_send.
    destruct (ch_faults (websocket s)) as [| [e |] faults]; cbn; eexists; reflexivity.
  - apply Hdrop.
  - intros session_id frames_end events_end schedule pre post events s0 Hnone Hpre
      Hlen s1.
    destruct (steps_before_start session_id frames_end events_end schedule
                (Pending (pre ++ post)) (Pending events) s0
                ltac:(exists pre, post; auto) Hnone) as [Hnone1 Hws].
    split; [exact Hws |]. apply Hdrop. fold s1 in Hnone1. rewrite Hnone1. reflexivity.
Qed.

End Claims.

(** ** The claims at concrete inputs *)

(** *** C1 *)

(** C1 as stated fails: a media frame whose payload is the empty string is
    handled before the stop frame, and no [input_audio_buffer.append] is
    sent for it. *)
Lemma empty_payload_is_not_forwarded :
  let frames := [Sample.print (Sample.media (JStr "")); Sample.print Sample.stop] in
  let s' := snd (twilio_to_openai (lib := Sample.lib) "sess_1" frames None
                   Sample.streaming) in
  Forall2 (media_frame_of (lib := Sample.lib))
          [Sample.print (Sample.media (JStr ""))] [JStr ""]
  /\ ch_out (model_conn s') = []
  /\ ch_out (model_conn s')
     <> [Sent (JObj [("type", JStr "input_audio_buffer.append");
                     ("audio", JStr "")]) None].
Proof.
  split; [| split].
  - repeat constructor. exists (("event", JStr "media") :: [("media", JObj [("payload", JStr "")])]), [("payload", JStr "")].
    repeat split; reflexivity.
  - vm_compute. reflexivity.
  - vm_compute. discriminate.
Qed.

Lemma media_payloads_forwarded_witness :
  let payloads := [JStr "AAA="; JStr ""; JStr "BBB="] in
  ch_out (model_conn
            (snd (twilio_to_openai (lib := Sample.lib) "sess_1"
                    (map Sample.print (map Sample.media payloads)
                       ++ Sample.print Sample.stop :: [])
                    None Sample.streaming)))
  = [Sent (JObj [("type", JStr "input_audio_buffer.append");
                 ("audio", JStr "AAA=")]) None;
     Sent (JObj [("type", JStr "input_audio_buffer.append");
                 ("audio", JStr "BBB=")]) None].
Proof.
  apply (media_payloads_forwarded_in_order (lib := Sample.lib) "sess_1"
           (map Sample.print (map Sample.media [JStr "AAA="; JStr ""; JStr "BBB="]))
           [JStr "AAA="; JStr ""; JStr "BBB="] (Sample.print Sample.stop) [] None
           Sample.streaming).
  - repeat constructor.
    + exists [("event", JStr "media"); ("media", JObj [("payload", JStr "AAA=")])],
        [("payload", JStr "AAA=")].
      repeat split; reflexivity.
    + exists [("event", JStr "media"); ("media", JObj [("payload", JStr "")])],
        [("payload", JStr "")].
      repeat split; reflexivity.
    + exists [("event", JStr "media"); ("media", JObj [("payload", JStr "BBB=")])],
        [("payload", JStr "BBB=")].
      repeat split; reflexivity.
  - exists [("event", JStr "stop")]. split; reflexivity.
  - reflexivity.
  - reflexivity.
Defined.

(** *** C2 *)

(** C2 as stated fails: a call whose start frame carries the empty string
    as call identifier is registered under it, and the entry is still in
    [active_sessions] when the handler has returned. *)
Lemma empty_call_identifier_stays_registered :
  let inp := Sample.call [Sample.start_frame "" "MZ1"; Sample.stop] [] in
  let s' := snd (media_stream_handler (lib := Sample.lib) Sample.agent_config
                   Sample.audio_config mock_order_query inp fresh_state) in
  call_sid s' = JStr ""
  /\ lines_with closed_text (logged s') = 1%nat
  /\ sd_stream_sid <$> active_sessions s' !! KStr "" = Some (JStr "MZ1").
Proof. vm_compute. repeat split. Qed.

(** A second start frame on the same connection, for another call: at
    cleanup the identifier of the second call is removed, and the session
    the first start frame registered stays in [active_sessions]. *)
Lemma earlier_call_identifier_stays_registered :
  let inp :=
    Sample.call
      [Sample.start_frame "CA1" "MZ1"; Sample.start_frame "CA2" "MZ2"; Sample.stop]
      [] in
  let s' := snd (media_stream_handler (lib := Inputs.two_calls) Sample.agent_config
                   Sample.audio_config mock_order_query inp fresh_state) in
  call_sid s' = JStr "CA2"
  /\ active_sessions s' !! KStr "CA2" = None
  /\ sd_stream_sid <$> active_sessions s' !! KStr "CA1" = Some (JStr "MZ1").
Proof. vm_compute. repeat split. Qed.

Lemma cleanup_runs_once_witness :
  let inp :=
    Sample.call [Sample.start_frame "CA1" "MZ1"; Sample.media (JStr "AAA=");
                 Sample.stop]
      [JObj Sample.delta_event] in
  let s' := snd (media_stream_handler (lib := Sample.lib) Sample.agent_config
                   Sample.audio_config mock_order_query inp fresh_state) in
  call_sid s' = JStr "CA1"
  /\ active_sessions s' !! KStr "CA1" = None
  /\ lines_with closed_text (logged s') = 1%nat.
Proof.
  intros inp s'.
  destruct (cleanup_runs_once (lib := Sample.lib) Sample.agent_config
              Sample.audio_config mock_order_query inp fresh_state)
    as (_ & Hreg & _ & _ & Hclosed).
  split; [vm_compute; reflexivity |]. split.
  - apply Hreg; vm_compute; reflexivity.
  - apply Hclosed. intros e He. vm_compute in He. discriminate He.
Defined.

(** *** C3 *)

(** C3 as stated fails: a second start frame for a call identifier that is
    registered is handled without any error, and the entry of the first
    session is replaced by the second. *)
Lemma second_start_replaces_silently :
  let r := twilio_frame (lib := Sample.lib) "sess_1" Sample.second_start
             Sample.started in
  sd_stream_sid <$> active_sessions Sample.started !! KStr "CA1" = Some (JStr "MZ1")
  /\ fst r = Ok Continue
  /\ sd_stream_sid <$> active_sessions (snd r) !! KStr "CA1" = Some (JStr "MZ2").
Proof. vm_compute. repeat split. Qed.

Lemma start_frame_replaces_session_witness :
  exists s',
    twilio_frame (lib := Sample.lib) "sess_1" Sample.second_start Sample.started
    = (Ok Continue, s')
    /\ sd_stream_sid <$> active_sessions s' !! KStr "CA1" = Some (JStr "MZ2").
Proof.
  destruct (start_frame_replaces_session (lib := Sample.lib) "sess_1"
              Sample.second_start
              [("event", JStr "start");
               ("start",
                JObj [("callSid", JStr "CA1");
                      ("streamSid", JStr "MZ2");
                      ("customParameters", JObj [("from", JStr "+919876543210")])])]
              [("callSid", JStr "CA1");
               ("streamSid", JStr "MZ2");
               ("customParameters", JObj [("from", JStr "+919876543210")])]
              [("from", JStr "+919876543210")]
              (KStr "CA1") Sample.started
              eq_refl eq_refl eq_refl eq_refl eq_refl)
    as (s' & Hstep & Hnew & _).
  exists s'. split; [exact Hstep |]. rewrite Hnew. reflexivity.
Defined.

(** *** C4 *)

(** C4 as stated fails: when the transport accepts a tool result and
    refuses the [response.create] after it, the pump sends a second tool
    result for the same tool-call identifier, the error payload, and only
    then a [response.create] that goes through: the model connection is
    sent two results for one tool call. *)
Lemma resume_refused_second_result :
  let e := Exn TransportError "connection reset" in
  let s' := snd (openai_to_twilio (lib := Sample.lib) mock_order_query
                   [JObj Sample.tool_call_event] None Inputs.refusing_resume) in
  ch_faults (model_conn Inputs.refusing_resume) = [None; Some e]
  /\ ch_out (model_conn s')
     = [Sent (JObj [("type", JStr "conversation.item.create");
                    ("item",
                     JObj [("type", JStr "function_call_output");
                           ("call_id", JStr "fc1");
                           ("output",
                            JStr (Sample.print (mock_order (JStr "ORD1"))))])])
             None;
        Sent (JObj [("type", JStr "response.create")]) (Some e);
        Sent (JObj [("type", JStr "conversation.item.create");
                    ("item",
                     JObj [("type", JStr "function_call_output");
                           ("call_id", JStr "fc1");
                           ("output",
                            JStr (Sample.print
                                    (JObj [("error", JStr "connection reset")])))])])
             None;
        Sent (JObj [("type", JStr "response.create")]) None].
Proof. vm_compute. split; reflexivity. Qed.

Lemma tool_result_then_resume_witness :
  let s' := snd (openai_to_twilio (lib := Sample.lib) mock_order_query
                   [JObj Sample.tool_call_event; JObj Sample.bad_arguments_event]
                   None Sample.started) in
  ch_out (model_conn s')
  = [Sent (JObj [("type", JStr "conversation.item.create");
                 ("item",
                  JObj [("type", JStr "function_call_output");
                        ("call_id", JStr "fc1");
                        ("output",
                         JStr (Sample.print (mock_order (JStr "ORD1"))))])])
          None;
     Sent (JObj [("type", JStr "response.create")]) None;
     Sent (JObj [("type", JStr "conversation.item.create");
                 ("item",
                  JObj [("type", JStr "function_call_output");
                        ("call_id", JStr "fc2");
                        ("output",
                         JStr (Sample.print
                                 (JObj [("error", JStr "Invalid arguments")])))])])
          None;
     Sent (JObj [("type", JStr "response.create")]) None]
  /\ (exists fault,
        ch_out (model_conn s') !! 3%nat
        = Some (Sent (JObj [("type", JStr "response.create")]) fault))
  /\ Forall (fun x => sent_fault x = None) (ch_out (model_conn s')).
Proof.
  intros s'. split; [vm_compute; reflexivity |].
  destruct (tool_result_then_resume (lib := Sample.lib) mock_order_query
              [JObj Sample.tool_call_event; JObj Sample.bad_arguments_event]
              None Sample.started)
    as (new & Hout & Hfollow & _ & Haccepted).
  fold s' in Hout. change (ch_out (model_conn s') = new) in Hout. rewrite Hout.
  split.
  - apply (Hfollow 2%nat (JStr "fc2")
             (Sample.print (JObj [("error", JStr "Invalid arguments")]))).
    rewrite <- Hout. vm_compute. reflexivity.
  - apply Haccepted. reflexivity.
Defined.

(** *** C5 *)

Lemma unknown_function_error_payload_witness :
  fst (execute_tool (lib := Sample.lib) mock_order_query (JStr "cancel_order")
         (JObj [("order_id", JStr "ORD1")]) (JStr "CA1") Sample.started)
  = Ok (JObj [("error", JStr "Unknown function: cancel_order");
              ("message", JStr "I'm sorry, I couldn't process that request.")]).
Proof.
  apply (unknown_function_error_payload (lib := Sample.lib) mock_order_query
           "cancel_order").
  reflexivity.
Defined.

(** *** C6 *)

(** C6 as stated fails: when the transport refuses the result that
    reports the arguments, the pump ends, and the audio delta that comes
    after the event, which the pump forwards to telephony on a transport
    that accepts the sends, is never handled. *)
Lemma events_after_refused_report_are_not_handled :
  let e := Exn TransportError "connection reset" in
  let events := [JObj Sample.bad_arguments_event; JObj Sample.delta_event] in
  let after s :=
    snd (openai_to_twilio (lib := Sample.lib) mock_order_query events None s) in
  json_loads (PyLib := Sample.lib) "{oops"
  = inl "Expecting value: line 1 column 1 (char 0)"
  /\ ch_out (websocket (after Sample.started))
     = [Sent (JObj [("event", JStr "media");
                    ("streamSid", JStr "MZ1");
                    ("media", JObj [("payload", JStr "xyz")])])
             None]
  /\ ch_out (model_conn (after Inputs.refusing_once))
     = [Sent (JObj [("type", JStr "conversation.item.create");
                    ("item",
                     JObj [("type", JStr "function_call_output");
                           ("call_id", JStr "fc2");
                           ("output",
                            JStr (Sample.print
                                    (JObj [("error", JStr "Invalid arguments")])))])])
             (Some e)]
  /\ ch_out (websocket (after Inputs.refusing_once)) = [].
Proof. vm_compute. repeat split. Qed.

Lemma malformed_arguments_reported_witness :
  let report :=
    JObj [("type", JStr "conversation.item.create");
          ("item",
           JObj [("type", JStr "function_call_output");
                 ("call_id", JStr "fc2");
                 ("output",
                  JStr (Sample.print (JObj [("error", JStr "Invalid arguments")])))])] in
  let events := [JObj Sample.bad_arguments_event; JObj Sample.delta_event] in
  (exists s1,
     openai_event (lib := Sample.lib) mock_order_query
       (JObj Sample.bad_arguments_event) Sample.started = (Ok tt, s1)
     /\ ch_out (model_conn s1)
        = [Sent report None; Sent (JObj [("type", JStr "response.create")]) None]
     /\ openai_to_twilio (lib := Sample.lib) mock_order_query events None
          Sample.started
        = openai_to_twilio (lib := Sample.lib) mock_order_query
            [JObj Sample.delta_event] None s1)
  /\ (exists s1,
        openai_event (lib := Sample.lib) mock_order_query
          (JObj Sample.bad_arguments_event) Inputs.refusing_once
        = (Raise (Exn TransportError "connection reset"), s1)
        /\ ch_out (model_conn s1)
           = [Sent report (Some (Exn TransportError "connection reset"))]
        /\ openai_to_twilio (lib := Sample.lib) mock_order_query events None
             Inputs.refusing_once
           = openai_to_twilio (lib := Sample.lib) mock_order_query
               [JObj Sample.bad_arguments_event] None Inputs.refusing_once).
Proof.
  intros report events. split.
  - destruct (malformed_arguments_reported (lib := Sample.lib) mock_order_query
                Sample.bad_arguments_event "{oops"
                "Expecting value: line 1 column 1 (char 0)"
                [JObj Sample.delta_event] None Sample.started
                eq_refl eq_refl eq_refl)
      as [Haccepted _].
    destruct (Haccepted eq_refl) as (s1 & Hev & Hout & Hnext).
    exists s1. split; [exact Hev |]. split; [exact Hout | exact Hnext].
  - destruct (malformed_arguments_reported (lib := Sample.lib) mock_order_query
                Sample.bad_arguments_event "{oops"
                "Expecting value: line 1 column 1 (char 0)"
                [JObj Sample.delta_event] None Inputs.refusing_once
                eq_refl eq_refl eq_refl)
      as [_ Hrefused].
    destruct (Hrefused (Exn TransportError "connection reset") []
                [Sent report (Some (Exn TransportError "connection reset"))])
      as (s1 & Hev & Hout & _ & _ & Hends).
    + left. split; reflexivity.
    + reflexivity.
    + exists s1. split; [exact Hev |]. split; [exact Hout | exact Hends].
Defined.

(** *** C7 *)

(** C7 as stated fails: the media frame that follows a message that does
    not decode is never forwarded, while the same frame alone is. *)
Lemma frame_after_undecodable_one_is_lost :
  let media := Sample.print (Sample.media (JStr "AAA=")) in
  json_loads (PyLib := Sample.lib) "{oops"
  = inl "Expecting value: line 1 column 1 (char 0)"
  /\ ch_out (model_conn (snd (twilio_to_openai (lib := Sample.lib) "sess_1"
                                ["{oops"; media] None Sample.streaming))) = []
  /\ ch_out (model_conn (snd (twilio_to_openai (lib := Sample.lib) "sess_1"
                                [media] None Sample.streaming)))
     = [Sent (audio_append (JStr "AAA=")) None].
Proof. vm_compute. repeat split. Qed.

Lemma undecodable_frame_ends_the_pump_witness :
  twilio_to_openai (lib := Sample.lib) "sess_1"
    ["{oops"; Sample.print (Sample.media (JStr "AAA="))] None Sample.streaming
  = (Ok tt,
     set_logged
       [Log app_logger ERROR "Error in twilio_to_openai: {}"
          [JStr "Expecting value: line 1 column 1 (char 0)"]]
       Sample.streaming).
Proof.
  apply (undecodable_frame_ends_the_pump (lib := Sample.lib) "sess_1" "{oops"
           "Expecting value: line 1 column 1 (char 0)").
  reflexivity.
Defined.

(** *** C8 *)

Lemma lookup_order_result_witness :
  fst (execute_tool (lib := Sample.lib) mock_order_query (JStr "lookup_order")
         (JObj [("order_id", JStr "ORD1")]) (JStr "CA1") Sample.started)
  = Ok (mock_order (JStr "ORD1"))
  /\ fst (execute_tool (lib := Sample.lib) failing_order_query (JStr "lookup_order")
            (JObj [("order_id", JStr "ORD1")]) (JStr "CA1") Sample.started)
     = Ok (JObj [("error", JStr "Order not found"); ("order_id", JStr "ORD1")]).
Proof.
  split.
  - eapply (lookup_order_result (lib := Sample.lib) mock_order_query
              [("order_id", JStr "ORD1")] (JStr "CA1") Sample.started).
    reflexivity.
  - eapply (lookup_order_result (lib := Sample.lib) failing_order_query
              [("order_id", JStr "ORD1")] (JStr "CA1") Sample.started);
      reflexivity.
Defined.

(** *** C9 *)

(** C9 as stated fails: before the start frame has set the call identifier,
    an item with an empty content list is not handed to the conversation
    log; handling the event changes nothing. *)
Lemma item_before_start_is_not_persisted :
  call_sid Sample.streaming = JNull
  /\ openai_event (lib := Sample.lib) mock_order_query
       (JObj Sample.item_created_event) Sample.streaming
     = (Ok tt, Sample.streaming).
Proof. vm_compute. split; reflexivity. Qed.

Lemma empty_content_skips_transcript_witness :
  exists s',
    openai_event (lib := Sample.lib) mock_order_query
      (JObj Sample.item_created_event) Sample.started = (Ok tt, s')
    /\ length <$> conversations_cache (db_service s') !! KStr "CA1" = Some 1%nat
    /\ lines_with "{}: {}" (logged s') = 0%nat.
Proof.
  destruct (empty_content_skips_transcript (lib := Sample.lib) mock_order_query
              Sample.item_created_event Sample.empty_item Sample.started
              eq_refl eq_refl eq_refl)
    as (_ & _ & Hset).
  destruct (Hset (KStr "CA1") eq_refl eq_refl) as (s' & Hev & Hcache & Hlog).
  exists s'. split; [exact Hev |]. split.
  - rewrite Hcache. reflexivity.
  - rewrite Hlog. reflexivity.
Defined.

(** *** C10 *)

Lemma audio_delta_forwarded_iff_witness :
  (exists fault,
     ch_out (websocket (snd (openai_event (lib := Sample.lib) mock_order_query
                               (JObj Sample.delta_event) Sample.started)))
     = [Sent (JObj [("event", JStr "media");
                    ("streamSid", JStr "MZ1");
                    ("media", JObj [("payload", JStr "xyz")])])
             fault])
  /\ openai_event (lib := Sample.lib) mock_order_query (JObj Sample.delta_event)
       Sample.streaming
     = (Ok tt, Sample.streaming).
Proof.
  split.
  - destruct (audio_delta_forwarded_iff (lib := Sample.lib) mock_order_query
                Sample.delta_event Sample.started eq_refl) as (Hforward & _ & _).
    destruct (Hforward eq_refl) as [fault Hout]. exists fault. exact Hout.
  - destruct (audio_delta_forwarded_iff (lib := Sample.lib) mock_order_query
                Sample.delta_event Sample.streaming eq_refl) as (_ & Hdrop & _).
    apply Hdrop. reflexivity.
Defined.

(** * The services, the endpoints and the helpers *)

Section Coverage.

Context {lib : PyLib}.
Variable AGENT_CONFIG AUDIO_CONFIG : string -> json.
Variable order_query : json -> outcome json.

(** Runs the monad on the state at hand. *)
Ltac run_m :=
  repeat (progress
            (unfold bind, lift, ret, raise, when, try_except, log, call_log,
               log_traceback, modify, modify_db, get_state, utcnow; cbn)).

(** ** Dictionaries *)

Lemma dict_get_set_eq fields k v : dict_get (dict_set fields k v) k = Some v.
Proof.
  induction fields as [| [k' v'] rest IH]; cbn.
  - rewrite String.eqb_refl. reflexivity.
  - destruct (String.eqb k' k) eqn:E; cbn.
    + rewrite String.eqb_refl. reflexivity.
    + rewrite E. exact IH.
Qed.

Lemma dict_get_set_ne fields k k' v :
  k' <> k -> dict_get (dict_set fields k v) k' = dict_get fields k'.
Proof.
  intros Hne. induction fields as [| [k0 v0] rest IH]; cbn.
  - destruct (String.eqb k k') eqn:E; [| reflexivity].
    apply String.eqb_eq in E. congruence.
  - destruct (String.eqb k0 k) eqn:E; cbn.
    + apply String.eqb_eq in E. subst k0.
      destruct (String.eqb k k') eqn:E'; [| reflexivity].
      apply String.eqb_eq in E'. congruence.
    + destruct (String.eqb k0 k'); [reflexivity | exact IH].
Qed.

Lemma dict_set_not_empty (fields : list (string * json)) k v :
  match dict_set fields k v with [] => false | _ :: _ => true end = true.
Proof.
  destruct fields as [| [k0 v0] rest]; cbn; [reflexivity |].
  destruct (String.eqb k0 k); reflexivity.
Qed.

(** ** The database service *)

(** X1.  A call record that [create_call_record] stores under a hashable
    call identifier is the record [get_call_record] returns for that
    identifier: its status is in-progress, its end time is unset, the
    numbers it holds are those of the call data (the empty string when the
    call data has none), its start time is the instant of the creation; the
    records of other calls are untouched. *)
Theorem call_record_round_trip (sid : json) (fields : list (string * json))
    (k : key) (s : state) :
  hash_key sid = Ok k ->
  exists record s1,
    create_call_record sid (JObj fields) s = (Ok (JObj record), s1) /\
    get_call_record sid s1 = (Ok (JObj record), s1) /\
    dict_get record "call_sid" = Some sid /\
    dict_get record "status" = Some (JStr "in-progress") /\
    dict_get record "from_number" = Some (default (JStr "") (dict_get fields "from")) /\
    dict_get record "to_number" = Some (default (JStr "") (dict_get fields "to")) /\
    dict_get record "start_time" = Some (JStr (isoformat (now s))) /\
    dict_get record "end_time" = Some JNull /\
    (forall k', k' <> k ->
       calls_cache (db_service s1) !! k' = calls_cache (db_service s) !! k').
Proof.
  intros Hk. destruct s as [reg db conns t mc ws lg csid ssid ows clog].
  unfold create_call_record, get_call_record, log_and_reraise. run_m.
  rewrite Hk. cbn. eexists. eexists. split; [reflexivity |].
  cbn. rewrite lookup_insert_eq.
  repeat split; try reflexivity.
  intros k' Hne. apply lookup_insert_ne. congruence.
Qed.

(** X2.  [end_call_record] on a hashable call identifier: when the call has
    no record it returns the empty dictionary and changes nothing; when it
    has one whose start time the library reads back, the record is marked
    completed, its end time is the instant of the call, its duration the
    time since the start, every other entry is kept, [get_call_record]
    returns the updated record, and the records of other calls are
    untouched. *)
Theorem end_call_record_completes (sid : json) (k : key) (s : state) :
  hash_key sid = Ok k ->
  (calls_cache (db_service s) !! k = None ->
   end_call_record sid s = (Ok (JObj []), s))
  /\ (forall record started,
        calls_cache (db_service s) !! k = Some record ->
        dict_get record "start_time" = Some (JStr (isoformat started)) ->
        fromisoformat (isoformat started) = Some started ->
        exists record' s1,
          end_call_record sid s = (Ok (JObj record'), s1) /\
          get_call_record sid s1 = (Ok (JObj record'), s1) /\
          dict_get record' "status" = Some (JStr "completed") /\
          dict_get record' "end_time" = Some (JStr (isoformat (now s))) /\
          dict_get record' "duration" = Some (JNum (now s - started)) /\
          (forall field,
             field <> "status" -> field <> "end_time" -> field <> "duration" ->
             dict_get record' field = dict_get record field) /\
          (forall k', k' <> k ->
             calls_cache (db_service s1) !! k' = calls_cache (db_service s) !! k')).
Proof.
  intros Hk. destruct s as [reg db conns t mc ws lg csid ssid ows clog]. split.
  - intros Hnone. unfold end_call_record, log_and_reraise. run_m.
    rewrite Hk. cbn in *. rewrite Hnone. reflexivity.
  - intros record started Hrec Hstart Hiso.
    unfold end_call_record, get_call_record, log_and_reraise. run_m.
    rewrite Hk. cbn in *. rewrite Hrec. cbn. unfold dict_item. rewrite Hstart. cbn.
    rewrite Hiso. cbn.
    eexists. eexists. split; [reflexivity |]. cbn. rewrite lookup_insert_eq.
    split; [reflexivity |].
    split; [apply dict_get_set_eq |].
    split; [rewrite !dict_get_set_ne by discriminate; apply dict_get_set_eq |].
    split; [rewrite dict_get_set_ne by discriminate; apply dict_get_set_eq |].
    split.
    + intros field H1 H2 H3. rewrite !dict_get_set_ne by assumption. reflexivity.
    + intros k' Hne. apply lookup_insert_ne. congruence.
Qed.

(** X3.  [log_conversation] appends: the entry it builds from an item (the
    item's id, type, role and content, stamped with the instant of the
    call) becomes the last element of the history
    [get_conversation_history] returns for the call, after the entries that
    were there, and the histories of other calls are untouched. *)
Theorem conversation_history_appends (sid : json) (item : list (string * json))
    (k : key) (s : state) :
  hash_key sid = Ok k ->
  exists entry s1,
    log_conversation sid (JObj item) s = (Ok entry, s1) /\
    entry = conversation_entry sid item (now s) /\
    (forall history,
       get_conversation_history sid s = (Ok (JArr history), s) ->
       get_conversation_history sid s1 = (Ok (JArr (history ++ [entry])), s1)) /\
    (forall sid' k',
       hash_key sid' = Ok k' -> k' <> k ->
       fst (get_conversation_history sid' s1) = fst (get_conversation_history sid' s)).
Proof.
  intros Hk. destruct s as [reg db conns t mc ws lg csid ssid ows clog].
  unfold log_conversation, get_conversation_history, log_and_reraise. run_m.
  rewrite Hk. cbn. eexists. eexists. split; [reflexivity |].
  split; [reflexivity |]. split.
  - intros history [= <-]. cbn. rewrite lookup_insert_eq. reflexivity.
  - intros sid' k' Hk' Hne. rewrite Hk'. cbn.
    rewrite lookup_insert_ne by congruence. reflexivity.
Qed.

(** X4.  A support ticket is stored under the identifier it carries, [SUP-]
    followed by the compact stamp of the instant of creation: [get_ticket]
    on that identifier returns the ticket [create_support_ticket] returned,
    which is open and holds the call identifier, issue type, description
    and priority it was given; tickets under other identifiers are
    untouched. *)
Theorem support_ticket_round_trip (sid issue_type description customer_phone
    priority : json) (s : state) :
  let ticket_id := "SUP-" +:+ strftime_compact (now s) in
  exists ticket s1,
    create_support_ticket sid issue_type description customer_phone priority s
    = (Ok (JObj ticket), s1) /\
    get_ticket (JStr ticket_id) s1 = (Ok (JObj ticket), s1) /\
    dict_get ticket "ticket_id" = Some (JStr ticket_id) /\
    dict_get ticket "status" = Some (JStr "open") /\
    dict_get ticket "call_sid" = Some sid /\
    dict_get ticket "issue_type" = Some issue_type /\
    dict_get ticket "description" = Some description /\
    dict_get ticket "priority" = Some priority /\
    (forall id, id <> ticket_id ->
       tickets_cache (db_service s1) !! id = tickets_cache (db_service s) !! id).
Proof.
  intros ticket_id. destruct s as [reg db conns t mc ws lg csid ssid ows clog].
  unfold create_support_ticket, get_ticket, log_and_reraise. run_m.
  eexists. eexists. split; [reflexivity |]. cbn. unfold ticket_of. cbn.
  rewrite lookup_insert_eq. cbn. repeat split; try reflexivity.
  intros id Hne. apply lookup_insert_ne. subst ticket_id. cbn in Hne. congruence.
Qed.

(** X5.  [update_ticket_status] on a ticket identifier: when no ticket has
    it, the empty dictionary is returned and nothing changes; otherwise the
    ticket gets the new status and the instant of the update, a resolution
    and the instant it was resolved only when the resolution given is
    non-empty (an empty or missing one leaves both as they were), every
    other entry is kept, and [get_ticket] returns the updated ticket. *)
Theorem update_ticket_status_effect (id : string) (status resolution : json)
    (s : state) :
  (tickets_cache (db_service s) !! id = None ->
   update_ticket_status (JStr id) status resolution s = (Ok (JObj []), s))
  /\ (forall ticket,
        tickets_cache (db_service s) !! id = Some ticket ->
        exists ticket' s1,
          update_ticket_status (JStr id) status resolution s = (Ok (JObj ticket'), s1) /\
          get_ticket (JStr id) s1 = (Ok (JObj ticket'), s1) /\
          dict_get ticket' "status" = Some status /\
          dict_get ticket' "updated_at" = Some (JStr (isoformat (now s))) /\
          (truthy resolution = true ->
           dict_get ticket' "resolution" = Some resolution /\
           dict_get ticket' "resolved_at" = Some (JStr (isoformat (now s + 1)))) /\
          (truthy resolution = false ->
           dict_get ticket' "resolution" = dict_get ticket "resolution" /\
           dict_get ticket' "resolved_at" = dict_get ticket "resolved_at") /\
          (forall field,
             field <> "status" -> field <> "updated_at" ->
             field <> "resolution" -> field <> "resolved_at" ->
             dict_get ticket' field = dict_get ticket field)).
Proof.
  destruct s as [reg db conns t mc ws lg csid ssid ows clog]. split.
  - intros Hnone. unfold update_ticket_status, log_and_reraise, ticket_of. run_m.
    cbn in Hnone. rewrite Hnone. reflexivity.
  - intros ticket Hsome.
    unfold update_ticket_status, get_ticket, log_and_reraise, ticket_of. run_m.
    cbn in Hsome. rewrite Hsome. cbn.
    destruct (truthy resolution) eqn:Hres; cbn.
    all: eexists; eexists; (split; [reflexivity |]); cbn.
    all: rewrite lookup_insert_eq; cbn; (split; [reflexivity |]).
    all: repeat split; try discriminate.
    all: try (intros field H1 H2 H3 H4).
    all: rewrite ?dict_get_set_eq; try reflexivity.
    all: rewrite ?dict_get_set_ne by first [assumption | discriminate].
    all: rewrite ?dict_get_set_eq; try reflexivity.
Qed.

(** X6.  Ticket identifiers are as fine as the compact stamp: when the
    stamp of the instant a second support ticket is created equals the
    stamp of the first one, the two tickets carry the same identifier, the
    second is stored over the first, and [get_ticket] on the identifier of
    the first returns the second. *)
Theorem tickets_of_one_second_collide
    (sid1 issue_type1 description1 phone1 priority1 : json)
    (sid2 issue_type2 description2 phone2 priority2 : json) (s : state) :
  strftime_compact (now s + 2) = strftime_compact (now s) ->
  exists first second s1 s2,
    create_support_ticket sid1 issue_type1 description1 phone1 priority1 s
    = (Ok (JObj first), s1) /\
    create_support_ticket sid2 issue_type2 description2 phone2 priority2 s1
    = (Ok (JObj second), s2) /\
    dict_get second "ticket_id" = dict_get first "ticket_id" /\
    dict_get second "description" = Some description2 /\
    (forall ticket_id,
       dict_get first "ticket_id" = Some ticket_id ->
       get_ticket ticket_id s2 = (Ok (JObj second), s2)).
Proof.
  intros Hsame. destruct s as [reg db conns t mc ws lg csid ssid ows clog].
  unfold create_support_ticket, get_ticket, log_and_reraise. run_m.
  cbn in Hsame.
  eexists. eexists. eexists. eexists. split; [reflexivity |]. cbn.
  replace (t + 1 + 1) with (t + 2) by lia. rewrite Hsame.
  split; [reflexivity |]. cbn. split; [reflexivity |]. split; [reflexivity |].
  intros ticket_id [= <-]. cbn. unfold ticket_of. cbn.
  rewrite lookup_insert_eq. reflexivity.
Qed.

(** The count does not depend on the order in which the dictionary yields
    its values. *)
Lemma count_in_progress_permutation calls calls' :
  Permutation calls calls' -> count_in_progress calls' = count_in_progress calls.
Proof.
  induction 1 as [| call l l' _ IH | a b l | l1 l2 l3 _ IH1 _ IH2]; cbn.
  - reflexivity.
  - rewrite IH. reflexivity.
  - unfold dict_item.
    destruct (dict_get a "status") as [sa |], (dict_get b "status") as [sb |];
      try reflexivity;
      destruct (count_in_progress l) as [n | e]; try reflexivity.
    destruct (is_str sa "in-progress"), (is_str sb "in-progress"); f_equal; lia.
  - congruence.
Qed.

Lemma count_in_progress_ok calls :
  Forall (fun record : list (string * json) => is_Some (dict_get record "status"))
         calls ->
  exists n, count_in_progress calls = Ok n.
Proof.
  induction 1 as [| call rest [status Hs] _ [n IH]]; cbn.
  - eexists. reflexivity.
  - unfold dict_item. rewrite Hs, IH. eexists. reflexivity.
Qed.

Lemma count_of_records_ok s :
  every_record_has_status s ->
  exists n,
    count_in_progress (map snd (map_to_list (calls_cache (db_service s)))) = Ok n.
Proof.
  intros Hwf. apply count_in_progress_ok. apply Forall_forall. intros record Hin.
  apply list_elem_of_fmap in Hin as [[k r] [-> Hin]].
  apply elem_of_map_to_list in Hin. eapply Hwf, Hin.
Qed.

(** X7.  While every call record has a status, [get_active_calls_count]
    follows the records: creating the record of a call that had none makes
    the count one more, ending a call whose record is in progress makes it
    one less, and after either every record still has a status. *)
Theorem active_calls_count_tracks_records (sid : json) (k : key) (s : state) (n : Z) :
  hash_key sid = Ok k ->
  every_record_has_status s ->
  fst (get_active_calls_count s) = Ok n ->
  (forall fields,
     calls_cache (db_service s) !! k = None ->
     let s1 := snd (create_call_record sid (JObj fields) s) in
     every_record_has_status s1 /\ fst (get_active_calls_count s1) = Ok (n + 1))
  /\ (forall record started,
        calls_cache (db_service s) !! k = Some record ->
        dict_get record "status" = Some (JStr "in-progress") ->
        dict_get record "start_time" = Some (JStr (isoformat started)) ->
        fromisoformat (isoformat started) = Some started ->
        let s1 := snd (end_call_record sid s) in
        every_record_has_status s1 /\ fst (get_active_calls_count s1) = Ok (n - 1)).
Proof.
  intros Hk Hwf Hn. destruct (count_of_records_ok s Hwf) as [n0 Hcount].
  destruct s as [reg db conns t mc ws lg csid ssid ows clog].
  unfold get_active_calls_count in Hn. revert Hn. run_m. cbn in Hcount.
  rewrite Hcount. cbn. intros [= ->]. split.
  - intros fields Hnone.
    unfold create_call_record, log_and_reraise, get_active_calls_count. run_m.
    rewrite Hk. cbn. split.
    + unfold every_record_has_status. intros k' record. cbn. intros Hl.
      destruct (decide (k' = k)) as [-> | Hne].
      * rewrite lookup_insert_eq in Hl. injection Hl as <-. eexists. reflexivity.
      * rewrite lookup_insert_ne in Hl by congruence. eapply (Hwf k'), Hl.
    + cbn in Hnone.
      rewrite <- (count_in_progress_permutation _ _
                    (Permutation_map snd (map_to_list_insert _ _ _ Hnone))).
      cbn. rewrite Hcount. cbn. f_equal. lia.
  - intros record started Hrec Hstatus Hstart Hiso.
    unfold end_call_record, log_and_reraise, get_active_calls_count. run_m.
    rewrite Hk. cbn in *. rewrite Hrec. cbn. unfold dict_item. rewrite Hstart. cbn.
    rewrite Hiso. cbn. split.
    + unfold every_record_has_status. intros k' record'. cbn. intros Hl.
      destruct (decide (k' = k)) as [-> | Hne].
      * rewrite lookup_insert_eq in Hl. injection Hl as <-.
        rewrite dict_get_set_eq. eexists. reflexivity.
      * rewrite lookup_insert_ne in Hl by congruence. eapply (Hwf k'), Hl.
    + pose proof (map_to_list_delete _ _ _ Hrec) as Hperm.
      rewrite (count_in_progress_permutation _ _ (Permutation_map snd Hperm))
        in Hcount.
      cbn in Hcount. unfold dict_item in Hcount. rewrite Hstatus in Hcount.
      cbn in Hcount.
      rewrite <- insert_delete_eq.
      rewrite <- (count_in_progress_permutation _ _
                    (Permutation_map snd
                       (map_to_list_insert _ _ _ (lookup_delete_eq _ _)))).
      cbn. unfold dict_item. rewrite dict_get_set_eq. cbn.
      destruct (count_in_progress (map snd (map_to_list (delete k (calls_cache db)))))
        as [m | e]; [| discriminate Hcount].
      cbn in *. injection Hcount as <-. f_equal. lia.
Qed.

(** ** The model service *)

(** X8.  [close_session] never lets an ordinary exception out: it returns
    normally, and does nothing at all for a session identifier that is not
    registered; when closing the connection raises nothing, the identifier
    is no longer registered afterwards (and no other identifier is
    affected); when closing raises, the identifier stays registered. *)
Theorem close_session_releases (close_fault : option exn) (session_id : string)
    (s : state) :
  ordinary close_fault ->
  exists s',
    close_session close_fault session_id s = (Ok tt, s') /\
    (session_id ∉ active_connections s -> s' = s) /\
    (close_fault = None ->
     active_connections s' = active_connections s ∖ {[session_id]}) /\
    (is_Some close_fault -> active_connections s' = active_connections s).
Proof.
  intros Hfault. destruct s as [reg db conns t mc ws lg csid ssid ows clog].
  unfold close_session. run_m.
  destruct (decide (session_id ∈ conns)) as [Hin | Hout]; cbn.
  - destruct close_fault as [e |]; cbn.
    + rewrite (Hfault e eq_refl). cbn. eexists. split; [reflexivity |].
      split; [intros Hout; destruct (Hout Hin) |].
      split; [intros Hnone; discriminate Hnone | reflexivity].
    + eexists. split; [reflexivity |].
      split; [intros Hout; destruct (Hout Hin) |]. split; [reflexivity |].
      intros [e He]. discriminate He.
  - eexists. split; [reflexivity |]. split; [reflexivity |].
    split; [| reflexivity]. intros _. cbn. apply set_eq. intros x.
    rewrite elem_of_difference, elem_of_singleton. split.
    + intros Hx. split; [exact Hx | intros ->; contradiction].
    + intros [Hx _]. exact Hx.
Qed.

(** X9.  When the event handler raises nothing but ordinary exceptions and
    the stream ends normally, [handle_event_stream] returns normally after
    the last event, having run the handler on every event in order: a
    handler that raises costs one error line, and the events after it are
    handled all the same. *)
Theorem handle_event_stream_survives_handler_errors (events : list json)
    (event_handler : json -> M unit) (s : state) :
  (forall event s0 e,
     fst (event_handler event s0) = Raise e -> is_Exception e = true) ->
  handle_event_stream events None event_handler s
  = (Ok tt,
     fold_left (fun s0 event => snd (handle_event event_handler event s0)) events s)
  /\ forall event s0,
       handle_event event_handler event s0
       = match event_handler event s0 with
         | (Ok _, s1) => (Ok tt, s1)
         | (Raise e, s1) =>
             (Ok tt,
              set_logged
                (logged s1
                   ++ [Log openai_logger ERROR "Error in event handler: {}"
                         [JStr (exn_msg e)]])
                s1)
         end.
Proof.
  intros Hh.
  assert (Hone : forall event s0,
             handle_event event_handler event s0
             = match event_handler event s0 with
               | (Ok _, s1) => (Ok tt, s1)
               | (Raise e, s1) =>
                   (Ok tt,
                    set_logged
                      (logged s1
                         ++ [Log openai_logger ERROR "Error in event handler: {}"
                               [JStr (exn_msg e)]])
                      s1)
               end).
  { intros event s0. unfold handle_event, try_except. specialize (Hh event s0).
    destruct (event_handler event s0) as [[[] | e] s1]; cbn in *; [reflexivity |].
    rewrite (Hh e eq_refl). reflexivity. }
  split; [| exact Hone].
  unfold handle_event_stream, try_except.
  assert (H : event_stream_loop events None event_handler s
              = (Ok tt, fold_left (fun s0 event =>
                                     snd (handle_event event_handler event s0))
                          events s)).
  { revert s. induction events as [| event rest IH]; intros s; cbn.
    - reflexivity.
    - unfold bind. rewrite Hone.
      destruct (event_handler event s) as [[[] | e] s1]; cbn; apply IH. }
  rewrite H. reflexivity.
Qed.

(** ** The tools *)

(** [execute_tool] answers with a dictionary, whatever it is asked. *)
Lemma execute_tool_answers function_name arguments sid s :
  (forall order_id e, order_query order_id = Raise e -> is_Exception e = true) ->
  exists payload,
    fst (execute_tool order_query function_name arguments sid s) = Ok (JObj payload).
Proof.
  intros Hq.
  unfold execute_tool, get_order_details, check_inventory,
    create_transfer_request, create_support_ticket, log_and_reraise.
  run_m.
  destruct (is_str function_name "lookup_order").
  { destruct arguments as [| b | n | str | items | fields]; cbn;
      try (eexists; reflexivity).
    destruct (order_query (default JNull (dict_get fields "order_id")))
      as [result | e] eqn:Hr; cbn.
    - destruct result; cbn; eexists; reflexivity.
    - rewrite (Hq _ _ Hr). cbn. eexists. reflexivity. }
  destruct (is_str function_name "transfer_to_human").
  { destruct arguments; cbn; eexists; reflexivity. }
  destruct (is_str function_name "check_product_availability").
  { destruct arguments; cbn; eexists; reflexivity. }
  destruct (is_str function_name "create_ticket").
  { destruct arguments; cbn; eexists; reflexivity. }
  cbn. eexists. reflexivity.
Qed.

(** X10.  [execute_tool] always answers: whatever the function name, the
    arguments, the call identifier and the state, and as long as the order
    system raises nothing but ordinary exceptions, it returns a dictionary
    and raises nothing.  For a declared tool whose arguments are not a
    dictionary (a JSON list, string, number or null), the answer is the
    error payload that carries the message of the [AttributeError]. *)
Theorem execute_tool_always_answers (function_name arguments sid : json) (s : state) :
  (forall order_id e, order_query order_id = Raise e -> is_Exception e = true) ->
  (exists payload,
     fst (execute_tool order_query function_name arguments sid s) = Ok (JObj payload))
  /\ (forall name,
        function_name = JStr name -> is_declared name = true ->
        (forall fields, arguments <> JObj fields) ->
        fst (execute_tool order_query function_name arguments sid s)
        = Ok (JObj [("error", JStr (exn_msg (attribute_error arguments "get")));
                    ("message",
                     JStr "I encountered an error while processing your request. Let me try another way to help you.")])).
Proof.
  intros Hq. split; [apply execute_tool_answers, Hq |].
  intros name -> Hdecl Hargs.
  unfold execute_tool, get_order_details, check_inventory,
    create_transfer_request, create_support_ticket, log_and_reraise.
  run_m.
  assert (Hnot : match arguments with JObj _ => False | _ => True end).
  { destruct arguments; try exact I. eapply Hargs. reflexivity. }
  unfold is_declared, declared_tools in Hdecl. cbn in Hdecl.
  destruct (String.eqb name "lookup_order");
    [destruct arguments; try contradiction; reflexivity |].
  destruct (String.eqb name "transfer_to_human");
    [destruct arguments; try contradiction; reflexivity |].
  destruct (String.eqb name "check_product_availability");
    [destruct arguments; try contradiction; reflexivity |].
  destruct (String.eqb name "create_ticket");
    [destruct arguments; try contradiction; reflexivity |].
  discriminate Hdecl.
Qed.

(** X11.  The tool [transfer_to_human] answers [transfer_initiated] with
    the identifier of a transfer request, [TXF-] followed by the compact
    stamp of the instant, and that request is stored: [get_ticket] on the
    identifier returns it, queued, with the call identifier, the reason and
    the customer context of the arguments (null when an argument is
    missing) and their priority, [medium] when they give none. *)
Theorem transfer_to_human_queues_a_request (fields : list (string * json))
    (sid : json) (s : state) :
  let ticket_id := "TXF-" +:+ strftime_compact (now s) in
  exists s1 request,
    execute_tool order_query (JStr "transfer_to_human") (JObj fields) sid s
    = (Ok (JObj [("status", JStr "transfer_initiated");
                 ("message",
                  JStr "Bilkul, main aapko ek moment mein humare team member se connect kar deta hoon.");
                 ("ticket_id", JStr ticket_id);
                 ("estimated_wait_time", JStr "2-3 minutes")]), s1) /\
    get_ticket (JStr ticket_id) s1 = (Ok (JObj request), s1) /\
    dict_get request "status" = Some (JStr "queued") /\
    dict_get request "call_sid" = Some sid /\
    dict_get request "reason" = Some (default JNull (dict_get fields "reason")) /\
    dict_get request "context"
    = Some (default JNull (dict_get fields "customer_context")) /\
    dict_get request "priority"
    = Some (default (JStr "medium") (dict_get fields "priority")).
Proof.
  intros ticket_id. destruct s as [reg db conns t mc ws lg csid ssid ows clog].
  unfold execute_tool, create_transfer_request, get_ticket, log_and_reraise. run_m.
  eexists. eexists. split; [reflexivity |]. cbn. unfold ticket_of. cbn.
  rewrite lookup_insert_eq. cbn. repeat split; reflexivity.
Qed.

(** X12.  The tool [create_ticket] answers [ticket_created] with the
    identifier of a support ticket, [SUP-] followed by the compact stamp of
    the instant, and a message that quotes it; the ticket is stored:
    [get_ticket] on the identifier returns it, open, with the call
    identifier and the issue type, description and customer phone of the
    arguments (null when an argument is missing) and their priority,
    [medium] when they give none. *)
Theorem create_ticket_opens_a_ticket (fields : list (string * json))
    (sid : json) (s : state) :
  let ticket_id := "SUP-" +:+ strftime_compact (now s) in
  exists s1 ticket,
    execute_tool order_query (JStr "create_ticket") (JObj fields) sid s
    = (Ok (JObj [("status", JStr "ticket_created");
                 ("ticket_id", JStr ticket_id);
                 ("message",
                  JStr ("Maine aapke liye ticket create kar diya hai. Aapka ticket number hai "
                          +:+ ticket_id
                          +:+ ". Humari team 24 hours mein aapse contact karegi."))]),
       s1) /\
    get_ticket (JStr ticket_id) s1 = (Ok (JObj ticket), s1) /\
    dict_get ticket "status" = Some (JStr "open") /\
    dict_get ticket "call_sid" = Some sid /\
    dict_get ticket "issue_type" = Some (default JNull (dict_get fields "issue_type")) /\
    dict_get ticket "description"
    = Some (default JNull (dict_get fields "description")) /\
    dict_get ticket "customer_phone"
    = Some (default JNull (dict_get fields "customer_phone")) /\
    dict_get ticket "priority"
    = Some (default (JStr "medium") (dict_get fields "priority")).
Proof.
  intros ticket_id. destruct s as [reg db conns t mc ws lg csid ssid ows clog].
  unfold execute_tool, create_support_ticket, get_ticket, log_and_reraise. run_m.
  eexists. eexists. split; [reflexivity |]. cbn. unfold ticket_of. cbn.
  rewrite lookup_insert_eq. cbn. repeat split; reflexivity.
Qed.

(** ** Sessions: cleanup, shutdown, metrics *)

(** X13.  [cleanup_session] raises nothing, whatever it is given, and
    leaves the database and the model connections alone.  For a hashable
    call identifier it removes the session of that identifier from the
    registry and no other, and doing it again changes nothing and logs
    nothing: removal is idempotent. *)
Theorem cleanup_session_removes_once (sid : json) (s : state) :
  exists s1,
    cleanup_session sid s = (Ok tt, s1) /\
    db_service s1 = db_service s /\
    active_connections s1 = active_connections s /\
    (forall k,
       hash_key sid = Ok k ->
       active_sessions s1 = delete k (active_sessions s) /\
       cleanup_session sid s1 = (Ok tt, s1)).
Proof.
  destruct s as [reg db conns t mc ws lg csid ssid ows clog].
  unfold cleanup_session. run_m.
  destruct (hash_key sid) as [k | e] eqn:Hk; cbn.
  - destruct (reg !! k) as [session |] eqn:Hreg; cbn.
    + eexists. split; [reflexivity |]. split; [reflexivity |].
      split; [reflexivity |]. intros k' [= <-]. cbn. split; [reflexivity |].
      rewrite lookup_delete_eq. reflexivity.
    + eexists. split; [reflexivity |]. split; [reflexivity |].
      split; [reflexivity |]. intros k' [= <-]. cbn. split.
      * symmetry. apply delete_id. exact Hreg.
      * rewrite Hreg. reflexivity.
  - destruct sid; try discriminate Hk; injection Hk as <-; cbn.
    all: eexists; (split; [reflexivity |]); repeat split; discriminate.
Qed.

(** What [cleanup_session] does to the registry. *)
Lemma cleanup_session_registry sid s :
  exists s1,
    cleanup_session sid s = (Ok tt, s1) /\
    db_service s1 = db_service s /\
    forall k,
      (hash_key sid = Ok k -> active_sessions s1 !! k = None) /\
      (hash_key sid <> Ok k -> active_sessions s1 !! k = active_sessions s !! k).
Proof.
  destruct s as [reg db conns t mc ws lg csid ssid ows clog].
  unfold cleanup_session. run_m.
  destruct (hash_key sid) as [k | e] eqn:Hk; cbn.
  - destruct (reg !! k) as [session |] eqn:Hreg; cbn.
    all: eexists; (split; [reflexivity |]); (split; [reflexivity |]).
    all: intros k'; split; [intros [= <-] | intros Hne]; cbn.
    + apply lookup_delete_eq.
    + apply lookup_delete_ne. congruence.
    + exact Hreg.
    + reflexivity.
  - destruct sid; try discriminate Hk; injection Hk as <-; cbn.
    all: eexists; (split; [reflexivity |]); (split; [reflexivity |]).
    all: intros k'; split; [discriminate | reflexivity].
Qed.

(** The sessions of [keys] are removed, the others are kept. *)
Lemma cleanup_sessions_effect keys s :
  exists s',
    cleanup_sessions keys s = (Ok tt, s') /\
    db_service s' = db_service s /\
    forall k,
      (Exists (fun sid => hash_key sid = Ok k) keys ->
       active_sessions s' !! k = None) /\
      (~ Exists (fun sid => hash_key sid = Ok k) keys ->
       active_sessions s' !! k = active_sessions s !! k).
Proof.
  revert s. induction keys as [| sid rest IH]; intros s; cbn.
  - eexists. split; [reflexivity |]. split; [reflexivity |]. intros k. split.
    + intros H. inversion H.
    + reflexivity.
  - destruct (cleanup_session_registry sid s) as (s1 & Hc & Hdb1 & Hreg).
    unfold bind, try_except. rewrite Hc. cbn.
    destruct (IH s1) as (s' & Hrest & Hdb & Hlook). rewrite Hrest.
    eexists. split; [reflexivity |]. split; [congruence |]. intros k.
    destruct (Hlook k) as [Hin Hout]. destruct (Hreg k) as [Hsid Hnot]. split.
    + intros Hex.
      destruct (active_sessions s' !! k) as [session |] eqn:Hs; [| reflexivity].
      exfalso.
      assert (Hrest' : ~ Exists (fun sid0 => hash_key sid0 = Ok k) rest).
      { intros Hr. pose proof (Hin Hr). congruence. }
      pose proof (Hout Hrest') as Hkeep.
      inversion Hex as [x l Hx | x l Hr]; subst; [| contradiction].
      pose proof (Hsid Hx). congruence.
    + intros Hex. rewrite Hout by (intros Hr; apply Hex; right; exact Hr).
      apply Hnot. intros Hk. apply Hex. left. exact Hk.
Qed.

(** X14.  The shutdown of the application empties the session registry:
    run on the keys of the registry, in whatever order the dictionary
    lists them, it returns normally with no session left, and without
    touching the database. *)
Theorem shutdown_empties_the_registry (keys : list json) (s : state) :
  (forall k, is_Some (active_sessions s !! k) ->
             exists sid, sid ∈ keys /\ hash_key sid = Ok k) ->
  exists s',
    lifespan_shutdown keys s = (Ok tt, s') /\
    active_sessions s' = ∅ /\
    db_service s' = db_service s.
Proof.
  intros Hkeys. unfold lifespan_shutdown.
  unfold bind at 1. unfold log at 1, modify. cbn.
  set (s0 := set_logged _ s).
  destruct (cleanup_sessions_effect keys s0) as (s1 & Hc & Hdb & Hlook).
  unfold bind at 1. rewrite Hc. cbn. unfold close. run_m.
  eexists. split; [reflexivity |]. cbn. split.
  - apply map_eq. intros k. rewrite lookup_empty.
    destruct (Hlook k) as [Hin Hout].
    destruct (active_sessions s !! k) as [session |] eqn:Hs.
    + apply Hin. destruct (Hkeys k) as (sid & Hsid & Hk); [eexists; exact Hs |].
      apply Exists_exists. exists sid. split; [exact Hsid | exact Hk].
    + destruct (active_sessions s1 !! k) as [session |] eqn:Hs1; [| reflexivity].
      exfalso.
      assert (Hex : ~ Exists (fun sid => hash_key sid = Ok k) keys).
      { intros Hex. pose proof (Hin Hex). congruence. }
      pose proof (Hout Hex) as Hkeep. subst s0. cbn in Hkeep. congruence.
  - rewrite Hdb. reflexivity.
Qed.

Lemma count_in_progress_raises calls e :
  count_in_progress calls = Raise e -> is_Exception e = true.
Proof.
  induction calls as [| call rest IH]; cbn; [discriminate |].
  unfold dict_item. destruct (dict_get call "status") as [status |].
  - destruct (count_in_progress rest) as [n | e']; [discriminate |].
    intros [= <-]. apply IH. reflexivity.
  - intros [= <-]. reflexivity.
Qed.

Section Metrics.

Variable ENVIRONMENT : string.

(** X15.  The metrics endpoints never fail: [get_metrics] never answers
    500 and [health_check] never raises, because [get_active_calls_count]
    keeps its own errors (it then counts 0).  Both report the count of
    that function, the number of sessions in the registry, the number of
    model sessions and the instant of the request. *)
Theorem metrics_never_fail (s : state) :
  exists active_calls s1,
    get_active_calls_count s = (Ok active_calls, s1) /\
    fst (get_metrics s)
    = Ok (Returned
            (JObj [("active_calls", JNum active_calls);
                   ("active_sessions", JNum (Z.of_nat (size (active_sessions s))));
                   ("openai_sessions", JNum (active_session_count s));
                   ("timestamp", JStr (isoformat (now s)))])) /\
    fst (health_check ENVIRONMENT s)
    = Ok (JObj [("status", JStr "healthy");
                ("active_calls", JNum active_calls);
                ("active_sessions", JNum (Z.of_nat (size (active_sessions s))));
                ("openai_sessions", JNum (active_session_count s));
                ("timestamp", JStr (isoformat (now s)));
                ("environment", JStr ENVIRONMENT)]).
Proof.
  destruct s as [reg db conns t mc ws lg csid ssid ows clog].
  unfold get_metrics, health_check, get_active_calls_count. run_m.
  destruct (count_in_progress (map snd (map_to_list (calls_cache db))))
    as [n | e] eqn:Hcount; cbn.
  - eexists. eexists. repeat split.
  - rewrite (count_in_progress_raises _ _ Hcount). cbn.
    eexists. eexists. repeat split.
Qed.

End Metrics.

(** ** The websocket endpoint *)

(** The side condition of a stability lemma, for a relation on fields that
    no send, no log and no clock read writes. *)
Ltac unchanged :=
  solve
    [ intros; intros ?;
      unfold connection_send, websocket_send_json, modify; cbn;
      repeat match goal with
             | |- context [channel_send ?m ?c] => destruct (channel_send m c)
             | H : forall s, exists m, ?f s = _ |- context [?f ?s] =>
                 let x := fresh in destruct (H s) as [x ->]
             end;
      repeat split; reflexivity ].

(** The side conditions of the stability lemmas, for such a relation. *)
Ltac frame_side refl trans :=
  first
    [ exact refl
    | exact trans
    | unchanged
    | intros; apply sends_stable_function_result;
      first [exact refl | exact trans | unchanged]
    | intros; apply sends_stable_forward;
      first [exact refl | exact trans | unchanged]
    | intros; apply sends_stable_audio;
      first [exact refl | exact trans | unchanged] ].

Lemma connections_kept_refl s : connections_kept s s.
Proof. split; reflexivity. Qed.

Lemma connections_kept_trans a b c :
  connections_kept a b -> connections_kept b c -> connections_kept a c.
Proof. intros [? ?] [? ?]. split; congruence. Qed.

Lemma call_identity_kept_refl s : call_identity_kept s s.
Proof. repeat split; reflexivity. Qed.

Lemma call_identity_kept_trans a b c :
  call_identity_kept a b -> call_identity_kept b c -> call_identity_kept a c.
Proof. intros (? & ? & ? & ?) (? & ? & ? & ?). repeat split; congruence. Qed.

Lemma telephony_untouched_refl s : telephony_untouched s s.
Proof. reflexivity. Qed.

Lemma telephony_untouched_trans a b c :
  telephony_untouched a b -> telephony_untouched b c -> telephony_untouched a c.
Proof. unfold telephony_untouched. congruence. Qed.

Lemma media_frames_only_refl s : media_frames_only s s.
Proof. exists []. split; [symmetry; apply app_nil_r | constructor]. Qed.

Lemma media_frames_only_trans a b c :
  media_frames_only a b -> media_frames_only b c -> media_frames_only a c.
Proof.
  intros (n1 & H1 & P1) (n2 & H2 & P2). exists (n1 ++ n2). split.
  - rewrite H2, H1, app_assoc. reflexivity.
  - apply Forall_app. split; assumption.
Qed.

Lemma media_frames_only_same (s s' : state) :
  websocket s' = websocket s -> media_frames_only s s'.
Proof.
  intros H. exists []. rewrite H, app_nil_r. split; [reflexivity | constructor].
Qed.

Lemma media_frames_only_forward audio_delta :
  stable media_frames_only
    (do s <- get_state;
     when (truthy (stream_sid s) && truthy audio_delta)
       (websocket_send_json (media_frame (stream_sid s) audio_delta))).
Proof.
  intros s. run_m.
  destruct (truthy (stream_sid s)) eqn:Hs, (truthy audio_delta) eqn:Hd; cbn;
    try apply media_frames_only_refl.
  unfold websocket_send_json, channel_send.
  destruct (ch_faults (websocket s)) as [| [e |] faults]; cbn.
  all: eexists; split; [reflexivity |]; repeat constructor.
  all: exists (stream_sid s), audio_delta; repeat split; assumption.
Qed.

(** The side conditions of the stability lemmas, for [media_frames_only]. *)
Ltac media_side :=
  first
    [ exact media_frames_only_refl
    | exact media_frames_only_trans
    | exact media_frames_only_forward
    | intros; intros ?; apply media_frames_only_same;
      unfold connection_send, modify; cbn;
      repeat match goal with
             | |- context [channel_send ?m ?c] => destruct (channel_send m c)
             | H : forall s, exists m, ?f s = _ |- context [?f ?s] =>
                 let x := fresh in destruct (H s) as [x ->]
             end;
      reflexivity ].

Lemma model_out_grows_refl s : model_out_grows s s.
Proof. exists []. symmetry. apply app_nil_r. Qed.

Lemma model_out_grows_trans a b c :
  model_out_grows a b -> model_out_grows b c -> model_out_grows a c.
Proof.
  intros (n1 & H1) (n2 & H2). exists (n1 ++ n2).
  rewrite H2, H1, app_assoc. reflexivity.
Qed.

Lemma model_out_grows_same (s s' : state) :
  model_conn s' = model_conn s -> model_out_grows s s'.
Proof. intros H. exists []. rewrite H, app_nil_r. reflexivity. Qed.

Lemma model_out_grows_send msg : stable model_out_grows (connection_send msg).
Proof.
  intros s. unfold connection_send, channel_send.
  destruct (ch_faults (model_conn s)) as [| [e |] faults]; cbn;
    eexists; reflexivity.
Qed.

(** The side conditions of the stability lemmas, for [model_out_grows]. *)
Ltac grows_side :=
  first
    [ exact model_out_grows_refl
    | exact model_out_grows_trans
    | exact model_out_grows_send
    | intros; apply sends_stable_function_result; grows_side
    | intros; apply sends_stable_forward; grows_side
    | intros; apply sends_stable_audio; grows_side
    | intros; intros ?; apply model_out_grows_same;
      unfold websocket_send_json, modify; cbn;
      repeat match goal with
             | |- context [channel_send ?m ?c] => destruct (channel_send m c)
             | H : forall s, exists m, ?f s = _ |- context [?f ?s] =>
                 let x := fresh in destruct (H s) as [x ->]
             end;
      reflexivity ].

(** *** What [gather] does and does not do *)

Lemma gather_returns session_id frames frames_end events events_end schedule s :
  exists r, fst (gather order_query session_id frames frames_end events events_end
                   schedule s) = Ok r.
Proof.
  unfold gather.
  destruct (gather_steps _ _ _ _ _ _ _ _) as [[tel mdl] s1].
  destruct (twilio_finish _ _ _ _) as [r1 s2].
  destruct (openai_finish _ _ _ _) as [r2 s3]. eexists. reflexivity.
Qed.

Lemma gather_keeps_connections session_id frames frames_end events events_end schedule :
  stable connections_kept
    (gather order_query session_id frames frames_end events events_end schedule).
Proof.
  apply stable_gather; frame_side connections_kept_refl connections_kept_trans.
Qed.

Lemma gather_model_out_grows session_id frames frames_end events events_end schedule :
  stable model_out_grows
    (gather order_query session_id frames frames_end events events_end schedule).
Proof. apply stable_gather; grows_side. Qed.

(** Opens the [try] block of the endpoint, up to [gather]. *)
Ltac open_handler_try :=
  unfold handler_try, create_session, configure_session, send_initial_greeting,
    log_and_reraise, connection_send, channel_send;
  run_m.

(** Brings in what [H] says of the run of [gather] at hand, and looks at
    how that run ends. *)
Ltac with_gather H :=
  match goal with
  | |- context [gather ?q ?i ?f ?fe ?ev ?ee ?sch ?s0] =>
      let Hg := fresh "Hg" in
      pose proof (H i f fe ev ee sch s0) as Hg;
      destruct (gather q i f fe ev ee sch s0) as [[? | ?e0] ?s1];
      cbn in Hg |- *
  end.

Local Opaque gather.

(** The [try] block of the endpoint lets no ordinary exception out. *)
Lemma handler_try_returns inp s :
  ordinary (in_connect_fault inp) ->
  Forall ordinary (firstn 2 (ch_faults (model_conn s))) ->
  fst (handler_try AGENT_CONFIG AUDIO_CONFIG order_query inp s) = Ok tt.
Proof.
  intros Hconnect Hfaults.
  destruct s as [reg db conns t [faults out] ws lg csid ssid ows clog].
  cbn in Hfaults. open_handler_try.
  destruct (in_connect_fault inp) as [e |]; cbn.
  { rewrite (Hconnect e eq_refl). cbn. rewrite (Hconnect e eq_refl). reflexivity. }
  destruct faults as [| [e1 |] faults]; cbn.
  - with_gather gather_returns; [reflexivity | destruct Hg; discriminate].
  - apply Forall_cons in Hfaults as [H1 _]. rewrite (H1 e1 eq_refl). cbn.
    rewrite (H1 e1 eq_refl). cbn. rewrite (H1 e1 eq_refl). reflexivity.
  - apply Forall_cons in Hfaults as [_ Hfaults].
    destruct faults as [| [e2 |] faults]; cbn.
    + with_gather gather_returns; [reflexivity | destruct Hg; discriminate].
    + apply Forall_cons in Hfaults as [H2 _]. rewrite (H2 e2 eq_refl). cbn.
      rewrite (H2 e2 eq_refl). reflexivity.
    + with_gather gather_returns; [reflexivity | destruct Hg; discriminate].
Qed.

(** Whether the model connection is bound and registered when the [try]
    block is left. *)
Lemma handler_try_connections inp s :
  let s1 := snd (handler_try AGENT_CONFIG AUDIO_CONFIG order_query inp s) in
  match in_connect_fault inp with
  | Some _ => connections_kept s s1
  | None =>
      active_connections s1 = {[in_session_id inp]} ∪ active_connections s /\
      openai_ws s1 = if accepts 1 (ch_faults (model_conn s)) then true else openai_ws s
  end.
Proof.
  destruct s as [reg db conns t [faults out] ws lg csid ssid ows clog].
  open_handler_try.
  destruct (in_connect_fault inp) as [e |]; cbn.
  { destruct (is_Exception e) eqn:He; cbn; rewrite ?He; cbn; split; reflexivity. }
  destruct faults as [| [e1 |] faults]; cbn.
  - with_gather gather_keeps_connections; try destruct (is_Exception e0);
      destruct Hg as [H1 H2]; split; assumption.
  - destruct (is_Exception e1) eqn:He; cbn; rewrite ?He; cbn; rewrite ?He; cbn;
      split; reflexivity.
  - destruct faults as [| [e2 |] faults]; cbn.
    + with_gather gather_keeps_connections; try destruct (is_Exception e0);
        destruct Hg as [H1 H2]; split; assumption.
    + destruct (is_Exception e2) eqn:He; cbn; rewrite ?He; cbn; split; reflexivity.
    + with_gather gather_keeps_connections; try destruct (is_Exception e0);
        destruct Hg as [H1 H2]; split; assumption.
Qed.

Local Transparent gather.

(** Looks at every way through the [finally] block of the endpoint. *)
Ltac open_handler_cleanup inp conns reg csid ows :=
  unfold handler_cleanup, cleanup_session, close_session; run_m;
  destruct (truthy csid); cbn;
  [ destruct (hash_key csid) as [? | ?] eqn:?Hk;
    [ cbn; destruct (reg !! _) as [? |]; cbn
    | destruct csid; try discriminate Hk; injection Hk as <-; cbn ]
  | ];
  destruct ows; cbn;
  try (destruct (decide (in_session_id inp ∈ conns)) as [?Hin | ?Hout]; cbn;
       destruct (in_close_fault inp) as [?ce |] eqn:?Hclose; cbn;
       try destruct (is_Exception ce) eqn:?Hce; cbn).

(** The [finally] block lets no ordinary exception out. *)
Lemma handler_cleanup_returns inp s :
  ordinary (in_close_fault inp) -> fst (handler_cleanup inp s) = Ok tt.
Proof.
  intros Hclose. destruct s as [reg db conns t mc ws lg csid ssid ows clog].
  open_handler_cleanup inp conns reg csid ows; try reflexivity.
  all: specialize (Hclose _ eq_refl); congruence.
Qed.

(** The [finally] block sends nothing. *)
Lemma handler_cleanup_sends_nothing inp s :
  websocket (snd (handler_cleanup inp s)) = websocket s /\
  model_conn (snd (handler_cleanup inp s)) = model_conn s.
Proof.
  destruct s as [reg db conns t mc ws lg csid ssid ows clog].
  open_handler_cleanup inp conns reg csid ows; split; reflexivity.
Qed.

(** What the [finally] block does to the registered connections. *)
Lemma handler_cleanup_connections inp s :
  active_connections (snd (handler_cleanup inp s))
  = if openai_ws s
    then match in_close_fault inp with
         | None => active_connections s ∖ {[in_session_id inp]}
         | Some _ => active_connections s
         end
    else active_connections s.
Proof.
  destruct s as [reg db conns t mc ws lg csid ssid ows clog].
  open_handler_cleanup inp conns reg csid ows; try reflexivity.
  all: apply set_eq; intros x;
    rewrite elem_of_difference, elem_of_singleton; split;
    [ intros Hx; split; [exact Hx | intros ->; contradiction]
    | intros [Hx _]; exact Hx ].
Qed.

(** X16.  [media_stream_handler] raises nothing.  In a run in which both
    streams end (each after finitely many messages, normally or with an
    exception), whatever the two pumps receive and in whatever order they
    run, the handler returns without an exception, as long as connecting to
    the model, sending it the configuration and the greeting, and closing
    the connection raise nothing but ordinary exceptions: no error of a
    call reaches the caller of the endpoint.  (While a stream stays open
    the handler does not return at all.) *)
Theorem media_stream_handler_raises_nothing (inp : call_input) (s : state) :
  ordinary (in_connect_fault inp) ->
  ordinary (in_close_fault inp) ->
  Forall ordinary (firstn 2 (ch_faults (model_conn s))) ->
  fst (media_stream_handler AGENT_CONFIG AUDIO_CONFIG order_query inp s) = Ok tt.
Proof.
  intros Hconnect Hclose Hfaults. unfold media_stream_handler. run_m.
  set (s0 := set_logged _ _).
  pose proof (handler_try_returns inp s0 Hconnect Hfaults) as Htry.
  unfold try_finally.
  destruct (handler_try AGENT_CONFIG AUDIO_CONFIG order_query inp s0) as [r s1].
  cbn in Htry. subst r.
  pose proof (handler_cleanup_returns inp s1 Hclose) as Hfin.
  destruct (handler_cleanup inp s1) as [[[] | e] s2]; [reflexivity | discriminate Hfin].
Qed.

(** X17.  Whether the model session of a call is released depends on how
    far [create_session] got.  When connecting fails, nothing was
    registered and the registered connections are as before.  When the
    session was connected and its configuration sent, the session
    identifier is no longer registered once the handler has returned
    (closing the connection raising nothing).  When the session was
    connected and sending the configuration failed, the identifier was
    registered and is still registered after the handler: the [finally]
    block closes the session only when [create_session] returned. *)
Theorem model_session_released_only_if_configured (inp : call_input) (s : state) :
  let s' := snd (media_stream_handler AGENT_CONFIG AUDIO_CONFIG order_query inp s) in
  (is_Some (in_connect_fault inp) -> active_connections s' = active_connections s)
  /\ (in_connect_fault inp = None ->
      accepts 1 (ch_faults (model_conn s)) = true ->
      in_close_fault inp = None ->
      active_connections s' = active_connections s ∖ {[in_session_id inp]})
  /\ (in_connect_fault inp = None ->
      accepts 1 (ch_faults (model_conn s)) = false ->
      active_connections s' = {[in_session_id inp]} ∪ active_connections s).
Proof.
  unfold media_stream_handler. run_m. rewrite snd_try_finally.
  set (s0 := set_logged _ _).
  pose proof (handler_try_connections inp s0) as Htry. cbn zeta in Htry.
  rewrite handler_cleanup_connections.
  set (s1 := snd (handler_try AGENT_CONFIG AUDIO_CONFIG order_query inp s0)) in *.
  assert (Hows : openai_ws s0 = false) by reflexivity.
  assert (Hconns : active_connections s0 = active_connections s) by reflexivity.
  assert (Hfaults : ch_faults (model_conn s0) = ch_faults (model_conn s))
    by reflexivity.
  rewrite Hfaults in Htry. clearbody s0 s1. cbn [accepts] in Htry.
  split; [| split].
  - intros [e He]. rewrite He in Htry. destruct Htry as [H1 H2].
    rewrite H1, Hows. congruence.
  - intros Hnone Hacc Hclose. rewrite Hnone, Hacc in Htry.
    destruct Htry as [H1 H2]. rewrite H2, Hclose, H1, Hconns.
    apply set_eq. intros x.
    rewrite !elem_of_difference, elem_of_union, elem_of_singleton. tauto.
  - intros Hnone Hacc. rewrite Hnone, Hacc in Htry.
    destruct Htry as [H1 H2]. rewrite H2, Hows, H1, Hconns. reflexivity.
Qed.

Local Opaque gather.

(** X18.  The model session is configured before anything else is sent to
    it.  When connecting fails the handler sends the model nothing.
    Otherwise the first message of the call on the model connection is the
    [session.update] that carries the configuration; when the transport
    refuses it nothing follows, and when it accepts it the second message
    is the [response.create] of the greeting, after which, if refused,
    nothing follows. *)
Theorem session_is_configured_first (inp : call_input) (s : state) :
  let s' := snd (media_stream_handler AGENT_CONFIG AUDIO_CONFIG order_query inp s) in
  (is_Some (in_connect_fault inp) -> model_conn s' = model_conn s)
  /\ (in_connect_fault inp = None ->
      exists first rest,
        ch_out (model_conn s') = ch_out (model_conn s) ++ first :: rest /\
        has_type (sent_msg first) "session.update" /\
        (is_Some (sent_fault first) -> rest = []) /\
        (sent_fault first = None ->
         exists second rest',
           rest = second :: rest' /\
           has_type (sent_msg second) "response.create" /\
           (is_Some (sent_fault second) -> rest' = []))).
Proof.
  unfold media_stream_handler. run_m. rewrite snd_try_finally.
  set (s0 := set_logged _ _).
  destruct (handler_cleanup_sends_nothing inp
              (snd (handler_try AGENT_CONFIG AUDIO_CONFIG order_query inp s0)))
    as [_ ->].
  assert (Hconn : model_conn s0 = model_conn s) by reflexivity.
  rewrite <- Hconn. clearbody s0. clear Hconn s.
  destruct s0 as [reg db conns t [faults out] ws lg csid ssid ows clog].
  unfold handler_try, create_session, configure_session, send_initial_greeting,
    log_and_reraise, connection_send, channel_send.
  run_m. split.
  - intros [e He]. rewrite He. cbn.
    destruct (is_Exception e) eqn:Hex; cbn; rewrite ?Hex; reflexivity.
  - intros Hnone. rewrite Hnone. cbn.
    assert (Htype1 : forall config,
               has_type (JObj (("type", JStr "session.update") :: config))
                        "session.update").
    { intros config. eexists. split; reflexivity. }
    assert (Htype2 : forall config,
               has_type (JObj (("type", JStr "response.create") :: config))
                        "response.create").
    { intros config. eexists. split; reflexivity. }
    assert (Hgather : forall s0,
               exists new,
                 ch_out (model_conn
                           (snd (gather order_query (in_session_id inp) (in_frames inp)
                                   (in_frames_end inp) (in_events inp)
                                   (in_events_end inp) (in_schedule inp) s0)))
                 = ch_out (model_conn s0) ++ new).
    { intros s0. apply gather_model_out_grows. }
    destruct faults as [| [e1 |] faults]; cbn.
    + match goal with
      | |- context [gather ?q ?i ?f ?fe ?ev ?ee ?sch ?s0] =>
          destruct (Hgather s0) as [new Hnew];
          destruct (gather q i f fe ev ee sch s0) as [[r0 | e0] s1]
      end; cbn in *; try destruct (is_Exception e0); cbn.
      all: rewrite Hnew, <- !app_assoc; cbn.
      all: eexists; eexists; split; [reflexivity |]; split; [apply Htype1 |].
      all: split; [intros [? ?]; discriminate |]; intros _.
      all: eexists; eexists; split; [reflexivity |]; split; [apply Htype2 |].
      all: intros [? ?]; discriminate.
    + destruct (is_Exception e1) eqn:Hex; cbn; rewrite ?Hex; cbn; rewrite ?Hex; cbn.
      all: eexists; eexists; split; [reflexivity |]; split; [apply Htype1 |].
      all: split; [reflexivity | discriminate].
    + destruct faults as [| [e2 |] faults]; cbn.
      * match goal with
        | |- context [gather ?q ?i ?f ?fe ?ev ?ee ?sch ?s0] =>
            destruct (Hgather s0) as [new Hnew];
            destruct (gather q i f fe ev ee sch s0) as [[r0 | e0] s1]
        end; cbn in *; try destruct (is_Exception e0); cbn.
        all: rewrite Hnew, <- !app_assoc; cbn.
        all: eexists; eexists; split; [reflexivity |]; split; [apply Htype1 |].
        all: split; [intros [? ?]; discriminate |]; intros _.
        all: eexists; eexists; split; [reflexivity |]; split; [apply Htype2 |].
        all: intros [? ?]; discriminate.
      * destruct (is_Exception e2) eqn:Hex; cbn; rewrite ?Hex; cbn.
        all: rewrite <- !app_assoc; cbn.
        all: eexists; eexists; split; [reflexivity |]; split; [apply Htype1 |].
        all: split; [intros [? ?]; discriminate |]; intros _.
        all: eexists; eexists; split; [reflexivity |]; split; [apply Htype2 |].
        all: reflexivity.
      * match goal with
        | |- context [gather ?q ?i ?f ?fe ?ev ?ee ?sch ?s0] =>
            destruct (Hgather s0) as [new Hnew];
            destruct (gather q i f fe ev ee sch s0) as [[r0 | e0] s1]
        end; cbn in *; try destruct (is_Exception e0); cbn.
        all: rewrite Hnew, <- !app_assoc; cbn.
        all: eexists; eexists; split; [reflexivity |]; split; [apply Htype1 |].
        all: split; [intros [? ?]; discriminate |]; intros _.
        all: eexists; eexists; split; [reflexivity |]; split; [apply Htype2 |].
        all: intros [? ?]; discriminate.
Qed.

Local Transparent gather.

(** X19.  Telephony is sent media frames and nothing else: everything
    [media_stream_handler] writes to the telephony websocket during a call,
    whatever the pumps receive and in whatever order they run, is a
    [media] frame with a non-empty stream identifier and a non-empty
    payload. *)
Theorem telephony_receives_media_frames_only (inp : call_input) (s : state) :
  media_frames_only s
    (snd (media_stream_handler AGENT_CONFIG AUDIO_CONFIG order_query inp s)).
Proof.
  unfold media_stream_handler. run_m. rewrite snd_try_finally.
  set (s0 := set_logged _ _).
  assert (Htry : stable media_frames_only
                   (handler_try AGENT_CONFIG AUDIO_CONFIG order_query inp)).
  { apply stable_handler_try; try media_side.
    - intros call_id result. apply sends_stable_function_result; media_side.
    - intros payload. apply sends_stable_audio; media_side. }
  specialize (Htry s0).
  destruct (handler_cleanup_sends_nothing inp
              (snd (handler_try AGENT_CONFIG AUDIO_CONFIG order_query inp s0)))
    as [Hws _].
  eapply media_frames_only_trans; [| apply media_frames_only_same, Hws].
  eapply media_frames_only_trans; [| exact Htry].
  apply media_frames_only_same. reflexivity.
Qed.

(** X20.  Each pump keeps to its side.  The model-to-telephony pump never
    changes the session registry, the call identifier, the stream
    identifier or the call logger, nor which model connections are
    registered; the telephony-to-model pump never writes to the telephony
    websocket and never changes which model connections are registered. *)
Theorem pumps_keep_to_their_side (session_id : string) (frames : list string)
    (frames_end : option exn) (events : list json) (events_end : option exn)
    (s : state) :
  let after_model := snd (openai_to_twilio order_query events events_end s) in
  let after_telephony := snd (twilio_to_openai session_id frames frames_end s) in
  call_identity_kept s after_model
  /\ connections_kept s after_model
  /\ telephony_untouched s after_telephony
  /\ connections_kept s after_telephony.
Proof.
  cbn zeta. split; [| split; [| split]].
  - apply (stable_openai_to_twilio order_query call_identity_kept);
      frame_side call_identity_kept_refl call_identity_kept_trans.
  - apply (stable_openai_to_twilio order_query connections_kept);
      frame_side connections_kept_refl connections_kept_trans.
  - apply (stable_twilio_to_openai telephony_untouched);
      frame_side telephony_untouched_refl telephony_untouched_trans.
  - apply (stable_twilio_to_openai connections_kept);
      frame_side connections_kept_refl connections_kept_trans.
Qed.

(** ** A tool result the transport refuses *)

Lemma execute_tool_keeps_model_conn function_name arguments sid :
  stable same_model_conn (execute_tool order_query function_name arguments sid).
Proof.
  apply stable_execute_tool.
  - intros s. reflexivity.
  - intros a b c. unfold same_model_conn. congruence.
  - intros who lvl text args _ s. reflexivity.
  - intros s. reflexivity.
  - intros f s. reflexivity.
Qed.

Local Opaque execute_tool.

(** X21.  When the transport refuses the result of a tool call with an
    ordinary exception, the pump sends a result again for the same
    tool-call identifier, this time the error payload that carries the
    message of the exception, and then [response.create]: the model is
    told of an error although the tool ran, and the event is handled
    without an exception (the transport accepting the two later sends).
    Both results are [conversation.item.create] commands whose [item] is
    the [function_call_output] with the tool-call identifier of the event
    and, as its [output], the payload as [json.dumps] prints it. *)
Theorem refused_tool_result_is_sent_again_as_an_error
    (fields : list (string * json)) (text : string) (arguments : json) (e : exn)
    (faults : list (option exn)) (s : state) :
  dict_get fields "type" = Some (JStr "response.function_call_arguments.done") ->
  default (JStr "{}") (dict_get fields "arguments") = JStr text ->
  json_loads text = inr arguments ->
  (forall order_id e', order_query order_id = Raise e' -> is_Exception e' = true) ->
  ch_faults (model_conn s) = Some e :: faults ->
  is_Exception e = true ->
  is_class JSONDecodeError e = false ->
  accepts 2 faults = true ->
  let function_name := default JNull (dict_get fields "name") in
  let call_id := default JNull (dict_get fields "call_id") in
  let s0 := snd (call_log INFO "Function call: {}" [function_name] s) in
  exists result s1,
    fst (execute_tool order_query function_name arguments (call_sid s) s0) = Ok result /\
    openai_event order_query (JObj fields) s = (Ok tt, s1) /\
    ch_out (model_conn s1)
    = ch_out (model_conn s)
        ++ [Sent (JObj [("type", JStr "conversation.item.create");
                        ("item",
                         JObj [("type", JStr "function_call_output");
                               ("call_id", call_id);
                               ("output", JStr (json_dumps result))])])
                 (Some e);
            Sent (JObj [("type", JStr "conversation.item.create");
                        ("item",
                         JObj [("type", JStr "function_call_output");
                               ("call_id", call_id);
                               ("output",
                                JStr (json_dumps
                                        (JObj [("error", JStr (exn_msg e))])))])])
                 None;
            Sent (JObj [("type", JStr "response.create")]) None].
Proof.
  intros Htype Hargs Hloads Hq Hfaults Hex Hjson Hacc function_name call_id s0.
  subst function_name call_id s0.
  destruct s as [reg db conns t [fl out] ws lg csid ssid ows clog].
  cbn in Hfaults. subst fl.
  unfold openai_event, send_function_result, log_and_reraise, connection_send,
    channel_send.
  run_m. rewrite Htype. cbn. rewrite Hargs. cbn. rewrite Hloads. cbn.
  destruct clog as [logger |]; cbn.
  all: match goal with
       | |- context [execute_tool ?q ?n ?a ?c ?st] =>
           destruct (execute_tool_answers n a c st Hq) as [payload Hres];
           pose proof (execute_tool_keeps_model_conn n a c st) as Hconn;
           destruct (execute_tool q n a c st) as [[result | ex] sx]
       end.
  all: cbn in Hres, Hconn; try discriminate Hres; injection Hres as ->.
  all: unfold same_model_conn in Hconn; cbn in Hconn.
  all: destruct sx as [reg' db' conns' t' mc' ws' lg' csid' ssid' ows' clog'].
  all: cbn in Hconn; subst mc'; destruct clog' as [logger' |]; cbn.
  all: rewrite ?Hex; cbn; rewrite ?Hjson, ?Hex; cbn.
  all: destruct faults as [| [e1 |] [| [e2 |] faults]]; try discriminate Hacc; cbn.
  all: eexists; eexists; split; [reflexivity |]; split; [reflexivity |]; cbn.
  all: rewrite <- !app_assoc; reflexivity.
Qed.

Local Transparent execute_tool.

(** ** The record of a call, from start to stop *)

(** What handling a start frame leaves behind. *)
Lemma start_frame_effect session_id message sid start s :
  start_frame_for message sid start ->
  exists s1 record,
    twilio_frame session_id message s = (Ok Continue, s1) /\
    call_sid s1 = JStr sid /\
    call_logger s1 = Some (JStr sid) /\
    now s1 = now s + 3 /\
    is_Some (active_sessions s1 !! KStr sid) /\
    calls_cache (db_service s1) !! KStr sid = Some record /\
    dict_get record "status" = Some (JStr "in-progress") /\
    dict_get record "call_sid" = Some (JStr sid) /\
    dict_get record "start_time" = Some (JStr (isoformat (now s + 1))) /\
    dict_get record "end_time" = Some JNull /\
    conversations_cache (db_service s1) = conversations_cache (db_service s).
Proof.
  intros (fields & custom & Hloads & Hevent & Hstart & Hsid & Hne & Hcustom).
  destruct s as [reg db conns t mc ws lg csid ssid ows clog].
  unfold twilio_frame, create_call_record, log_and_reraise. run_m.
  rewrite Hloads. cbn. rewrite Hevent. cbn. rewrite Hstart. cbn.
  rewrite Hsid. cbn. rewrite Hcustom. cbn.
  eexists. eexists. split; [reflexivity |]. cbn.
  rewrite !lookup_insert_eq.
  repeat split; try reflexivity; try lia. eexists. reflexivity.
Qed.

Lemma eqb_empty_false sid : sid <> "" -> String.eqb sid "" = false.
Proof.
  intros Hne. destruct (String.eqb sid "") eqn:E; [| reflexivity].
  apply String.eqb_eq in E. contradiction.
Qed.

(** X22.  The record of a call follows the call.  After the telephony pump
    has handled the start frame of a call and then its stop frame, the
    record of the call is completed, with the start and end instants of
    the two frames, and [get_call_details] answers with that record, the
    conversation of the call and [is_active] true; once [cleanup_session]
    has run for the call, it answers the same with [is_active] false. *)
Theorem call_record_follows_the_call (session_id start_msg stop_msg sid : string)
    (start : list (string * json)) (frames_end : option exn) (s : state) :
  start_frame_for start_msg sid start ->
  stop_frame stop_msg ->
  fromisoformat (isoformat (now s + 1)) = Some (now s + 1) ->
  let s1 := snd (twilio_to_openai session_id [start_msg; stop_msg] frames_end s) in
  let s2 := snd (cleanup_session (JStr sid) s1) in
  exists record,
    fst (twilio_to_openai session_id [start_msg; stop_msg] frames_end s) = Ok tt /\
    dict_get record "status" = Some (JStr "completed") /\
    dict_get record "call_sid" = Some (JStr sid) /\
    dict_get record "start_time" = Some (JStr (isoformat (now s + 1))) /\
    dict_get record "end_time" = Some (JStr (isoformat (now s + 3))) /\
    get_call_details sid s1
    = (Ok (Returned
             (JObj [("call", JObj record);
                    ("conversation",
                     JArr (default [] (conversations_cache (db_service s) !! KStr sid)));
                    ("is_active", JBool true)])), s1) /\
    get_call_details sid s2
    = (Ok (Returned
             (JObj [("call", JObj record);
                    ("conversation",
                     JArr (default [] (conversations_cache (db_service s) !! KStr sid)));
                    ("is_active", JBool false)])), s2).
Proof.
  intros Hstart (fields & Hloads & Hevent) Hiso.
  destruct (start_frame_effect session_id start_msg sid start s Hstart)
    as (s0 & record & Hframe & Hsid & Hlogger & Hnow & Hreg & Hrec & Hstatus
        & Hcsid & Hst & _ & Hconv).
  destruct Hstart as (_ & _ & _ & _ & _ & _ & Hne & _).
  cbn zeta.
  rewrite (twilio_to_openai_continue _ _ _ _ _ _ Hframe). clear Hframe.
  destruct s0 as [reg db conns t mc ws lg csid ssid ows clog]. cbn in *.
  subst csid clog t.
  unfold twilio_to_openai, twilio_loop, twilio_frame, end_call_record,
    log_and_reraise, cleanup_session, get_call_details, get_call_record,
    get_conversation_history.
  run_m. rewrite Hloads. cbn. rewrite Hevent. cbn.
  rewrite (eqb_empty_false sid Hne). cbn. rewrite Hrec. cbn.
  unfold dict_item. rewrite Hst. cbn. rewrite Hiso. cbn.
  destruct Hreg as [session Hreg]. rewrite Hreg. cbn.
  rewrite !lookup_insert_eq. cbn.
  exists (dict_set
            (dict_set
               (dict_set record "end_time" (JStr (isoformat (now s + 3))))
               "duration" (JNum (now s + 3 - (now s + 1))))
            "status" (JStr "completed")).
  split; [reflexivity |].
  split; [apply dict_get_set_eq |].
  split; [rewrite !dict_get_set_ne by discriminate; exact Hcsid |].
  split; [rewrite !dict_get_set_ne by discriminate; exact Hst |].
  split; [rewrite !dict_get_set_ne by discriminate; apply dict_get_set_eq |].
  rewrite !dict_set_not_empty. cbn. rewrite Hconv, Hreg, lookup_delete_eq. cbn.
  split; reflexivity.
Qed.

(** X23.  A call that ends without a stop frame is never marked completed.
    When the telephony stream ends or breaks after the start frame (a
    disconnect, or any ordinary exception), the pump returns normally and
    the record of the call stays in progress with no end time; after
    [cleanup_session], [get_call_details] still answers with that record,
    and [is_active] false. *)
Theorem call_without_stop_stays_in_progress (session_id start_msg sid : string)
    (start : list (string * json)) (frames_end : option exn) (s : state) :
  start_frame_for start_msg sid start ->
  ordinary frames_end ->
  let s1 := snd (twilio_to_openai session_id [start_msg] frames_end s) in
  let s2 := snd (cleanup_session (JStr sid) s1) in
  exists record,
    fst (twilio_to_openai session_id [start_msg] frames_end s) = Ok tt /\
    dict_get record "status" = Some (JStr "in-progress") /\
    dict_get record "end_time" = Some JNull /\
    get_call_details sid s2
    = (Ok (Returned
             (JObj [("call", JObj record);
                    ("conversation",
                     JArr (default [] (conversations_cache (db_service s) !! KStr sid)));
                    ("is_active", JBool false)])), s2).
Proof.
  intros Hstart Hend.
  destruct (start_frame_effect session_id start_msg sid start s Hstart)
    as (s0 & record & Hframe & Hsid & Hlogger & Hnow & Hreg & Hrec & Hstatus
        & Hcsid & Hst & Hend_time & Hconv).
  cbn zeta.
  rewrite (twilio_to_openai_continue _ _ _ _ _ _ Hframe). clear Hframe.
  destruct s0 as [reg db conns t mc ws lg csid ssid ows clog]. cbn in *.
  subst csid clog t.
  exists record.
  assert (Hfull : match record with [] => false | _ :: _ => true end = true).
  { destruct record; [discriminate Hstatus | reflexivity]. }
  unfold twilio_to_openai, twilio_loop, stream_end, twilio_except,
    cleanup_session, get_call_details, get_call_record, get_conversation_history.
  destruct Hreg as [session Hreg].
  destruct frames_end as [e |]; run_m.
  - rewrite (Hend e eq_refl).
    destruct (is_class WebSocketDisconnect e); cbn.
    all: rewrite Hreg; cbn; rewrite Hrec; cbn; rewrite Hfull; cbn.
    all: rewrite Hconv, lookup_delete_eq; cbn.
    all: repeat split; assumption.
  - rewrite Hreg; cbn; rewrite Hrec; cbn; rewrite Hfull; cbn.
    rewrite Hconv, lookup_delete_eq; cbn.
    repeat split; assumption.
Qed.

End Coverage.

(** ** utils/helpers.py *)

Section Helpers.

Lemma strip_non_digits_idempotent text :
  strip_non_digits (strip_non_digits text) = strip_non_digits text.
Proof.
  induction text as [| c rest IH]; cbn; [reflexivity |].
  destruct (is_digit c) eqn:Hc; cbn; [rewrite Hc, IH; reflexivity | exact IH].
Qed.

Lemma append_cons c a b : String c a +:+ b = String c (a +:+ b).
Proof. reflexivity. Qed.

Lemma append_nil b : "" +:+ b = b.
Proof. reflexivity. Qed.

Lemma strip_non_digits_app a b :
  strip_non_digits (a +:+ b) = strip_non_digits a +:+ strip_non_digits b.
Proof.
  induction a as [| c rest IH]; [reflexivity |].
  rewrite append_cons. cbn. destruct (is_digit c); rewrite IH; reflexivity.
Qed.

Lemma length_app_string a b :
  String.length (a +:+ b) = (String.length a + String.length b)%nat.
Proof.
  induction a as [| c rest IH]; [reflexivity |].
  rewrite append_cons. cbn. rewrite IH. reflexivity.
Qed.

Lemma strip_plus text : strip_non_digits ("+" +:+ text) = strip_non_digits text.
Proof. rewrite strip_non_digits_app. reflexivity. Qed.

Lemma strip_country_code text :
  strip_non_digits ("91" +:+ text) = "91" +:+ strip_non_digits text.
Proof. rewrite strip_non_digits_app. reflexivity. Qed.

Lemma strip_non_digits_all_digits text : all_digits (strip_non_digits text) = true.
Proof.
  induction text as [| c rest IH]; cbn; [reflexivity |].
  destruct (is_digit c) eqn:Hc; cbn; [rewrite Hc, IH; reflexivity | exact IH].
Qed.

(** X25.  [sanitize_phone_number] is idempotent, and what it returns is
    always a plus sign followed by decimal digits only. *)
Theorem sanitize_phone_number_is_idempotent (phone : string) :
  sanitize_phone_number (sanitize_phone_number phone) = sanitize_phone_number phone
  /\ exists digits,
       sanitize_phone_number phone = "+" +:+ digits /\ all_digits digits = true.
Proof.
  unfold sanitize_phone_number.
  set (d := strip_non_digits phone).
  assert (Hd : strip_non_digits d = d) by apply strip_non_digits_idempotent.
  assert (Hall : all_digits d = true) by apply strip_non_digits_all_digits.
  destruct (negb (String.prefix "91" d) && (String.length d =? 10)%nat) eqn:Hc.
  - split.
    + rewrite strip_plus, strip_country_code, Hd.
      apply andb_true_iff in Hc as [_ Hlen]. apply Nat.eqb_eq in Hlen.
      replace (String.length ("91" +:+ d) =? 10)%nat with false;
        [rewrite andb_false_r; reflexivity |].
      symmetry. apply Nat.eqb_neq. rewrite length_app_string, Hlen. cbn. lia.
    + eexists. split; [reflexivity |]. rewrite !append_cons, append_nil.
      exact Hall.
  - split.
    + rewrite strip_plus, Hd, Hc. reflexivity.
    + eexists. split; [reflexivity | exact Hall].
Qed.

Lemma mobile_lead_digit c : mobile_lead (Some c) = true -> is_digit c = true.
Proof.
  cbn. rewrite !orb_true_iff.
  intros [H | [H | [H | [H | H]]]]; try discriminate H;
    apply Ascii.eqb_eq in H; subst c; reflexivity.
Qed.

(** X26.  A phone number that [validate_indian_phone] accepts is still
    accepted after [sanitize_phone_number]; its ten digits get the country
    code 91 in front when they do not already start with 91, and a number
    whose digits start with 91 only gets the plus sign. *)
Theorem valid_phone_stays_valid_when_sanitized (phone : string) :
  let digits := strip_non_digits phone in
  validate_indian_phone phone = true ->
  validate_indian_phone (sanitize_phone_number phone) = true
  /\ (String.prefix "91" digits = false ->
      String.length digits = 10%nat /\
      sanitize_phone_number phone = "+91" +:+ digits)
  /\ (String.prefix "91" digits = true ->
      sanitize_phone_number phone = "+" +:+ digits).
Proof.
  intros digits. unfold validate_indian_phone, sanitize_phone_number.
  fold digits.
  assert (Hd : strip_non_digits digits = digits) by apply strip_non_digits_idempotent.
  destruct (String.length digits =? 10)%nat eqn:H10.
  - apply Nat.eqb_eq in H10. intros Hlead.
    destruct (String.prefix "91" digits) eqn:Hp; cbn [negb andb].
    + rewrite strip_plus, Hd. rewrite H10. cbn [Nat.eqb].
      split; [exact Hlead |]. split; [discriminate | reflexivity].
    + rewrite strip_plus, strip_country_code, Hd.
      rewrite length_app_string, H10. cbn [String.length Nat.add Nat.eqb].
      split; [| split; [intros _; split; reflexivity | discriminate]].
      destruct digits as [| c rest]; [discriminate H10 |]. exact Hlead.
  - destruct (String.length digits =? 12)%nat eqn:H12; [| discriminate].
    intros Hvalid. apply andb_true_iff in Hvalid as [Hp Hlead].
    rewrite Hp. cbn [negb andb]. rewrite strip_plus, Hd, H10, H12, Hp, Hlead.
    split; [reflexivity |]. split; [discriminate | reflexivity].
Qed.

Lemma length_stars n : String.length (stars n) = n.
Proof. induction n as [| n IH]; cbn; [reflexivity | rewrite IH; reflexivity]. Qed.

Lemma get_stars n i : (i < n)%nat -> String.get i (stars n) = Some "*"%char.
Proof.
  revert i. induction n as [| n IH]; intros i Hi; [lia |].
  destruct i as [| i]; cbn; [reflexivity | apply IH; lia].
Qed.

Lemma length_substring n m text :
  String.length (String.substring n m text) = Nat.min m (String.length text - n).
Proof.
  revert n m. induction text as [| c rest IH]; intros n m.
  - destruct n, m; reflexivity.
  - destruct n as [| n]; cbn.
    + destruct m as [| m]; cbn; [reflexivity |].
      rewrite IH. rewrite Nat.sub_0_r. reflexivity.
    + apply IH.
Qed.

(** X27.  Masking a phone number of more than four characters keeps its
    length, replaces every character but the last four by a star and keeps
    the last four; a phone number of at most four characters is masked to
    four stars. *)
Theorem masked_phone_shows_the_last_four (data : string) :
  ((String.length data <= 4)%nat -> mask_sensitive_data data "phone" = Ok "****")
  /\ ((4 < String.length data)%nat ->
      exists masked,
        mask_sensitive_data data "phone" = Ok masked /\
        String.length masked = String.length data /\
        forall i,
          (i < String.length data)%nat ->
          String.get i masked
          = if (i <? String.length data - 4)%nat then Some "*"%char
            else String.get i data).
Proof.
  unfold mask_sensitive_data. rewrite String.eqb_refl. split.
  - intros Hlen. replace (4 <? String.length data)%nat with false; [reflexivity |].
    symmetry. apply Nat.ltb_ge. exact Hlen.
  - intros Hlen. replace (4 <? String.length data)%nat with true
      by (symmetry; apply Nat.ltb_lt; exact Hlen).
    eexists. split; [reflexivity |]. unfold last_four. split.
    + rewrite length_app_string, length_stars, length_substring. lia.
    + intros i Hi. destruct (i <? String.length data - 4)%nat eqn:Hlt.
      * apply Nat.ltb_lt in Hlt.
        rewrite <- append_correct1 by (rewrite length_stars; exact Hlt).
        apply get_stars. exact Hlt.
      * apply Nat.ltb_ge in Hlt.
        replace i with ((i - (String.length data - 4))
                        + String.length (stars (String.length data - 4)))%nat at 1
          by (rewrite length_stars; lia).
        rewrite <- append_correct2.
        rewrite substring_correct1 by lia. f_equal. lia.
Qed.

Lemma split_once_at sep before after :
  split_once sep before = None ->
  split_once sep (before +:+ String sep after) = Some (before, after).
Proof.
  induction before as [| c rest IH]; intros Hnone.
  - rewrite append_nil. cbn. rewrite Ascii.eqb_refl. reflexivity.
  - rewrite append_cons. cbn in *.
    destruct (Ascii.eqb c sep); [discriminate Hnone |].
    destruct (split_once sep rest) as [[a b] |]; [discriminate Hnone |].
    rewrite IH by reflexivity. reflexivity.
Qed.

(** X28.  Masking an e-mail address keeps the first character of the user
    name and the domain, and replaces the rest of the user name by as many
    stars; an address with no at sign is masked to a fixed text; an address
    that starts with the at sign makes [mask_sensitive_data] raise
    [IndexError]. *)
Theorem masked_email_keeps_first_character_and_domain (domain : string) :
  mask_sensitive_data ("@" +:+ domain) "email"
  = Raise (Exn IndexError "string index out of range")
  /\ (forall first username,
        split_once "@" (String first username) = None ->
        mask_sensitive_data (String first username +:+ "@" +:+ domain) "email"
        = Ok (String first (stars (String.length username)) +:+ "@" +:+ domain))
  /\ (forall data,
        split_once "@" data = None ->
        mask_sensitive_data data "email" = Ok "***@***.com").
Proof.
  unfold mask_sensitive_data.
  change (String.eqb "email" "phone") with false. rewrite String.eqb_refl.
  split; [reflexivity |]. split.
  - intros first username Hnone.
    change ("@" +:+ domain) with (String "@" domain).
    rewrite (split_once_at "@" (String first username) domain Hnone).
    cbn. rewrite Nat.sub_0_r. reflexivity.
  - intros data ->. reflexivity.
Qed.

(** X29.  The result of [truncate_text] is no longer than [max_length]
    exactly when the text or the suffix is no longer than [max_length]: a
    text that fits is returned as it is, a longer text is cut to
    [max_length] characters, suffix included, when the suffix fits, and the
    result is longer than [max_length] when the suffix does not fit. *)
Theorem truncate_text_fits_iff_suffix_fits (text : string) (max_length : Z)
    (suffix : string) :
  let result := truncate_text text max_length suffix in
  let n := Z.of_nat (String.length text) in
  let m := Z.of_nat (String.length suffix) in
  (Z.of_nat (String.length result) <= max_length <-> n <= max_length \/ m <= max_length)
  /\ (n <= max_length -> result = text)
  /\ (m <= max_length < n ->
      result = String.substring 0 (Z.to_nat (max_length - m)) text +:+ suffix /\
      Z.of_nat (String.length result) = max_length).
Proof.
  intros result n m. subst result. unfold truncate_text, py_slice_to. fold n m.
  destruct (n <=? max_length)%Z eqn:Hfit.
  - apply Z.leb_le in Hfit. repeat split; try lia; try reflexivity.
  - apply Z.leb_gt in Hfit.
    rewrite length_app_string, length_substring, Nat.sub_0_r.
    destruct (max_length - m <? 0)%Z eqn:Hneg.
    + apply Z.ltb_lt in Hneg. repeat split; try lia.
    + apply Z.ltb_ge in Hneg. repeat split; try lia; reflexivity.
Qed.

End Helpers.

(** ** The outbound call *)

Section OutboundCalls.

Variable SERVER_URL : string.
Variable TWILIO_PHONE_NUMBER : string.
Variable calls_create : calls_create_args -> outcome (json * json).

Ltac run_m :=
  repeat (progress
            (unfold bind, lift, ret, raise, when, try_except, log, call_log,
               log_traceback, modify, modify_db, get_state, utcnow; cbn)).

Lemma append_assoc_string a b c : (a +:+ b) +:+ c = a +:+ b +:+ c.
Proof.
  induction a as [| x a IH]; [reflexivity |].
  rewrite !append_cons, IH. reflexivity.
Qed.

(** X24.  [initiate_outbound_call] places the call to the sanitized
    number, from the configured number, with the incoming-call webhook and
    its status callback.  When the Twilio client creates the call, the
    endpoint answers with the identifier of the call and the sanitized
    number; when the client raises an ordinary exception, the endpoint
    answers with an HTTP error 500 that carries the message of the
    exception. *)
Theorem outbound_call_is_placed_to_the_sanitized_number
    (to_number : string) (context : json) (s : state) :
  let number := sanitize_phone_number to_number in
  let request :=
    {| cc_to := number;
       cc_from_ := TWILIO_PHONE_NUMBER;
       cc_url := "https://" +:+ SERVER_URL +:+ "/incoming-call";
       cc_status_callback := "https://" +:+ SERVER_URL +:+ "/incoming-call/call-status";
       cc_status_callback_event := ["initiated"; "ringing"; "answered"; "completed"];
       cc_method := "POST" |} in
  let answer :=
    fst (initiate_outbound_call SERVER_URL TWILIO_PHONE_NUMBER calls_create
           to_number context s) in
  (forall sid status,
     calls_create request = Ok (sid, status) ->
     answer = Ok (Returned
                    (JObj [("status", JStr "success");
                           ("call_sid", sid);
                           ("to_number", JStr number);
                           ("message", JStr "Outbound call initiated successfully")])))
  /\ (forall e,
        calls_create request = Raise e -> is_Exception e = true ->
        answer = Ok (HTTPException 500 (exn_msg e))).
Proof.
  intros number request answer. subst answer.
  unfold initiate_outbound_call, TwilioService.initiate_outbound_call,
    log_and_reraise.
  run_m.
  assert (Hurl : ("https://" +:+ SERVER_URL +:+ "/incoming-call") +:+ "/call-status"
                 = "https://" +:+ SERVER_URL +:+ "/incoming-call/call-status").
  { rewrite !append_assoc_string. reflexivity. }
  rewrite Hurl. fold number. fold request. split.
  - intros sid status ->. reflexivity.
  - intros e -> He. cbn. rewrite He. cbn. rewrite He. reflexivity.
Qed.

End OutboundCalls.

(** ** The services, the endpoints and the helpers at concrete inputs *)

Lemma call_record_round_trip_witness :
  hash_key (JStr "CA7") = Ok (KStr "CA7")
  /\ exists record s1,
       create_call_record (lib := Sample.lib) (JStr "CA7")
         (JObj [("from", JStr "+919876543210")]) Sample.started
       = (Ok (JObj record), s1) /\
       get_call_record (JStr "CA7") s1 = (Ok (JObj record), s1) /\
       dict_get record "status" = Some (JStr "in-progress") /\
       dict_get record "from_number" = Some (JStr "+919876543210") /\
       dict_get record "to_number" = Some (JStr "") /\
       calls_cache (db_service s1) !! KStr "CA1"
       = calls_cache (db_service Sample.started) !! KStr "CA1".
Proof.
  split; [reflexivity |].
  destruct (call_record_round_trip (lib := Sample.lib) (JStr "CA7")
              [("from", JStr "+919876543210")] (KStr "CA7") Sample.started eq_refl)
    as (record & s1 & H1 & H2 & _ & H4 & H5 & H6 & _ & _ & H9).
  exists record, s1. repeat split; try assumption.
  apply H9. discriminate.
Defined.

Lemma end_call_record_completes_witness :
  calls_cache (db_service Inputs.later) !! KStr "CA1" = Some Inputs.started_record
  /\ dict_get Inputs.started_record "start_time" = Some (JStr (Sample.stamp 1))
  /\ Sample.unstamp (Sample.stamp 1) = Some 1
  /\ exists record' s1,
       end_call_record (lib := Sample.lib) (JStr "CA1") Inputs.later
       = (Ok (JObj record'), s1) /\
       get_call_record (JStr "CA1") s1 = (Ok (JObj record'), s1) /\
       dict_get record' "status" = Some (JStr "completed") /\
       dict_get record' "end_time" = Some (JStr (Sample.stamp 20)) /\
       dict_get record' "duration" = Some (JNum 19) /\
       dict_get record' "from_number" = dict_get Inputs.started_record "from_number".
Proof.
  assert (Hrecord : calls_cache (db_service Inputs.later) !! KStr "CA1"
                    = Some Inputs.started_record) by (vm_compute; reflexivity).
  assert (Hstart : dict_get Inputs.started_record "start_time"
                   = Some (JStr (Sample.stamp 1))) by (vm_compute; reflexivity).
  assert (Hiso : Sample.unstamp (Sample.stamp 1) = Some 1) by (vm_compute; reflexivity).
  split; [exact Hrecord |]. split; [exact Hstart |]. split; [exact Hiso |].
  destruct (end_call_record_completes (lib := Sample.lib) (JStr "CA1") (KStr "CA1")
              Inputs.later eq_refl) as [_ H].
  destruct (H Inputs.started_record 1 Hrecord Hstart Hiso)
    as (record' & s1 & H1 & H2 & H3 & H4 & H5 & H6 & _).
  exists record', s1. repeat split; try assumption.
  apply H6; discriminate.
Defined.

Lemma conversation_history_appends_witness :
  hash_key (JStr "CA1") = Ok (KStr "CA1")
  /\ exists entry s1,
       log_conversation (lib := Sample.lib) (JStr "CA1") (JObj Sample.empty_item)
         Sample.started
       = (Ok entry, s1) /\
       get_conversation_history (JStr "CA1") Sample.started
       = (Ok (JArr []), Sample.started) /\
       get_conversation_history (JStr "CA1") s1 = (Ok (JArr [entry]), s1).
Proof.
  split; [reflexivity |].
  destruct (conversation_history_appends (lib := Sample.lib) (JStr "CA1")
              Sample.empty_item (KStr "CA1") Sample.started eq_refl)
    as (entry & s1 & H1 & _ & H3 & _).
  assert (Hbefore : get_conversation_history (JStr "CA1") Sample.started
                    = (Ok (JArr []), Sample.started)) by (vm_compute; reflexivity).
  exists entry, s1. split; [exact H1 |]. split; [exact Hbefore |].
  exact (H3 [] Hbefore).
Defined.

Lemma update_ticket_status_effect_witness :
  exists ticket ticket' s1,
    tickets_cache (db_service Inputs.with_ticket) !! "SUP-T0" = Some ticket /\
    update_ticket_status (lib := Sample.lib) (JStr "SUP-T0") (JStr "resolved")
      (JStr "Refund issued") Inputs.with_ticket
    = (Ok (JObj ticket'), s1) /\
    get_ticket (JStr "SUP-T0") s1 = (Ok (JObj ticket'), s1) /\
    dict_get ticket' "status" = Some (JStr "resolved") /\
    dict_get ticket' "resolution" = Some (JStr "Refund issued") /\
    dict_get ticket' "description" = dict_get ticket "description".
Proof.
  exists (default [] (tickets_cache (db_service Inputs.with_ticket) !! "SUP-T0")).
  destruct (update_ticket_status_effect (lib := Sample.lib) "SUP-T0" (JStr "resolved")
              (JStr "Refund issued") Inputs.with_ticket) as [_ H].
  destruct (H (default [] (tickets_cache (db_service Inputs.with_ticket) !! "SUP-T0")))
    as (ticket' & s1 & H1 & H2 & H3 & _ & H5 & _ & H7);
    [vm_compute; reflexivity |].
  exists ticket', s1. split; [vm_compute; reflexivity |].
  repeat split; try assumption.
  - apply H5. reflexivity.
  - apply H7; discriminate.
Defined.

Lemma tickets_of_one_second_collide_witness :
  strftime_compact (PyLib := Inputs.coarse) (now fresh_state + 2)
  = strftime_compact (PyLib := Inputs.coarse) (now fresh_state)
  /\ exists first second s1 s2,
       create_support_ticket (lib := Inputs.coarse) (JStr "CA1")
         (JStr "delayed_delivery") (JStr "Order not received") JNull (JStr "medium")
         fresh_state
       = (Ok (JObj first), s1) /\
       create_support_ticket (lib := Inputs.coarse) (JStr "CA2")
         (JStr "payment issue") (JStr "Charged twice") JNull (JStr "high") s1
       = (Ok (JObj second), s2) /\
       dict_get second "ticket_id" = dict_get first "ticket_id" /\
       dict_get second "description" = Some (JStr "Charged twice") /\
       (forall ticket_id,
          dict_get first "ticket_id" = Some ticket_id ->
          get_ticket ticket_id s2 = (Ok (JObj second), s2)).
Proof.
  split; [vm_compute; reflexivity |].
  apply (tickets_of_one_second_collide (lib := Inputs.coarse) (JStr "CA1")
           (JStr "delayed_delivery") (JStr "Order not received") JNull (JStr "medium")
           (JStr "CA2") (JStr "payment issue") (JStr "Charged twice") JNull
           (JStr "high") fresh_state).
  vm_compute. reflexivity.
Defined.

Lemma active_calls_count_tracks_records_witness :
  let s1 := snd (create_call_record (lib := Sample.lib) (JStr "CA1") (JObj [])
                   fresh_state) in
  let s2 := snd (end_call_record (lib := Sample.lib) (JStr "CA1") s1) in
  fst (get_active_calls_count fresh_state) = Ok 0
  /\ fst (get_active_calls_count s1) = Ok 1
  /\ fst (get_active_calls_count s2) = Ok 0.
Proof.
  intros s1 s2.
  assert (Hnone : every_record_has_status fresh_state).
  { intros k record H. cbn in H. rewrite lookup_empty in H. discriminate H. }
  assert (Hzero : fst (get_active_calls_count fresh_state) = Ok 0)
    by (vm_compute; reflexivity).
  destruct (active_calls_count_tracks_records (lib := Sample.lib) (JStr "CA1")
              (KStr "CA1") fresh_state 0 eq_refl Hnone Hzero) as [Hcreate _].
  destruct (Hcreate [] eq_refl) as [Hall Hone]. fold s1 in Hall, Hone.
  destruct (active_calls_count_tracks_records (lib := Sample.lib) (JStr "CA1")
              (KStr "CA1") s1 1 eq_refl Hall Hone) as [_ Hend].
  destruct (Hend (default [] (calls_cache (db_service s1) !! KStr "CA1")) 0)
    as [_ Hback]; try (vm_compute; reflexivity).
  repeat split; assumption.
Defined.

Lemma close_session_releases_witness :
  let fault := Some (Exn TransportError "connection reset") in
  ordinary fault
  /\ ordinary None
  /\ (exists s',
        close_session fault "sess_1" Inputs.connected = (Ok tt, s') /\
        active_connections s' = active_connections Inputs.connected)
  /\ (exists s',
        close_session None "sess_1" Inputs.connected = (Ok tt, s') /\
        active_connections s' = active_connections Inputs.connected ∖ {["sess_1"]}).
Proof.
  intros fault.
  assert (Hfault : ordinary fault).
  { intros e [= <-]. reflexivity. }
  assert (Hnone : ordinary None).
  { intros e H. discriminate H. }
  split; [exact Hfault |]. split; [exact Hnone |]. split.
  - destruct (close_session_releases fault "sess_1" Inputs.connected Hfault)
      as (s' & H1 & _ & _ & H4).
    exists s'. split; [exact H1 |]. apply H4. eexists. reflexivity.
  - destruct (close_session_releases None "sess_1" Inputs.connected Hnone)
      as (s' & H1 & _ & H3 & _).
    exists s'. split; [exact H1 |]. apply H3. reflexivity.
Defined.

Lemma handle_event_stream_survives_handler_errors_witness :
  let events := [JObj [("type", JStr "session.created")]; JNum 3; JObj []] in
  (forall event s0 e,
     fst (Inputs.picky_handler event s0) = Raise e -> is_Exception e = true)
  /\ handle_event_stream events None Inputs.picky_handler fresh_state
     = (Ok tt,
        fold_left (fun s0 event => snd (handle_event Inputs.picky_handler event s0))
          events fresh_state)
  /\ length (logged
               (snd (handle_event_stream events None Inputs.picky_handler
                       fresh_state))) = 3%nat.
Proof.
  intros events.
  assert (Hhandler : forall event s0 e,
             fst (Inputs.picky_handler event s0) = Raise e -> is_Exception e = true).
  { intros event s0 e. unfold Inputs.picky_handler, bind, lift, py_getitem, dict_item.
    destruct event as [| b | n | text | items | fields]; cbn;
      try (intros [= <-]; reflexivity).
    destruct (dict_get fields "type"); cbn; [discriminate |].
    intros [= <-]. reflexivity. }
  split; [exact Hhandler |].
  destruct (handle_event_stream_survives_handler_errors events Inputs.picky_handler
              fresh_state Hhandler) as [Hrun _].
  split; [exact Hrun |]. vm_compute. reflexivity.
Defined.

Lemma execute_tool_always_answers_witness :
  (forall order_id e, failing_order_query order_id = Raise e -> is_Exception e = true)
  /\ (exists payload,
        fst (execute_tool (lib := Sample.lib) failing_order_query (JStr "lookup_order")
               (JObj [("order_id", JStr "ORD1")]) (JStr "CA1") Sample.started)
        = Ok (JObj payload))
  /\ fst (execute_tool (lib := Sample.lib) failing_order_query (JStr "lookup_order")
            (JArr []) (JStr "CA1") Sample.started)
     = Ok (JObj [("error", JStr (exn_msg (attribute_error (JArr []) "get")));
                 ("message",
                  JStr "I encountered an error while processing your request. Let me try another way to help you.")]).
Proof.
  assert (Hquery : forall order_id e,
             failing_order_query order_id = Raise e -> is_Exception e = true).
  { intros order_id e [= <-]. reflexivity. }
  split; [exact Hquery |]. split.
  - exact (proj1 (execute_tool_always_answers (lib := Sample.lib) failing_order_query
                    (JStr "lookup_order") (JObj [("order_id", JStr "ORD1")])
                    (JStr "CA1") Sample.started Hquery)).
  - apply (proj2 (execute_tool_always_answers (lib := Sample.lib) failing_order_query
                    (JStr "lookup_order") (JArr []) (JStr "CA1") Sample.started
                    Hquery) "lookup_order"); [reflexivity | reflexivity |].
    intros fields H. discriminate H.
Defined.

Lemma shutdown_empties_the_registry_witness :
  is_Some (active_sessions Sample.started !! KStr "CA1")
  /\ exists s',
       lifespan_shutdown [JStr "CA1"] Sample.started = (Ok tt, s') /\
       active_sessions s' = ∅ /\
       db_service s' = db_service Sample.started.
Proof.
  split; [vm_compute; eexists; reflexivity |].
  apply (shutdown_empties_the_registry [JStr "CA1"] Sample.started).
  intros k Hk. destruct (decide (k = KStr "CA1")) as [-> | Hne].
  - exists (JStr "CA1"). split; [apply list_elem_of_here | reflexivity].
  - exfalso.
    assert (Hreg : active_sessions Sample.started
                   = <[KStr "CA1" := default (SessionData JNull JNull "" 0 JNull)
                                       (active_sessions Sample.started !! KStr "CA1")]> ∅)
      by (vm_compute; reflexivity).
    rewrite Hreg, lookup_insert_ne, lookup_empty in Hk by congruence.
    destruct Hk as [x Hx]. discriminate Hx.
Defined.

Lemma media_stream_handler_raises_nothing_witness :
  let inp :=
    {| in_session_id := "sess_1";
       in_connect_fault := None;
       in_close_fault := Some (Exn TransportError "close failed");
       in_frames := [Sample.first_start];
       in_frames_end := Some (Exn WebSocketDisconnect "1006");
       in_events := [JObj Sample.delta_event];
       in_events_end := Some (Exn TransportError "connection reset");
       in_schedule := [Telephony; Model; Telephony] |} in
  let s :=
    set_model_conn
      (Channel [None; Some (Exn TransportError "connection reset")] []) fresh_state in
  ordinary (in_connect_fault inp)
  /\ ordinary (in_close_fault inp)
  /\ Forall ordinary (firstn 2 (ch_faults (model_conn s)))
  /\ fst (media_stream_handler (lib := Sample.lib) Sample.agent_config
            Sample.audio_config mock_order_query inp s) = Ok tt.
Proof.
  intros inp s.
  assert (Hconnect : ordinary (in_connect_fault inp)).
  { intros e H. discriminate H. }
  assert (Hclose : ordinary (in_close_fault inp)).
  { intros e [= <-]. reflexivity. }
  assert (Hfaults : Forall ordinary (firstn 2 (ch_faults (model_conn s)))).
  { repeat constructor.
    - intros e H. discriminate H.
    - intros e [= <-]. reflexivity. }
  split; [exact Hconnect |]. split; [exact Hclose |]. split; [exact Hfaults |].
  exact (media_stream_handler_raises_nothing (lib := Sample.lib) Sample.agent_config
           Sample.audio_config mock_order_query inp s Hconnect Hclose Hfaults).
Defined.

Lemma model_session_released_only_if_configured_witness :
  let inp := Sample.call [Sample.start_frame "CA1" "MZ1"; Sample.stop] [] in
  let after s :=
    snd (media_stream_handler (lib := Sample.lib) Sample.agent_config
           Sample.audio_config mock_order_query inp s) in
  active_connections (after fresh_state)
  = active_connections fresh_state ∖ {["sess_1"]}
  /\ active_connections (after Inputs.refusing_configuration)
     = {["sess_1"]} ∪ active_connections Inputs.refusing_configuration.
Proof.
  intros inp after. split.
  - destruct (model_session_released_only_if_configured (lib := Sample.lib)
                Sample.agent_config Sample.audio_config mock_order_query inp
                fresh_state) as (_ & H & _).
    apply H; reflexivity.
  - destruct (model_session_released_only_if_configured (lib := Sample.lib)
                Sample.agent_config Sample.audio_config mock_order_query inp
                Inputs.refusing_configuration) as (_ & _ & H).
    apply H; reflexivity.
Defined.

Lemma session_is_configured_first_witness :
  let inp := Sample.call [Sample.start_frame "CA1" "MZ1"; Sample.stop] [] in
  let s' :=
    snd (media_stream_handler (lib := Sample.lib) Sample.agent_config
           Sample.audio_config mock_order_query inp fresh_state) in
  exists first rest,
    ch_out (model_conn s') = first :: rest /\
    has_type (sent_msg first) "session.update".
Proof.
  intros inp s'.
  destruct (session_is_configured_first (lib := Sample.lib) Sample.agent_config
              Sample.audio_config mock_order_query inp fresh_state) as [_ H].
  destruct (H eq_refl) as (first & rest & Hout & Htype & _).
  exists first, rest. split; [exact Hout | exact Htype].
Defined.

Lemma refused_tool_result_is_sent_again_as_an_error_witness :
  let e := Exn TransportError "connection reset" in
  ch_faults (model_conn Inputs.refusing_once) = [Some e]
  /\ exists result s1,
       openai_event (lib := Sample.lib) mock_order_query (JObj Sample.tool_call_event)
         Inputs.refusing_once
       = (Ok tt, s1) /\
       ch_out (model_conn s1)
       = ch_out (model_conn Inputs.refusing_once)
           ++ [Sent (JObj [("type", JStr "conversation.item.create");
                           ("item",
                            JObj [("type", JStr "function_call_output");
                                  ("call_id", JStr "fc1");
                                  ("output", JStr (Sample.print result))])])
                    (Some e);
               Sent (JObj [("type", JStr "conversation.item.create");
                           ("item",
                            JObj [("type", JStr "function_call_output");
                                  ("call_id", JStr "fc1");
                                  ("output",
                                   JStr (Sample.print
                                           (JObj [("error",
                                                   JStr "connection reset")])))])])
                    None;
               Sent (JObj [("type", JStr "response.create")]) None].
Proof.
  intros e. split; [reflexivity |].
  destruct (refused_tool_result_is_sent_again_as_an_error (lib := Sample.lib)
              mock_order_query Sample.tool_call_event
              (Sample.print (JObj [("order_id", JStr "ORD1")]))
              (JObj [("order_id", JStr "ORD1")]) e [] Inputs.refusing_once)
    as (result & s1 & _ & Hevent & Hout).
  - reflexivity.
  - reflexivity.
  - vm_compute. reflexivity.
  - intros order_id e' H. discriminate H.
  - reflexivity.
  - reflexivity.
  - reflexivity.
  - reflexivity.
  - exists result, s1. split; [exact Hevent | exact Hout].
Defined.

Lemma call_record_follows_the_call_witness :
  let start :=
    [("callSid", JStr "CA1"); ("streamSid", JStr "MZ1");
     ("customParameters", JObj [("from", JStr "+919876543210")])] in
  let frames := [Sample.first_start; Sample.print Sample.stop] in
  let s1 := snd (twilio_to_openai (lib := Sample.lib) "sess_1" frames None
                   Sample.streaming) in
  let s2 := snd (cleanup_session (JStr "CA1") s1) in
  start_frame_for (lib := Sample.lib) Sample.first_start "CA1" start
  /\ stop_frame (lib := Sample.lib) (Sample.print Sample.stop)
  /\ exists record,
       dict_get record "status" = Some (JStr "completed") /\
       dict_get record "start_time" = Some (JStr (Sample.stamp 1)) /\
       dict_get record "end_time" = Some (JStr (Sample.stamp 3)) /\
       get_call_details "CA1" s1
       = (Ok (Returned
                (JObj [("call", JObj record);
                       ("conversation", JArr []);
                       ("is_active", JBool true)])), s1) /\
       get_call_details "CA1" s2
       = (Ok (Returned
                (JObj [("call", JObj record);
                       ("conversation", JArr []);
                       ("is_active", JBool false)])), s2).
Proof.
  intros start frames s1 s2.
  assert (Hstart : start_frame_for (lib := Sample.lib) Sample.first_start "CA1" start).
  { exists [("event", JStr "start"); ("start", JObj start)],
      [("from", JStr "+919876543210")].
    repeat split; try reflexivity. discriminate. }
  assert (Hstop : stop_frame (lib := Sample.lib) (Sample.print Sample.stop)).
  { exists [("event", JStr "stop")]. split; reflexivity. }
  split; [exact Hstart |]. split; [exact Hstop |].
  destruct (call_record_follows_the_call (lib := Sample.lib) "sess_1"
              Sample.first_start (Sample.print Sample.stop) "CA1" start None
              Sample.streaming Hstart Hstop)
    as (record & _ & Hstatus & _ & Hfrom & Hto & Hactive & Hdone);
    [vm_compute; reflexivity |].
  exists record. repeat split; assumption.
Defined.

Lemma call_without_stop_stays_in_progress_witness :
  let start :=
    [("callSid", JStr "CA1"); ("streamSid", JStr "MZ1");
     ("customParameters", JObj [("from", JStr "+919876543210")])] in
  let disconnect := Some (Exn WebSocketDisconnect "1006") in
  let s1 := snd (twilio_to_openai (lib := Sample.lib) "sess_1" [Sample.first_start]
                   disconnect Sample.streaming) in
  let s2 := snd (cleanup_session (JStr "CA1") s1) in
  start_frame_for (lib := Sample.lib) Sample.first_start "CA1" start
  /\ ordinary disconnect
  /\ exists record,
       fst (twilio_to_openai (lib := Sample.lib) "sess_1" [Sample.first_start]
              disconnect Sample.streaming) = Ok tt /\
       dict_get record "status" = Some (JStr "in-progress") /\
       dict_get record "end_time" = Some JNull /\
       get_call_details "CA1" s2
       = (Ok (Returned
                (JObj [("call", JObj record);
                       ("conversation", JArr []);
                       ("is_active", JBool false)])), s2).
Proof.
  intros start disconnect s1 s2.
  assert (Hstart : start_frame_for (lib := Sample.lib) Sample.first_start "CA1" start).
  { exists [("event", JStr "start"); ("start", JObj start)],
      [("from", JStr "+919876543210")].
    repeat split; try reflexivity. discriminate. }
  assert (Hend : ordinary disconnect).
  { intros e [= <-]. reflexivity. }
  split; [exact Hstart |]. split; [exact Hend |].
  exact (call_without_stop_stays_in_progress (lib := Sample.lib) "sess_1"
           Sample.first_start "CA1" start disconnect Sample.streaming Hstart Hend).
Defined.

Lemma outbound_call_is_placed_to_the_sanitized_number_witness :
  let answer client :=
    fst (initiate_outbound_call "agent.example.com" "+911234567890" client
           "(987) 654-3210" (JObj []) fresh_state) in
  answer Inputs.twilio_accepts
  = Ok (Returned
          (JObj [("status", JStr "success");
                 ("call_sid", JStr "CA900");
                 ("to_number", JStr "+919876543210");
                 ("message", JStr "Outbound call initiated successfully")]))
  /\ answer Inputs.twilio_refuses
     = Ok (HTTPException 500 "HTTP 401 error: Unable to create record").
Proof.
  intros answer. split.
  - exact (proj1 (outbound_call_is_placed_to_the_sanitized_number "agent.example.com"
                    "+911234567890" Inputs.twilio_accepts "(987) 654-3210" (JObj [])
                    fresh_state)
             (JStr "CA900") (JStr "queued") eq_refl).
  - exact (proj2 (outbound_call_is_placed_to_the_sanitized_number "agent.example.com"
                    "+911234567890" Inputs.twilio_refuses "(987) 654-3210" (JObj [])
                    fresh_state)
             (Exn TransportError "HTTP 401 error: Unable to create record")
             eq_refl eq_refl).
Defined.

Lemma valid_phone_stays_valid_when_sanitized_witness :
  validate_indian_phone "(987) 654-3210" = true
  /\ validate_indian_phone (sanitize_phone_number "(987) 654-3210") = true
  /\ sanitize_phone_number "(987) 654-3210" = "+919876543210".
Proof.
  assert (Hvalid : validate_indian_phone "(987) 654-3210" = true) by reflexivity.
  split; [exact Hvalid |].
  destruct (valid_phone_stays_valid_when_sanitized "(987) 654-3210" Hvalid)
    as (Hstill & Hadded & _).
  split; [exact Hstill |]. destruct (Hadded eq_refl) as [_ Hnumber]. exact Hnumber.
Defined.

Lemma masked_phone_shows_the_last_four_witness :
  exists masked,
    mask_sensitive_data "9876543210" "phone" = Ok masked /\
    String.length masked = 10%nat /\
    String.get 5 masked = Some "*"%char /\
    String.get 6 masked = Some "3"%char.
Proof.
  destruct (masked_phone_shows_the_last_four "9876543210") as [_ H].
  destruct H as (masked & Hmasked & Hlength & Hget); [cbn; lia |].
  exists masked. split; [exact Hmasked |]. split; [exact Hlength |]. split.
  - apply (Hget 5%nat). cbn. lia.
  - apply (Hget 6%nat). cbn. lia.
Defined.

Lemma masked_email_keeps_first_character_and_domain_witness :
  mask_sensitive_data "sharma@gmail.com" "email" = Ok "s*****@gmail.com"
  /\ mask_sensitive_data "@gmail.com" "email"
     = Raise (Exn IndexError "string index out of range")
  /\ mask_sensitive_data "sharma" "email" = Ok "***@***.com".
Proof.
  destruct (masked_email_keeps_first_character_and_domain "gmail.com")
    as (Hempty & Hkept & Hnone).
  split; [exact (Hkept "s"%char "harma" eq_refl) |].
  split; [exact Hempty | exact (Hnone "sharma" eq_refl)].
Defined.

Lemma truncate_text_fits_iff_suffix_fits_witness :
  truncate_text "Namaste ji, kaise hain?" 10 "..." = "Namaste..."
  /\ Z.of_nat (String.length (truncate_text "Namaste ji, kaise hain?" 10 "...")) = 10
  /\ ~ Z.of_nat (String.length (truncate_text "Namaste ji, kaise hain?" 2 "...")) <= 2.
Proof.
  destruct (truncate_text_fits_iff_suffix_fits "Namaste ji, kaise hain?" 10 "...")
    as (_ & _ & Hcut).
  destruct Hcut as [Hresult Hlength]; [cbn; lia |].
  split; [exact Hresult |]. split; [exact Hlength |].
  destruct (truncate_text_fits_iff_suffix_fits "Namaste ji, kaise hain?" 2 "...")
    as (Hfits & _ & _).
  intros Hle. apply Hfits in Hle. cbn in Hle. lia.
Defined.
